(** * Skillora quizzes: attempt life cycle and scoring

    A shallow embedding of [backend/quizzes/models.py] and of the request
    handlers of [backend/quizzes/views.py] that write quiz attempts, with
    the properties of the attempt state machine and of the scoring engine
    proved (or refuted) on it.

    Conventions of the embedding:
    - a database table is the list of its rows, oldest row first; a row is
      a record with the columns the quiz code reads or writes;
    - a UUID primary key is a [positive];
    - a [DateTimeField] is the number of microseconds since
      1970-01-01T00:00 UTC, a [timedelta] a number of microseconds;
    - a [PositiveIntegerField] is a [Z] (the code compares and adds such
      values with request data that can be negative); what SQLite, the
      configured database, makes of the value a method has assigned when
      the row is written is [write_integers];
    - a [FloatField] is an IEEE 754 binary64 number ([spec_float] with
      precision 53), computed with the rounding Python applies;
    - a Python exception is the [Raise] case of [result];
    - [timezone.now()] is the argument [now] of the operation that reads
      the clock: one reading per request. *)

From Stdlib Require Import ZArith Floats.SpecFloat.
From stdpp Require Import base decidable option list gmap strings pretty.

Open Scope Z_scope.

(** ** Exceptions *)

Inductive exn : Type :=
  | ValueError (msg : string)
  | ZeroDivisionError
  | DoesNotExist
  | IntegrityError
  | FieldError
  | OverflowError
  | TypeError.

Inductive result (A : Type) : Type :=
  | Ok (a : A)
  | Raise (e : exn).
Arguments Ok {A} a.
Arguments Raise {A} e.

#[global] Instance result_ret : MRet result := fun A a => Ok a.
#[global] Instance result_bind : MBind result := fun A B f m =>
  match m with
  | Ok a => f a
  | Raise e => Raise e
  end.

Definition lookup_or_raise {A} (o : option A) : result A :=
  match o with
  | Some a => Ok a
  | None => Raise DoesNotExist
  end.

(** ** Python numbers *)

Module Py.

Definition float : Type := spec_float.
Definition prec : Z := 53.
Definition emax : Z := 1024.

(** An integer as an unrounded (mantissa, exponent 0) pair: the operand
    of a correctly rounded integer division. *)
Definition raw_int (n : Z) : float :=
  match n with
  | Z0 => S754_zero false
  | Zpos p => S754_finite false p 0
  | Zneg p => S754_finite true p 0
  end.

(** [float(n)]. *)
Definition float_of_int (n : Z) : float :=
  binary_normalize prec emax n 0 false.

(** [a / b] on two [int]s: the exact quotient rounded once, to nearest
    even; [ZeroDivisionError] when [b] is zero. *)
Definition int_truediv (a b : Z) : result float :=
  if b =? 0 then Raise ZeroDivisionError
  else Ok (SFdiv prec emax (raw_int a) (raw_int b)).

(** [x * n] with [x] a [float] and [n] an [int]. *)
Definition float_mul_int (x : float) (n : Z) : float :=
  SFmul prec emax x (float_of_int n).

(** [x >= n] with [x] a [float] and [n] an [int]: Python compares the
    two exact values, and a NaN is not above anything. *)
Definition float_ge_int (x : float) (n : Z) : bool :=
  match x with
  | S754_nan => false
  | S754_infinity s => negb s
  | S754_zero _ => 0 >=? n
  | S754_finite s m e =>
      let v := if s then Zneg m else Zpos m in
      if 0 <=? e then v * 2 ^ e >=? n else v >=? n * 2 ^ (- e)
  end.

(** [int(x)]: truncation towards zero (of a finite [x]). *)
Definition int_of_float (x : float) : Z :=
  match x with
  | S754_finite s m e =>
      let v := if s then Zneg m else Zpos m in
      if 0 <=? e then v * 2 ^ e else Z.quot v (2 ^ (- e))
  | _ => 0
  end.

(** How a [float] compares with an [int]: by the two exact values; a NaN
    does not compare. *)
Definition float_cmp_int (x : float) (n : Z) : option comparison :=
  match x with
  | S754_nan => None
  | S754_infinity s => Some (if s then Lt else Gt)
  | S754_zero _ => Some (0 ?= n)
  | S754_finite s m e =>
      let v := if s then Zneg m else Zpos m in
      Some (if 0 <=? e then v * 2 ^ e ?= n else v ?= n * 2 ^ (- e))
  end.

(** A value of a JSON request body where the code expects a number: a
    truth value, an integer, a float, or something else ([null], a string,
    a list, an object). *)
Inductive value : Type :=
  | VBool (b : bool)
  | VInt (n : Z)
  | VFloat (x : float)
  | VOther.

(** [v < n], [v > n] and [v == n] with [n] an [int]: an order comparison
    with something that is no number raises [TypeError]; equality never
    raises. *)
Definition value_lt_int (v : value) (n : Z) : result bool :=
  match v with
  | VBool b => Ok (Z.b2z b <? n)
  | VInt k => Ok (k <? n)
  | VFloat x => Ok (bool_decide (float_cmp_int x n = Some Lt))
  | VOther => Raise TypeError
  end.

Definition value_gt_int (v : value) (n : Z) : result bool :=
  match v with
  | VBool b => Ok (Z.b2z b >? n)
  | VInt k => Ok (k >? n)
  | VFloat x => Ok (bool_decide (float_cmp_int x n = Some Gt))
  | VOther => Raise TypeError
  end.

Definition value_eq_int (v : value) (n : Z) : bool :=
  match v with
  | VBool b => Z.b2z b =? n
  | VInt k => k =? n
  | VFloat x => bool_decide (float_cmp_int x n = Some Eq)
  | VOther => false
  end.

(** [int(v)], as the integer columns prepare a value for the database. *)
Definition int_of_value (v : value) : result Z :=
  match v with
  | VBool b => Ok (Z.b2z b)
  | VInt k => Ok k
  | VFloat S754_nan => Raise (ValueError "cannot convert float NaN to integer")
  | VFloat (S754_infinity _) => Raise OverflowError
  | VFloat x => Ok (int_of_float x)
  | VOther => Raise TypeError
  end.

End Py.

(** ** Dates *)

Definition uuid : Type := positive.
Bind Scope positive_scope with uuid.
Definition datetime : Type := Z.
Definition timedelta : Type := Z.

(** [datetime.min] and [datetime.max], read in UTC. *)
Definition datetime_min : datetime := -62135596800000000.
Definition datetime_max : datetime := 253402300799999999.

(** [timezone.timedelta(minutes=n)]: Python refuses a [timedelta] of more
    than 999999999 days. *)
Definition timedelta_minutes (n : Z) : result timedelta :=
  if Z.abs (n * 60 / 86400) >? 999999999 then Raise OverflowError
  else Ok (n * 60000000).

(** [d + td] on a [datetime]: Python refuses a result outside the years 1
    to 9999. *)
Definition datetime_add (d : datetime) (td : timedelta) : result datetime :=
  let sum := d + td in
  if (datetime_min <=? sum) && (sum <=? datetime_max) then Ok sum
  else Raise OverflowError.

(** ** Integer columns *)

(** What SQLite makes of the values of [PositiveIntegerField] columns when
    a row is written: the driver refuses an integer outside the 64-bit
    range with [OverflowError] when it binds the values, and the
    [CHECK (column >= 0)] of the column then refuses a negative one with
    [IntegrityError]; nothing is written in either case. *)
Definition min_integer : Z := -9223372036854775808.
Definition max_integer : Z := 9223372036854775807.

Definition sqlite_integer (v : Z) : bool :=
  (min_integer <=? v) && (v <=? max_integer).

Definition write_integers (values : list Z) : result unit :=
  if negb (forallb sqlite_integer values) then Raise OverflowError
  else if negb (forallb (Z.leb 0) values) then Raise IntegrityError
  else Ok tt.

(** [td.total_seconds()], which Python computes as the integer division
    [microseconds / 10**6] rounded to a float. *)
Definition total_seconds (td : timedelta) : Py.float :=
  SFdiv Py.prec Py.emax (Py.raw_int td) (Py.raw_int 1000000).

(** ** Rows *)

Inductive role : Type := learner | teacher | admin.

Inductive enrollment_status : Type :=
  | enr_active | enr_completed | enr_dropped | enr_suspended.

Inductive attempt_status : Type :=
  | not_started | in_progress | completed | abandoned | time_expired.

Inductive question_type : Type :=
  | multiple_choice | true_false | short_answer | essay
  | fill_blank | matching | ordering.

#[global] Instance role_eq_dec : EqDecision role.
Proof. solve_decision. Defined.
#[global] Instance enrollment_status_eq_dec : EqDecision enrollment_status.
Proof. solve_decision. Defined.
#[global] Instance attempt_status_eq_dec : EqDecision attempt_status.
Proof. solve_decision. Defined.
#[global] Instance question_type_eq_dec : EqDecision question_type.
Proof. solve_decision. Defined.

Module User.
Record t : Type := mk {
  id : uuid;
  name : string;
  role : role;
}.
End User.

Module Course.
Record t : Type := mk {
  id : uuid;
  instructor : uuid;
  created_at : datetime;
}.
End Course.

Module Enrollment.
Record t : Type := mk {
  id : uuid;
  student : uuid;
  course : uuid;
  status : enrollment_status;
}.
End Enrollment.

Module Quiz.
Record t : Type := mk {
  id : uuid;
  course : uuid;
  time_limit_minutes : option Z;
  max_attempts : Z;
  passing_score : Z;
  total_points : Z;
  available_from : option datetime;
  available_until : option datetime;
  is_active : bool;
  shuffle_questions : bool;
  shuffle_answers : bool;
  show_correct_answers : bool;
  show_score_immediately : bool;
  allow_review : bool;
  require_completion : bool;
  created_at : datetime;
}.

Definition set_total_points (v : Z) (q : t) : t :=
  mk (id q) (course q) (time_limit_minutes q) (max_attempts q)
     (passing_score q) v (available_from q) (available_until q)
     (is_active q) (shuffle_questions q) (shuffle_answers q)
     (show_correct_answers q) (show_score_immediately q) (allow_review q)
     (require_completion q) (created_at q).
End Quiz.

Module Question.
Record t : Type := mk {
  id : uuid;
  quiz : uuid;
  question_type : question_type;
  points : Z;
  order : Z;
}.

Definition set_order (v : Z) (q : t) : t :=
  mk (id q) (quiz q) (question_type q) (points q) v.
End Question.

Module Answer.
Record t : Type := mk {
  id : uuid;
  question : uuid;
  answer_text : string;
  is_correct : bool;
  match_order : option Z;
  order : Z;
}.
End Answer.

Module QuizAttempt.
Record t : Type := mk {
  id : uuid;
  quiz : uuid;
  student : uuid;
  enrollment : option uuid;
  attempt_number : Z;
  status : attempt_status;
  score_points : Z;
  score_percentage : Py.float;
  passed : bool;
  time_limit_minutes : option Z;
  time_spent_seconds : Z;
  started_at : option datetime;
  completed_at : option datetime;
  expires_at : option datetime;
  quiz_settings : gmap string bool;
  created_at : datetime;
  updated_at : datetime;
}.

Definition set_status (v : attempt_status) (a : t) : t :=
  mk (id a) (quiz a) (student a) (enrollment a) (attempt_number a) v
     (score_points a) (score_percentage a) (passed a)
     (time_limit_minutes a) (time_spent_seconds a) (started_at a)
     (completed_at a) (expires_at a) (quiz_settings a) (created_at a)
     (updated_at a).

Definition set_score (points : Z) (percentage : Py.float) (pass : bool)
    (a : t) : t :=
  mk (id a) (quiz a) (student a) (enrollment a) (attempt_number a)
     (status a) points percentage pass
     (time_limit_minutes a) (time_spent_seconds a) (started_at a)
     (completed_at a) (expires_at a) (quiz_settings a) (created_at a)
     (updated_at a).

Definition set_time_limit (limit : option Z) (expires : option datetime)
    (a : t) : t :=
  mk (id a) (quiz a) (student a) (enrollment a) (attempt_number a)
     (status a) (score_points a) (score_percentage a) (passed a)
     limit (time_spent_seconds a) (started_at a)
     (completed_at a) expires (quiz_settings a) (created_at a)
     (updated_at a).

Definition set_time_spent_seconds (v : Z) (a : t) : t :=
  mk (id a) (quiz a) (student a) (enrollment a) (attempt_number a)
     (status a) (score_points a) (score_percentage a) (passed a)
     (time_limit_minutes a) v (started_at a)
     (completed_at a) (expires_at a) (quiz_settings a) (created_at a)
     (updated_at a).

Definition set_started_at (v : option datetime) (a : t) : t :=
  mk (id a) (quiz a) (student a) (enrollment a) (attempt_number a)
     (status a) (score_points a) (score_percentage a) (passed a)
     (time_limit_minutes a) (time_spent_seconds a) v
     (completed_at a) (expires_at a) (quiz_settings a) (created_at a)
     (updated_at a).

Definition set_completed_at (v : option datetime) (a : t) : t :=
  mk (id a) (quiz a) (student a) (enrollment a) (attempt_number a)
     (status a) (score_points a) (score_percentage a) (passed a)
     (time_limit_minutes a) (time_spent_seconds a) (started_at a)
     v (expires_at a) (quiz_settings a) (created_at a)
     (updated_at a).

Definition set_quiz_settings (v : gmap string bool) (a : t) : t :=
  mk (id a) (quiz a) (student a) (enrollment a) (attempt_number a)
     (status a) (score_points a) (score_percentage a) (passed a)
     (time_limit_minutes a) (time_spent_seconds a) (started_at a)
     (completed_at a) (expires_at a) v (created_at a)
     (updated_at a).

Definition set_updated_at (v : datetime) (a : t) : t :=
  mk (id a) (quiz a) (student a) (enrollment a) (attempt_number a)
     (status a) (score_points a) (score_percentage a) (passed a)
     (time_limit_minutes a) (time_spent_seconds a) (started_at a)
     (completed_at a) (expires_at a) (quiz_settings a) (created_at a)
     v.
End QuizAttempt.

Module QuestionResponse.
Record t : Type := mk {
  id : uuid;
  attempt : uuid;
  question : uuid;
  selected_answers : gset uuid;
  text_response : string;
  response_data : string;   (* the JSON text of the column *)
  is_correct : bool;
  points_earned : Z;
  time_spent_seconds : Z;
  answered_at : datetime;
}.

Definition set_evaluation (correct : bool) (points : Z) (r : t) : t :=
  mk (id r) (attempt r) (question r) (selected_answers r)
     (text_response r) (response_data r) correct points
     (time_spent_seconds r) (answered_at r).

Definition set_is_correct (correct : bool) (r : t) : t :=
  set_evaluation correct (points_earned r) r.

Definition set_points_earned (points : Z) (r : t) : t :=
  set_evaluation (is_correct r) points r.

Definition set_response_data (v : string) (r : t) : t :=
  mk (id r) (attempt r) (question r) (selected_answers r)
     (text_response r) v (is_correct r) (points_earned r)
     (time_spent_seconds r) (answered_at r).

Definition set_text_response (v : string) (r : t) : t :=
  mk (id r) (attempt r) (question r) (selected_answers r)
     v (response_data r) (is_correct r) (points_earned r)
     (time_spent_seconds r) (answered_at r).

Definition set_selected_answers (v : gset uuid) (r : t) : t :=
  mk (id r) (attempt r) (question r) v
     (text_response r) (response_data r) (is_correct r) (points_earned r)
     (time_spent_seconds r) (answered_at r).

Definition set_time_spent_seconds (v : Z) (r : t) : t :=
  mk (id r) (attempt r) (question r) (selected_answers r)
     (text_response r) (response_data r) (is_correct r) (points_earned r)
     v (answered_at r).

Definition set_question (v : uuid) (r : t) : t :=
  mk (id r) (attempt r) v (selected_answers r)
     (text_response r) (response_data r) (is_correct r) (points_earned r)
     (time_spent_seconds r) (answered_at r).

Definition set_answered_at (v : datetime) (r : t) : t :=
  mk (id r) (attempt r) (question r) (selected_answers r)
     (text_response r) (response_data r) (is_correct r) (points_earned r)
     (time_spent_seconds r) v.
End QuestionResponse.

(** ** The database *)

Record DB : Type := mkDB {
  courses : list Course.t;
  enrollments : list Enrollment.t;
  quizzes : list Quiz.t;
  questions : list Question.t;
  answers : list Answer.t;
  attempts : list QuizAttempt.t;
  responses : list QuestionResponse.t;
}.

Definition set_quizzes (v : list Quiz.t) (db : DB) : DB :=
  mkDB (courses db) (enrollments db) v (questions db) (answers db)
       (attempts db) (responses db).
Definition set_questions (v : list Question.t) (db : DB) : DB :=
  mkDB (courses db) (enrollments db) (quizzes db) v (answers db)
       (attempts db) (responses db).
Definition set_attempts (v : list QuizAttempt.t) (db : DB) : DB :=
  mkDB (courses db) (enrollments db) (quizzes db) (questions db) (answers db)
       v (responses db).
Definition set_responses (v : list QuestionResponse.t) (db : DB) : DB :=
  mkDB (courses db) (enrollments db) (quizzes db) (questions db) (answers db)
       (attempts db) v.

Section Tables.
Context {A : Type} (pk : A → uuid).

(** [Model.objects.get(id=i)]. *)
Definition get_row (i : uuid) (rows : list A) : option A :=
  List.find (fun r => bool_decide (pk r = i)) rows.

(** [instance.save()]: the row of that primary key is overwritten, or the
    instance becomes the newest row. *)
Definition save_row (x : A) (rows : list A) : list A :=
  match get_row (pk x) rows with
  | Some _ => (fun r => if bool_decide (pk r = pk x) then x else r) <$> rows
  | None => rows ++ [x]
  end.

(** [instance.delete()], for the row itself. *)
Definition delete_row (i : uuid) (rows : list A) : list A :=
  List.filter (fun r => negb (bool_decide (pk r = i))) rows.

(** [queryset.order_by(...)] on rows in table order, for the strict order
    [before]: a stable insertion sort (the database leaves the order of
    rows that compare equal open; here they keep their table order). *)
Fixpoint insert_by (before : A → A → bool) (x : A) (sorted : list A)
    : list A :=
  match sorted with
  | [] => [x]
  | y :: rest =>
      if before y x then y :: insert_by before x rest else x :: y :: rest
  end.

Definition order_by (before : A → A → bool) (rows : list A) : list A :=
  foldr (insert_by before) [] rows.

(** [queryset.first()] for a queryset ordered by [before]. *)
Definition first_by (before : A → A → bool) (rows : list A) : option A :=
  head (order_by before rows).
End Tables.

(** [sum(...)] over a queryset. *)
Definition sum_of {A} (f : A → Z) (rows : list A) : Z :=
  foldr (fun r acc => f r + acc) 0 rows.

(** Lexicographic "comes before" on sort keys. *)
Fixpoint key_before (k1 k2 : list Z) : bool :=
  match k1, k2 with
  | x :: k1', y :: k2' => (x <? y) || ((x =? y) && key_before k1' k2')
  | _, _ => false
  end.

(** ** [class Quiz] *)

(** [Quiz.is_available]. *)
Definition is_available (now : datetime) (self : Quiz.t) : bool :=
  if match Quiz.available_from self with
     | Some from => now <? from
     | None => false
     end
  then false
  else if match Quiz.available_until self with
          | Some until => now >? until
          | None => false
          end
  then false
  else Quiz.is_active self.

(** [quiz.questions.all()]. *)
Definition quiz_questions (db : DB) (quiz : uuid) : list Question.t :=
  List.filter (fun q => bool_decide (Question.quiz q = quiz)) (questions db).

(** [Quiz.calculate_total_points]: the sum is written to the
    [total_points] column of the quiz's row ([update_fields]). *)
Definition calculate_total_points (db : DB) (self : uuid) : result (Z * DB) :=
  let total := sum_of Question.points (quiz_questions db self) in
  _ ← write_integers [total];
  Ok (total,
      set_quizzes
        ((fun q => if bool_decide (Quiz.id q = self)
                   then Quiz.set_total_points total q else q) <$> quizzes db)
        db).

(** ** [class Question] *)

(** [unique_together = ['quiz', 'order']], checked by the database when a
    row is written. *)
Definition question_order_taken (db : DB) (self : Question.t) : bool :=
  existsb (fun q => bool_decide (Question.quiz q = Question.quiz self)
                    && (Question.order q =? Question.order self)
                    && negb (bool_decide (Question.id q = Question.id self)))
          (questions db).

(** The first half of [Question.save]: the order is assigned, for which
    [self.quiz] is fetched, and [super().save()] writes the row, which the
    database refuses when [points] or [order] do not fit their columns,
    when the order is taken, or when the quiz is no row (the foreign
    key). *)
Definition Question_save_row (db : DB) (self : Question.t)
    : result (Question.t * DB) :=
  self ←
    (if Question.order self =? 0 then
       _ ← lookup_or_raise
             (get_row Quiz.id (Question.quiz self) (quizzes db));
       let last_question :=
         first_by (fun a b => Question.order a >? Question.order b)
                  (quiz_questions db (Question.quiz self)) in
       Ok (Question.set_order
             (match last_question with
              | Some l => Question.order l + 1
              | None => 1
              end) self)
     else Ok self);
  _ ← write_integers [Question.points self; Question.order self];
  if question_order_taken db self
     || negb (bool_decide
                (is_Some (get_row Quiz.id (Question.quiz self) (quizzes db))))
  then Raise IntegrityError else
  Ok (self, set_questions (save_row Question.id self (questions db)) db).

(** [Question.save]. No transaction spans its two halves: when the total
    is refused, the row of the question stays written. *)
Definition Question_save (db : DB) (self : Question.t)
    : result (Question.t * DB) :=
  '(self, db) ← Question_save_row db self;
  '(_, db) ← calculate_total_points db (Question.quiz self);
  Ok (self, db).

(** [question.delete()], which the model does not override: the row goes,
    and with it ([on_delete=CASCADE]) its answers, the responses to it and
    the selections of its answers. *)
Definition Question_delete (db : DB) (self : uuid) : DB :=
  let gone : gset uuid :=
    list_to_set
      (Answer.id <$> List.filter
         (fun a => bool_decide (Answer.question a = self)) (answers db)) in
  mkDB (courses db) (enrollments db) (quizzes db)
       (delete_row Question.id self (questions db))
       (List.filter (fun a => negb (bool_decide (Answer.question a = self)))
                    (answers db))
       (attempts db)
       ((fun r => QuestionResponse.set_selected_answers
                    (QuestionResponse.selected_answers r ∖ gone) r)
          <$> List.filter
                (fun r => negb (bool_decide
                                  (QuestionResponse.question r = self)))
                (responses db)).

(** ** [class QuizAttempt] *)

(** [attempt.save()]: [updated_at] is an [auto_now] column. A row read
    from the table holds integers the database has accepted; the methods
    that assign an integer column pass the new values through
    [write_integers] before they save. *)
Definition QuizAttempt_save (db : DB) (now : datetime) (self : QuizAttempt.t)
    : QuizAttempt.t * DB :=
  let self := QuizAttempt.set_updated_at now self in
  (self, set_attempts (save_row QuizAttempt.id self (attempts db)) db).

(** The dictionary [start_attempt] stores in [quiz_settings]. *)
Definition settings_of (quiz : Quiz.t) : gmap string bool :=
  <["shuffle_questions" := Quiz.shuffle_questions quiz]>
  (<["shuffle_answers" := Quiz.shuffle_answers quiz]>
  (<["show_correct_answers" := Quiz.show_correct_answers quiz]>
  (<["show_score_immediately" := Quiz.show_score_immediately quiz]>
  (<["allow_review" := Quiz.allow_review quiz]> ∅)))).

(** [QuizAttempt.start_attempt]. *)
Definition start_attempt (db : DB) (now : datetime) (self : QuizAttempt.t)
    : result (QuizAttempt.t * DB) :=
  if negb (bool_decide (QuizAttempt.status self = not_started))
  then Raise (ValueError "Attempt already started") else
  let self := QuizAttempt.set_status in_progress self in
  let self := QuizAttempt.set_started_at (Some now) self in
  quiz ← lookup_or_raise (get_row Quiz.id (QuizAttempt.quiz self) (quizzes db));
  self ←
    match Quiz.time_limit_minutes quiz with
    | Some minutes =>
        if minutes =? 0 then Ok self
        else
          limit ← timedelta_minutes minutes;
          expires_at ← datetime_add now limit;
          Ok (QuizAttempt.set_time_limit (Some minutes) (Some expires_at)
                                         self)
    | None => Ok self
    end;
  let self := QuizAttempt.set_quiz_settings (settings_of quiz) self in
  Ok (QuizAttempt_save db now self).

(** [attempt.responses.all()]. *)
Definition attempt_responses (db : DB) (attempt : uuid)
    : list QuestionResponse.t :=
  List.filter (fun r => bool_decide (QuestionResponse.attempt r = attempt))
              (responses db).

(** The [for] loop of [calculate_score], from the running values of
    [total_points] and [earned_points]. *)
Fixpoint score_loop (db : DB) (rs : list QuestionResponse.t)
    (total_points earned_points : Z) : result (Z * Z) :=
  match rs with
  | [] => Ok (total_points, earned_points)
  | response :: rest =>
      question ← lookup_or_raise
        (get_row Question.id (QuestionResponse.question response)
                 (questions db));
      let total_points := total_points + Question.points question in
      let earned_points :=
        if QuestionResponse.is_correct response
        then earned_points + Question.points question
        else earned_points in
      score_loop db rest total_points earned_points
  end.

(** [QuizAttempt.calculate_score]; nothing is saved. The [0] assigned to
    [score_percentage] when there are no points is the float zero of the
    column. *)
Definition calculate_score (db : DB) (self : QuizAttempt.t)
    : result QuizAttempt.t :=
  '(total_points, earned_points) ←
    score_loop db (attempt_responses db (QuizAttempt.id self)) 0 0;
  score_percentage ←
    (if total_points >? 0 then
       ratio ← Py.int_truediv earned_points total_points;
       Ok (Py.float_mul_int ratio 100)
     else Ok (S754_zero false));
  quiz ← lookup_or_raise (get_row Quiz.id (QuizAttempt.quiz self) (quizzes db));
  Ok (QuizAttempt.set_score earned_points score_percentage
        (Py.float_ge_int score_percentage (Quiz.passing_score quiz)) self).

(** [QuizAttempt.complete_attempt]. *)
Definition complete_attempt (db : DB) (now : datetime) (self : QuizAttempt.t)
    : result (QuizAttempt.t * DB) :=
  if negb (bool_decide (QuizAttempt.status self = in_progress)
           || bool_decide (QuizAttempt.status self = time_expired))
  then Raise (ValueError "Cannot complete attempt in current status") else
  let self := QuizAttempt.set_status completed self in
  let self := QuizAttempt.set_completed_at (Some now) self in
  let self :=
    match QuizAttempt.started_at self with
    | Some started =>
        QuizAttempt.set_time_spent_seconds
          (Py.int_of_float (total_seconds (now - started))) self
    | None => self
    end in
  self ← calculate_score db self;
  _ ← write_integers [QuizAttempt.time_spent_seconds self;
                      QuizAttempt.score_points self];
  Ok (QuizAttempt_save db now self).

(** [QuizAttempt.is_expired]. *)
Definition is_expired (now : datetime) (self : QuizAttempt.t) : bool :=
  match QuizAttempt.expires_at self with
  | Some expires => now >? expires
  | None => false
  end.

(** ** [class QuestionResponse] *)

(** The default ordering of [Answer] rows, [['question', 'order']]: a
    foreign key in an ordering stands for the default ordering of the model
    it points to, so the key continues with [Question]'s
    [['quiz', 'order']], [Quiz]'s [['course', 'created_at']] and [Course]'s
    [['-created_at']]. *)
Definition answer_sort_key (db : DB) (a : Answer.t) : list Z :=
  let question := get_row Question.id (Answer.question a) (questions db) in
  let quiz :=
    question ≫= fun q => get_row Quiz.id (Question.quiz q) (quizzes db) in
  let course :=
    quiz ≫= fun z => get_row Course.id (Quiz.course z) (courses db) in
  [ from_option (fun c => - Course.created_at c) 0 course;
    from_option Quiz.created_at 0 quiz;
    from_option Question.order 0 question;
    Answer.order a ].

Definition answer_before (db : DB) (a b : Answer.t) : bool :=
  key_before (answer_sort_key db a) (answer_sort_key db b).

(** [question.answers.all()]. *)
Definition question_answers (db : DB) (question : uuid) : list Answer.t :=
  order_by (answer_before db)
    (List.filter (fun a => bool_decide (Answer.question a = question))
                 (answers db)).

(** [question.answers.filter(is_correct=True)]. *)
Definition correct_answers (db : DB) (question : uuid) : list Answer.t :=
  List.filter Answer.is_correct (question_answers db question).

(** [response.selected_answers.all()]: the answers the many-to-many
    relation links to the response. *)
Definition selected_answers_all (db : DB) (self : QuestionResponse.t)
    : list Answer.t :=
  order_by (answer_before db)
    (List.filter
       (fun a => bool_decide
                   (Answer.id a ∈ QuestionResponse.selected_answers self))
       (answers db)).

(** [order_by('match_order')]; SQLite, the configured database, sorts the
    rows without a [match_order] first. *)
Definition match_order_before (a b : Answer.t) : bool :=
  match Answer.match_order a, Answer.match_order b with
  | None, Some _ => true
  | Some x, Some y => x <? y
  | _, None => false
  end.

(** [response.save()]: [answered_at] is an [auto_now] column. As for
    attempts, the callers that assign an integer column from request data
    pass it through [write_integers] first. *)
Definition QuestionResponse_save (db : DB) (now : datetime)
    (self : QuestionResponse.t) : QuestionResponse.t * DB :=
  let self := QuestionResponse.set_answered_at now self in
  (self, set_responses (save_row QuestionResponse.id self (responses db)) db).

Section Evaluation.

(** What the evaluator asks of Python's strings, dictionaries and UUIDs:
    - [strip_lower s] is [s.strip().lower()];
    - [matching_equal data pairs] is the test
      [(data or {}) == {str(id): match_order for (id, match_order) in pairs}]
      on the decoded JSON text [data];
    - [ordering_ids data] is the list
      [[uuid.UUID(s) for s in (data or {}).get('order', [])]], or [None]
      when building it raises (an entry that is no UUID, say). *)
Variable strip_lower : string → string.
Variable matching_equal : string → list (uuid * option Z) → bool.
Variable ordering_ids : string → option (list uuid).

(** [QuestionResponse.evaluate_response]. *)
Definition evaluate_response (db : DB) (now : datetime)
    (self : QuestionResponse.t) : result (QuestionResponse.t * DB) :=
  question ← lookup_or_raise
    (get_row Question.id (QuestionResponse.question self) (questions db));
  self ←
    match Question.question_type question with
    | multiple_choice =>
        let correct_answers : gset uuid :=
          list_to_set
            (Answer.id <$> correct_answers db (Question.id question)) in
        let selected_answers : gset uuid :=
          list_to_set (Answer.id <$> selected_answers_all db self) in
        Ok (QuestionResponse.set_is_correct
              (bool_decide (correct_answers = selected_answers)) self)
    | true_false =>
        let correct_answer :=
          head (correct_answers db (Question.id question)) in
        let selected_answer := head (selected_answers_all db self) in
        Ok (QuestionResponse.set_is_correct
              (bool_decide (Answer.id <$> correct_answer
                            = Answer.id <$> selected_answer)) self)
    | short_answer | fill_blank =>
        let user_answer :=
          strip_lower (QuestionResponse.text_response self) in
        Ok (QuestionResponse.set_is_correct
              (existsb
                 (fun answer =>
                    bool_decide
                      (strip_lower (Answer.answer_text answer)
                       = user_answer))
                 (correct_answers db (Question.id question))) self)
    | essay => Ok (QuestionResponse.set_is_correct false self)
    | matching =>
        let correct_matches :=
          (fun answer => (Answer.id answer, Answer.match_order answer))
            <$> question_answers db (Question.id question) in
        Ok (QuestionResponse.set_is_correct
              (matching_equal (QuestionResponse.response_data self)
                              correct_matches) self)
    | ordering =>
        let correct_order :=
          Answer.id <$> order_by match_order_before
                          (List.filter
                             (fun a => bool_decide
                                (Answer.question a = Question.id question))
                             (answers db)) in
        match ordering_ids (QuestionResponse.response_data self) with
        | Some user_order =>
            Ok (QuestionResponse.set_is_correct
                  (bool_decide (correct_order = user_order)) self)
        | None => Raise (ValueError "badly formed hexadecimal UUID string")
        end
    end;
  let self :=
    QuestionResponse.set_points_earned
      (if QuestionResponse.is_correct self
       then Question.points question else 0) self in
  Ok (QuestionResponse_save db now self).

End Evaluation.

(** ** Request handlers ([views.py]) *)

Inductive body : Type :=
  | AttemptData (attempt : QuizAttempt.t)
  | ResponseData (response : QuestionResponse.t)
  | ErrorData (error : string)
  | SerializerErrors
  | NotFound
  | PermissionDenied
  | Unhandled (e : exn).

Record response : Type := Response {
  data : body;
  status_code : Z;
}.

Definition HTTP_200_OK : Z := 200.
Definition HTTP_201_CREATED : Z := 201.
Definition HTTP_400_BAD_REQUEST : Z := 400.
Definition HTTP_403_FORBIDDEN : Z := 403.
Definition HTTP_404_NOT_FOUND : Z := 404.
Definition HTTP_500_INTERNAL_SERVER_ERROR : Z := 500.

(** What [get_object_or_404] answers when no row matches. *)
Definition Http404 : response := Response NotFound HTTP_404_NOT_FOUND.
(** What a permission class that refuses the user answers. *)
Definition Http403 : response := Response PermissionDenied HTTP_403_FORBIDDEN.
(** An exception no handler catches. *)
Definition Http500 (e : exn) : response :=
  Response (Unhandled e) HTTP_500_INTERNAL_SERVER_ERROR.

(** [QuizAttempt.objects.filter(quiz=quiz, student=user)]. *)
Definition attempts_of (db : DB) (quiz student : uuid) : list QuizAttempt.t :=
  List.filter (fun a => bool_decide (QuizAttempt.quiz a = quiz)
                        && bool_decide (QuizAttempt.student a = student))
              (attempts db).

(** [class Meta: ordering = ['-created_at']] of [QuizAttempt]. *)
Definition attempt_before (a b : QuizAttempt.t) : bool :=
  QuizAttempt.created_at a >? QuizAttempt.created_at b.

(** [unique_together = ['quiz', 'student', 'attempt_number']]. *)
Definition attempt_number_taken (db : DB) (quiz student : uuid) (number : Z)
    : bool :=
  existsb (fun a => QuizAttempt.attempt_number a =? number)
          (attempts_of db quiz student).

(** [QuizAttempt.objects.create(quiz=..., student=..., enrollment=...,
    attempt_number=...)]: the other columns take their defaults, and the
    database refuses a second row with the primary key or with the
    [(quiz, student, attempt_number)] of a row it has. *)
Definition QuizAttempt_create (db : DB) (now : datetime) (new_id : uuid)
    (quiz student enrollment : uuid) (attempt_number : Z)
    : result (QuizAttempt.t * DB) :=
  if bool_decide (is_Some (get_row QuizAttempt.id new_id (attempts db)))
     || attempt_number_taken db quiz student attempt_number
  then Raise IntegrityError else
  let attempt :=
    QuizAttempt.mk new_id quiz student (Some enrollment) attempt_number
      not_started 0 (S754_zero false) false None 0 None None None ∅ now now in
  Ok (attempt, set_attempts (attempts db ++ [attempt]) db).

(** [Enrollment] rows with [student=user, course=quiz.course,
    status='active']; [unique_together = ['student', 'course']] leaves at
    most one. *)
Definition active_enrollment (db : DB) (student course : uuid)
    : option Enrollment.t :=
  List.find
    (fun e => bool_decide (Enrollment.student e = student)
              && bool_decide (Enrollment.course e = course)
              && bool_decide (Enrollment.status e = enr_active))
    (enrollments db).

(** [QuizAttempt.objects.filter(quiz=quiz, student=user,
    status='in_progress').first()]. *)
Definition in_progress_attempt_of (db : DB) (quiz student : uuid)
    : option QuizAttempt.t :=
  first_by attempt_before
    (List.filter (fun a => bool_decide (QuizAttempt.status a = in_progress))
                 (attempts_of db quiz student)).

(** [start_quiz_attempt]. *)
Definition start_quiz_attempt (db : DB) (now : datetime) (new_id : uuid)
    (user : User.t) (quiz_id : uuid) : response * DB :=
  if negb (bool_decide (User.role user = learner)) then (Http403, db) else
  match get_row Quiz.id quiz_id (quizzes db) with
  | None => (Http404, db)
  | Some quiz =>
  match active_enrollment db (User.id user) (Quiz.course quiz) with
  | None => (Http404, db)
  | Some enrollment =>
  if negb (is_available now quiz) then
    (Response (ErrorData "Quiz is not currently available")
              HTTP_400_BAD_REQUEST, db)
  else
  let existing_attempts :=
    Z.of_nat (length (attempts_of db quiz_id (User.id user))) in
  if existing_attempts >=? Quiz.max_attempts quiz then
    (Response (ErrorData ("Maximum attempts ("
                          +:+ pretty (Quiz.max_attempts quiz)
                          +:+ ") reached"))
              HTTP_400_BAD_REQUEST, db)
  else
  (* the new attempt, created and started in one transaction *)
  let create (db : DB) : response * DB :=
    match
      '(attempt, db') ← QuizAttempt_create db now new_id quiz_id
                          (User.id user) (Enrollment.id enrollment)
                          (existing_attempts + 1);
      start_attempt db' now attempt
    with
    | Ok (attempt, db') => (Response (AttemptData attempt) HTTP_201_CREATED, db')
    | Raise e => (Http500 e, db)
    end in
  match in_progress_attempt_of db quiz_id (User.id user) with
  | Some in_progress_attempt =>
      if is_expired now in_progress_attempt then
        create (snd (QuizAttempt_save db now
                       (QuizAttempt.set_status time_expired
                                               in_progress_attempt)))
      else (Response (AttemptData in_progress_attempt) HTTP_200_OK, db)
  | None => create db
  end
  end
  end.

(** [complete_quiz_attempt]. The refresh of the quiz's analytics that
    follows [complete_attempt] writes the [quiz_analytics] table only, which
    is not part of [DB]. *)
Definition complete_quiz_attempt (db : DB) (now : datetime) (user : User.t)
    (attempt_id : uuid) : response * DB :=
  if negb (bool_decide (User.role user = learner)) then (Http403, db) else
  match List.find
          (fun a => bool_decide (QuizAttempt.id a = attempt_id)
                    && bool_decide (QuizAttempt.student a = User.id user)
                    && (bool_decide (QuizAttempt.status a = in_progress)
                        || bool_decide (QuizAttempt.status a = time_expired)))
          (attempts db) with
  | None => (Http404, db)
  | Some attempt =>
      match complete_attempt db now attempt with
      | Ok (attempt, db') => (Response (AttemptData attempt) HTTP_200_OK, db')
      | Raise e => (Http500 e, db)
      end
  end.

(** The body of a [submit_question_response] request: a JSON object, of
    which each key is optional. The keys are the names under which
    [get_or_create] and [QuestionResponse(...)] accept a value for a new
    row (the columns of the model, and [attempt_id] and [question_id] for
    the two foreign keys; [id] also stands for [pk]) and the fields of
    [QuestionResponseSerializer]; [other_keys] says whether the object has
    a key that is neither. A value has the JSON type its column is
    written with (a UUID is a string), so [attempt] and [question] hold
    keys, not model instances. The keys [answered_at] and [created_at],
    which both paths of the handler disregard, are left out. *)
Module Submission.
Record t : Type := mk {
  id : option uuid;
  attempt : option uuid;
  attempt_id : option uuid;
  question : option uuid;
  question_id : option uuid;
  selected_answers : option (list uuid);
  text_response : option string;
  response_data : option string;
  is_correct : option bool;
  points_earned : option Z;
  time_spent_seconds : option Z;
  selected_answer_ids : option (list uuid);
  other_keys : bool;
}.

(** The body with the four keys a client of the API is meant to send. *)
Definition of_answer (text_response response_data : option string)
    (selected_answer_ids : option (list uuid))
    (time_spent_seconds : option Z) : t :=
  mk None None None None None None text_response response_data None None
     time_spent_seconds selected_answer_ids false.
End Submission.

(** The body of a [grade_essay_response] request: a JSON object with the
    value of its key [points_earned], if it has one, and the JSON text of
    the value of its key [feedback]. *)
Module Grading.
Record t : Type := mk {
  points_earned : option Py.value;
  feedback : option string;
}.
End Grading.

(** The question of a response that the queryset
    [filter(question__quiz__course__instructor=user,
            question__question_type='essay')] keeps. *)
Definition essay_question_of (db : DB) (user : User.t)
    (r : QuestionResponse.t) : option Question.t :=
  question ← get_row Question.id (QuestionResponse.question r) (questions db);
  quiz ← get_row Quiz.id (Question.quiz question) (quizzes db);
  course ← get_row Course.id (Quiz.course quiz) (courses db);
  if bool_decide (Course.instructor course = User.id user)
     && bool_decide (Question.question_type question = essay)
  then Some question else None.

(** [unique_together = ['attempt', 'question']]. *)
Definition response_taken (db : DB) (self : QuestionResponse.t) : bool :=
  existsb
    (fun r => bool_decide (QuestionResponse.attempt r
                           = QuestionResponse.attempt self)
              && bool_decide (QuestionResponse.question r
                              = QuestionResponse.question self)
              && negb (bool_decide (QuestionResponse.id r
                                    = QuestionResponse.id self)))
    (responses db).

Section Handlers.

Variable strip_lower : string → string.
Variable matching_equal : string → list (uuid * option Z) → bool.
Variable ordering_ids : string → option (list uuid).

(** [graded_data data feedback graded_by graded_at] is the JSON text of
    the dictionary [data or {}] once its keys ['feedback'], ['graded_by']
    and ['graded_at'] are assigned, or [None] when [data] is neither
    falsy nor a dictionary: the assignment then raises [TypeError]. *)
Variable graded_data : string → string → string → datetime → option string.

(** What the handler asks of the fields of the serializer:
    - [text_valid s] is the value the [CharField] of [text_response]
      validates [s] to (the text stripped of the white space around it),
      or [None] when the field refuses [s];
    - [seconds_valid n] says whether the [IntegerField] of
      [time_spent_seconds] accepts [n]. *)
Variable text_valid : string → option string.
Variable seconds_valid : Z → bool.

(** The row that [get_or_create] makes of [defaults=request.data] when
    the attempt has no response to the question: the keys of the body
    come over the two that the handler passes, and nothing is
    evaluated. *)
Definition create_response (db : DB) (now : datetime) (new_id : uuid)
    (attempt_id question_id : uuid) (request_data : Submission.t)
    : result (QuestionResponse.t * DB) :=
  if Submission.other_keys request_data
     || bool_decide (is_Some (Submission.selected_answer_ids request_data))
  then Raise FieldError else
  if bool_decide (is_Some (Submission.attempt request_data))
     || bool_decide (is_Some (Submission.question request_data))
  then Raise (ValueError "must be a model instance") else
  if bool_decide (is_Some (Submission.selected_answers request_data))
  then Raise TypeError else
  let response :=
    QuestionResponse.mk
      (default new_id (Submission.id request_data))
      (default attempt_id (Submission.attempt_id request_data))
      (default question_id (Submission.question_id request_data))
      ∅
      (default "" (Submission.text_response request_data))
      (default "{}" (Submission.response_data request_data))
      (default false (Submission.is_correct request_data))
      (default 0 (Submission.points_earned request_data))
      (default 0 (Submission.time_spent_seconds request_data))
      now in
  _ ← write_integers [QuestionResponse.points_earned response;
                      QuestionResponse.time_spent_seconds response];
  if bool_decide (is_Some (get_row QuestionResponse.id
                                   (QuestionResponse.id response)
                                   (responses db)))
     || response_taken db response
     || negb (bool_decide (is_Some (get_row QuizAttempt.id
                                            (QuestionResponse.attempt response)
                                            (attempts db))))
     || negb (bool_decide (is_Some (get_row Question.id
                                            (QuestionResponse.question response)
                                            (questions db))))
  then Raise IntegrityError else
  Ok (response, set_responses (responses db ++ [response]) db).

(** [serializer.is_valid()] for the response that exists, with
    [partial=True]: the fields that can refuse a value of the body. *)
Definition is_valid (db : DB) (request_data : Submission.t) : bool :=
  from_option
    (fun i => bool_decide (is_Some (get_row Question.id i (questions db))))
    true (Submission.question request_data)
  && from_option
       (forallb (fun i => bool_decide
                            (is_Some (get_row Answer.id i (answers db)))))
       true (Submission.selected_answers request_data)
  && from_option (fun s => bool_decide (is_Some (text_valid s)))
                 true (Submission.text_response request_data)
  && from_option seconds_valid true
                 (Submission.time_spent_seconds request_data).

(** [QuestionResponseSerializer.update] on the validated data. No
    transaction spans it: the second component is the database it leaves,
    also when it raises. *)
Definition QuestionResponseSerializer_update (db : DB) (now : datetime)
    (instance : QuestionResponse.t) (request_data : Submission.t)
    : result QuestionResponse.t * DB :=
  let instance :=
    from_option (fun v => QuestionResponse.set_question v instance)
                instance (Submission.question request_data) in
  if bool_decide (is_Some (Submission.selected_answers request_data))
  then (Raise TypeError, db) else
  let instance :=
    from_option (fun v => QuestionResponse.set_text_response v instance)
                instance
                (Submission.text_response request_data ≫= text_valid) in
  let instance :=
    from_option (fun v => QuestionResponse.set_response_data v instance)
                instance (Submission.response_data request_data) in
  let instance :=
    from_option
      (fun v => QuestionResponse.set_time_spent_seconds v instance)
      instance (Submission.time_spent_seconds request_data) in
  (* instance.save() *)
  match write_integers [QuestionResponse.time_spent_seconds instance] with
  | Raise e => (Raise e, db)
  | Ok _ =>
  if response_taken db instance then (Raise IntegrityError, db) else
  (* instance.selected_answers.set(answers) *)
  let instance :=
    match Submission.selected_answer_ids request_data with
    | Some ids =>
        QuestionResponse.set_selected_answers
          (list_to_set
             (List.filter
                (fun i => bool_decide
                            (is_Some (get_row Answer.id i (answers db))))
                ids)) instance
    | None => instance
    end in
  let '(instance, db) := QuestionResponse_save db now instance in
  match evaluate_response strip_lower matching_equal ordering_ids
          db now instance with
  | Ok (instance, db') => (Ok instance, db')
  | Raise e => (Raise e, db)
  end
  end.

(** [submit_question_response]. *)
Definition submit_question_response (db : DB) (now : datetime)
    (new_id : uuid) (user : User.t) (attempt_id question_id : uuid)
    (request_data : Submission.t) : response * DB :=
  if negb (bool_decide (User.role user = learner)) then (Http403, db) else
  match List.find
          (fun a => bool_decide (QuizAttempt.id a = attempt_id)
                    && bool_decide (QuizAttempt.student a = User.id user)
                    && bool_decide (QuizAttempt.status a = in_progress))
          (attempts db) with
  | None => (Http404, db)
  | Some attempt =>
  if is_expired now attempt then
    (Response (ErrorData "Quiz attempt has expired") HTTP_400_BAD_REQUEST,
     snd (QuizAttempt_save db now
            (QuizAttempt.set_status time_expired attempt)))
  else
  match List.find
          (fun q => bool_decide (Question.id q = question_id)
                    && bool_decide (Question.quiz q = QuizAttempt.quiz attempt))
          (questions db) with
  | None => (Http404, db)
  | Some question =>
  match List.find
          (fun r => bool_decide (QuestionResponse.attempt r = attempt_id)
                    && bool_decide (QuestionResponse.question r = question_id))
          (responses db) with
  | None =>
      match create_response db now new_id attempt_id question_id
                            request_data with
      | Ok (response, db') =>
          (Response (ResponseData response) HTTP_200_OK, db')
      | Raise e => (Http500 e, db)
      end
  | Some response =>
      if negb (is_valid db request_data) then
        (Response SerializerErrors HTTP_400_BAD_REQUEST, db)
      else
      match QuestionResponseSerializer_update db now response request_data
      with
      | (Ok response, db') =>
          (Response (ResponseData response) HTTP_200_OK, db')
      | (Raise e, db') => (Http500 e, db')
      end
  end
  end
  end.

(** [grade_essay_response]. *)
Definition grade_essay_response (db : DB) (now : datetime) (user : User.t)
    (response_id : uuid) (request_data : Grading.t) : response * DB :=
  if negb (bool_decide (User.role user = teacher)) then (Http403, db) else
  match
    r ← get_row QuestionResponse.id response_id (responses db);
    question ← essay_question_of db user r;
    Some (r, question)
  with
  | None => (Http404, db)
  | Some (response, question) =>
  let points_earned :=
    default (Py.VInt 0) (Grading.points_earned request_data) in
  let feedback := default "" (Grading.feedback request_data) in
  match
    below ← Py.value_lt_int points_earned 0;
    if below : bool then Ok true
    else Py.value_gt_int points_earned (Question.points question)
  with
  | Raise e => (Http500 e, db)
  | Ok true =>
    (Response (ErrorData ("Points must be between 0 and "
                          +:+ pretty (Question.points question)))
              HTTP_400_BAD_REQUEST, db)
  | Ok false =>
  let is_correct :=
    Py.value_eq_int points_earned (Question.points question) in
  match graded_data (QuestionResponse.response_data response) feedback
                    (User.name user) now with
  | None => (Http500 TypeError, db)
  | Some response_data =>
  (* response.save(), which makes an integer of the points *)
  match Py.int_of_value points_earned with
  | Raise e => (Http500 e, db)
  | Ok points_earned =>
  let response := QuestionResponse.set_points_earned points_earned response in
  let response := QuestionResponse.set_is_correct is_correct response in
  let response := QuestionResponse.set_response_data response_data response in
  let '(response, db) := QuestionResponse_save db now response in
  (* recalculate the attempt's score *)
  match
    attempt ← lookup_or_raise
      (get_row QuizAttempt.id (QuestionResponse.attempt response)
               (attempts db));
    attempt ← calculate_score db attempt;
    _ ← write_integers [QuizAttempt.score_points attempt];
    Ok (QuizAttempt_save db now attempt)
  with
  | Ok (_, db') => (Response (ResponseData response) HTTP_200_OK, db')
  | Raise e => (Http500 e, db)
  end
  end
  end
  end
  end.

End Handlers.

(** ** The rest of [models.py] *)

Definition set_answers (v : list Answer.t) (db : DB) : DB :=
  mkDB (courses db) (enrollments db) (quizzes db) (questions db) v
       (attempts db) (responses db).

Definition Answer_set_order (v : Z) (a : Answer.t) : Answer.t :=
  Answer.mk (Answer.id a) (Answer.question a) (Answer.answer_text a)
            (Answer.is_correct a) (Answer.match_order a) v.

(** [Answer.save]: the order is assigned, for which [self.question] is
    fetched, and [super().save()] writes the row, which the database
    refuses when [order] or [match_order] do not fit their columns or when
    the question is no row (the foreign key). *)
Definition Answer_save (db : DB) (self : Answer.t)
    : result (Answer.t * DB) :=
  self ←
    (if Answer.order self =? 0 then
       _ ← lookup_or_raise
             (get_row Question.id (Answer.question self) (questions db));
       let last_answer :=
         first_by (fun a b => Answer.order a >? Answer.order b)
                  (List.filter
                     (fun a => bool_decide
                                 (Answer.question a = Answer.question self))
                     (answers db)) in
       Ok (Answer_set_order
             (match last_answer with
              | Some l => Answer.order l + 1
              | None => 1
              end) self)
     else Ok self);
  _ ← write_integers (Answer.order self
                      :: option_list (Answer.match_order self));
  if negb (bool_decide
             (is_Some (get_row Question.id (Answer.question self)
                               (questions db))))
  then Raise IntegrityError else
  Ok (self, set_answers (save_row Answer.id self (answers db)) db).

(** [QuizAttempt.time_remaining_seconds]. *)
Definition time_remaining_seconds (now : datetime) (self : QuizAttempt.t)
    : option Z :=
  match QuizAttempt.expires_at self with
  | None => None
  | Some expires =>
      Some (Z.max 0 (Py.int_of_float (total_seconds (expires - now))))
  end.

(** ** [class QuizAnalytics] *)

(** An entry of the [question_stats] dictionary. *)
Module QuestionStats.
Record t : Type := mk {
  total_responses : Z;
  correct_responses : Z;
  accuracy_percentage : Py.float;
  average_time : Py.float;
}.
End QuestionStats.

(** A row of [quiz_analytics]; the keys of [question_stats], the texts
    [str(question.id)], are the questions' keys. *)
Module QuizAnalytics.
Record t : Type := mk {
  quiz : uuid;
  total_attempts : Z;
  completed_attempts : Z;
  average_score : Py.float;
  pass_rate : Py.float;
  average_completion_time : Z;
  question_stats : gmap uuid QuestionStats.t;
  last_calculated : datetime;
}.
End QuizAnalytics.

(** [quiz.attempts.all()], newest first. *)
Definition quiz_attempts (db : DB) (quiz : uuid) : list QuizAttempt.t :=
  order_by attempt_before
    (List.filter (fun a => bool_decide (QuizAttempt.quiz a = quiz))
                 (attempts db)).

(** [....filter(status='completed')]. *)
Definition completed_only (rows : list QuizAttempt.t) : list QuizAttempt.t :=
  List.filter (fun a => bool_decide (QuizAttempt.status a = completed)) rows.

(** [QuestionResponse.objects.filter(question=question,
    attempt__status='completed')]. *)
Definition completed_responses (db : DB) (question : uuid)
    : list QuestionResponse.t :=
  List.filter
    (fun r =>
       bool_decide (QuestionResponse.question r = question)
       && match get_row QuizAttempt.id (QuestionResponse.attempt r)
                        (attempts db) with
          | Some a => bool_decide (QuizAttempt.status a = completed)
          | None => false
          end)
    (responses db).

Section Analytics.

(** What the statistics ask of Python and of the database:
    - [float_sum xs] is [sum(xs)] on floats;
    - [db_avg ns] is [Avg] over the integers [ns], [or 0]. *)
Variable float_sum : list Py.float → Py.float.
Variable db_avg : list Z → Py.float.

(** [QuizAnalytics.calculate_question_stats]: the dictionary it builds. *)
Definition calculate_question_stats (db : DB) (quiz : uuid)
    : gmap uuid QuestionStats.t :=
  foldl
    (fun question_stats question =>
       let responses := completed_responses db (Question.id question) in
       let total_responses := Z.of_nat (length responses) in
       if total_responses >? 0 then
         let correct_responses :=
           Z.of_nat (length (List.filter QuestionResponse.is_correct
                                         responses)) in
         let accuracy :=
           Py.float_mul_int
             (SFdiv Py.prec Py.emax (Py.raw_int correct_responses)
                    (Py.raw_int total_responses)) 100 in
         <[Question.id question :=
             QuestionStats.mk total_responses correct_responses accuracy
               (db_avg (QuestionResponse.time_spent_seconds <$> responses))]>
           question_stats
       else question_stats)
    ∅ (quiz_questions db quiz).

(** [QuizAnalytics.calculate_analytics], with the [save()] that stamps
    [last_calculated]. *)
Definition calculate_analytics (db : DB) (now : datetime)
    (self : QuizAnalytics.t) : QuizAnalytics.t :=
  let attempts := quiz_attempts db (QuizAnalytics.quiz self) in
  let completed_attempts := completed_only attempts in
  let total := Z.of_nat (length attempts) in
  let completed := Z.of_nat (length completed_attempts) in
  if completed >? 0 then
    let total_score :=
      float_sum (QuizAttempt.score_percentage <$> completed_attempts) in
    let passed_attempts :=
      Z.of_nat (length (List.filter QuizAttempt.passed completed_attempts)) in
    let total_time :=
      sum_of QuizAttempt.time_spent_seconds completed_attempts in
    QuizAnalytics.mk (QuizAnalytics.quiz self) total completed
      (SFdiv Py.prec Py.emax total_score (Py.float_of_int completed))
      (Py.float_mul_int
         (SFdiv Py.prec Py.emax (Py.raw_int passed_attempts)
                (Py.raw_int completed)) 100)
      (total_time / completed)
      (calculate_question_stats db (QuizAnalytics.quiz self))
      now
  else
    QuizAnalytics.mk (QuizAnalytics.quiz self) total completed
      (QuizAnalytics.average_score self) (QuizAnalytics.pass_rate self)
      (QuizAnalytics.average_completion_time self)
      (QuizAnalytics.question_stats self) now.

(** [QuizAnalyticsView.get_object], on the table of analytics rows:
    [None] is the 404 of a quiz that is not one of the teacher's courses;
    [refresh] is the query parameter of that name. *)
Definition QuizAnalyticsView_get_object (db : DB)
    (table : list QuizAnalytics.t) (now : datetime) (user : User.t)
    (quiz_id : uuid) (refresh : option string)
    : option (QuizAnalytics.t * list QuizAnalytics.t) :=
  quiz ← get_row Quiz.id quiz_id (quizzes db);
  course ← get_row Course.id (Quiz.course quiz) (courses db);
  if negb (bool_decide (Course.instructor course = User.id user)) then None
  else
  let '(analytics, created, table) :=
    match get_row QuizAnalytics.quiz quiz_id table with
    | Some analytics => (analytics, false, table)
    | None =>
        let analytics :=
          QuizAnalytics.mk quiz_id 0 0 (S754_zero false) (S754_zero false) 0
                           ∅ now in
        (analytics, true, table ++ [analytics])
    end in
  if bool_decide (refresh = Some "true") || created
     || ((now - QuizAnalytics.last_calculated analytics) / 86400000000 >? 1)
  then
    let analytics := calculate_analytics db now analytics in
    Some (analytics, save_row QuizAnalytics.quiz analytics table)
  else Some (analytics, table).

End Analytics.

(** ** [serializers.py] *)

(** The validated data of [QuestionCreateSerializer] for a new question:
    the columns of the question and those of its answers. The primary keys
    stand for the ones [uuid.uuid4] draws when the rows are made; the
    foreign keys are set by [create]. *)
Module QuestionData.
Record t : Type := mk {
  question : Question.t;
  answers : list Answer.t;
}.
End QuestionData.

(** The validated data of [QuestionCreateSerializer] for a question that
    exists: what the request leaves out is [None]. *)
Module QuestionUpdate.
Record t : Type := mk {
  question_type : option question_type;
  points : option Z;
  order : option Z;
  answers : option (list Answer.t);
}.
End QuestionUpdate.

Definition Question_with_quiz (quiz : uuid) (q : Question.t) : Question.t :=
  Question.mk (Question.id q) quiz (Question.question_type q)
              (Question.points q) (Question.order q).

Definition Answer_with_question (question : uuid) (a : Answer.t) : Answer.t :=
  Answer.mk (Answer.id a) question (Answer.answer_text a)
            (Answer.is_correct a) (Answer.match_order a) (Answer.order a).

(** [Question.objects.create(...)]: [save(force_insert=True)], which the
    database refuses for a primary key it has. *)
Definition Question_create (db : DB) (q : Question.t)
    : result (Question.t * DB) :=
  if bool_decide (is_Some (get_row Question.id (Question.id q) (questions db)))
  then Raise IntegrityError
  else Question_save db q.

(** [Answer.objects.create(...)]. *)
Definition Answer_create (db : DB) (a : Answer.t) : result (Answer.t * DB) :=
  if bool_decide (is_Some (get_row Answer.id (Answer.id a) (answers db)))
  then Raise IntegrityError
  else Answer_save db a.

(** [for answer_data in answers_data:
       Answer.objects.create(question=question, **answer_data)]. *)
Fixpoint create_answers (db : DB) (question : uuid)
    (answers_data : list Answer.t) : result DB :=
  match answers_data with
  | [] => Ok db
  | answer_data :: rest =>
      '(_, db) ← Answer_create db (Answer_with_question question answer_data);
      create_answers db question rest
  end.

(** [instance.answers.all().delete()]: the answers of the question go, and
    with them ([on_delete=CASCADE] of the many-to-many table) their
    selections in the responses. *)
Definition delete_answers (db : DB) (question : uuid) : DB :=
  let gone : gset uuid :=
    list_to_set
      (Answer.id <$> List.filter
         (fun a => bool_decide (Answer.question a = question)) (answers db)) in
  mkDB (courses db) (enrollments db) (quizzes db) (questions db)
       (List.filter (fun a => negb (bool_decide (Answer.question a = question)))
                    (answers db))
       (attempts db)
       ((fun r => QuestionResponse.set_selected_answers
                    (QuestionResponse.selected_answers r ∖ gone) r)
          <$> responses db).

(** [QuestionCreateSerializer.create]; the view passes the quiz with
    [serializer.save(quiz=quiz)]. *)
Definition QuestionCreateSerializer_create (db : DB) (quiz : uuid)
    (validated_data : QuestionData.t) : result (Question.t * DB) :=
  let answers_data := QuestionData.answers validated_data in
  '(question, db) ←
    Question_create db
      (Question_with_quiz quiz (QuestionData.question validated_data));
  db ← create_answers db (Question.id question) answers_data;
  Ok (question, db).

(** [QuestionCreateSerializer.update]. *)
Definition QuestionCreateSerializer_update (db : DB) (instance : Question.t)
    (validated_data : QuestionUpdate.t) : result (Question.t * DB) :=
  let answers_data := QuestionUpdate.answers validated_data in
  let instance :=
    Question.mk (Question.id instance) (Question.quiz instance)
      (default (Question.question_type instance)
               (QuestionUpdate.question_type validated_data))
      (default (Question.points instance)
               (QuestionUpdate.points validated_data))
      (default (Question.order instance)
               (QuestionUpdate.order validated_data)) in
  '(instance, db) ← Question_save db instance;
  match answers_data with
  | Some answers_data =>
      let db := delete_answers db (Question.id instance) in
      db ← create_answers db (Question.id instance) answers_data;
      Ok (instance, db)
  | None => Ok (instance, db)
  end.

(** The loop of [QuizCreateSerializer.create] over [questions_data]. *)
Fixpoint create_questions (db : DB) (quiz : uuid)
    (questions_data : list QuestionData.t) : result DB :=
  match questions_data with
  | [] => Ok db
  | question_data :: rest =>
      let answers_data := QuestionData.answers question_data in
      '(question, db) ←
        Question_create db
          (Question_with_quiz quiz (QuestionData.question question_data));
      db ← create_answers db (Question.id question) answers_data;
      create_questions db quiz rest
  end.

(** [QuizCreateSerializer.create]. [validated_data] holds the columns the
    serializer has; [total_points] is not one of them and takes its
    default, [created_at] is [auto_now_add], and the primary key stands
    for the one [uuid.uuid4] draws. The database refuses the row of the
    quiz when an integer does not fit its column or when the course is no
    row. The quiz returned is the object every [Question.save] of the loop
    wrote its total to. *)
Definition QuizCreateSerializer_create (db : DB) (now : datetime)
    (validated_data : Quiz.t) (questions_data : list QuestionData.t)
    : result (Quiz.t * DB) :=
  let quiz :=
    Quiz.mk (Quiz.id validated_data) (Quiz.course validated_data)
      (Quiz.time_limit_minutes validated_data)
      (Quiz.max_attempts validated_data) (Quiz.passing_score validated_data)
      0 (Quiz.available_from validated_data)
      (Quiz.available_until validated_data) (Quiz.is_active validated_data)
      (Quiz.shuffle_questions validated_data)
      (Quiz.shuffle_answers validated_data)
      (Quiz.show_correct_answers validated_data)
      (Quiz.show_score_immediately validated_data)
      (Quiz.allow_review validated_data)
      (Quiz.require_completion validated_data) now in
  _ ← write_integers (Quiz.max_attempts quiz :: Quiz.passing_score quiz
                      :: option_list (Quiz.time_limit_minutes quiz));
  if bool_decide (is_Some (get_row Quiz.id (Quiz.id quiz) (quizzes db)))
     || negb (bool_decide
                (is_Some (get_row Course.id (Quiz.course quiz) (courses db))))
  then Raise IntegrityError else
  let db := set_quizzes (quizzes db ++ [quiz]) db in
  db ← create_questions db (Quiz.id quiz) questions_data;
  quiz ← lookup_or_raise (get_row Quiz.id (Quiz.id quiz) (quizzes db));
  Ok (quiz, db).

(** ** What the score is a function of *)

(** The points of the question a response answers. *)
Definition response_points (db : DB) (r : QuestionResponse.t) : Z :=
  from_option Question.points 0
    (get_row Question.id (QuestionResponse.question r) (questions db)).

(** The two sums of [calculate_score]. *)
Definition total_of (db : DB) (rs : list QuestionResponse.t) : Z :=
  sum_of (response_points db) rs.
Definition earned_of (db : DB) (rs : list QuestionResponse.t) : Z :=
  sum_of (fun r => if QuestionResponse.is_correct r
                   then response_points db r else 0) rs.

(** [(earned / total) * 100], or the float zero when [total] is not
    positive. *)
Definition percentage_of (earned total : Z) : Py.float :=
  if total >? 0
  then Py.float_mul_int
         (SFdiv Py.prec Py.emax (Py.raw_int earned) (Py.raw_int total)) 100
  else S754_zero false.

(** Referential integrity around an attempt: its quiz is a row, and so is
    the question of each of its responses. *)
Definition attempt_refs_ok (db : DB) (a : QuizAttempt.t) : Prop :=
  is_Some (get_row Quiz.id (QuizAttempt.quiz a) (quizzes db)) ∧
  Forall (fun r => is_Some (get_row Question.id (QuestionResponse.question r)
                                    (questions db)))
         (attempt_responses db (QuizAttempt.id a)).

#[global] Instance attempt_refs_ok_dec db a : Decision (attempt_refs_ok db a).
Proof. unfold attempt_refs_ok. apply _. Defined.

(** A value that a [PositiveIntegerField] column takes. *)
Definition fits_column (v : Z) : Prop := 0 ≤ v ≤ max_integer.

(** The [time_spent_seconds] that [complete_attempt] assigns at [now]. *)
Definition time_spent_at (now : datetime) (a : QuizAttempt.t) : Z :=
  match QuizAttempt.started_at a with
  | Some started => Py.int_of_float (total_seconds (now - started))
  | None => QuizAttempt.time_spent_seconds a
  end.

(** The double nearest to 69.999, Python's [69.999]. *)
Definition float_69_999 : Py.float := S754_finite false 4925741723692302 (-46).

(** ** The operations that write the database *)

Inductive operation : Type :=
  | Start (new_id : uuid) (user : User.t) (quiz_id : uuid)
  | Submit (new_id : uuid) (user : User.t) (attempt_id question_id : uuid)
           (request_data : Submission.t)
  | Complete (user : User.t) (attempt_id : uuid)
  | Grade (user : User.t) (response_id : uuid) (request_data : Grading.t)
  | SaveQuestion (question : Question.t)
  | DeleteQuestion (question_id : uuid).

Section Run.

Variable strip_lower : string → string.
Variable matching_equal : string → list (uuid * option Z) → bool.
Variable ordering_ids : string → option (list uuid).
Variable graded_data : string → string → string → datetime → option string.
Variable text_valid : string → option string.
Variable seconds_valid : Z → bool.

(** The database after an operation that arrives at time [now]. *)
Definition run (db : DB) (now : datetime) (op : operation) : DB :=
  match op with
  | Start new_id user quiz_id =>
      snd (start_quiz_attempt db now new_id user quiz_id)
  | Submit new_id user attempt_id question_id request_data =>
      snd (submit_question_response strip_lower matching_equal ordering_ids
             text_valid seconds_valid db now new_id user attempt_id
             question_id request_data)
  | Complete user attempt_id =>
      snd (complete_quiz_attempt db now user attempt_id)
  | Grade user response_id request_data =>
      snd (grade_essay_response graded_data db now user response_id
                                request_data)
  | SaveQuestion question =>
      (* the row of the question stays when the total is refused *)
      match Question_save_row db question with
      | Ok (question, db1) =>
          match calculate_total_points db1 (Question.quiz question) with
          | Ok (_, db2) => db2
          | Raise _ => db1
          end
      | Raise _ => db
      end
  | DeleteQuestion question_id => Question_delete db question_id
  end.

End Run.

(** [db'] has the courses, enrollments, quizzes, questions and answers
    of [db]. *)
Definition same_catalogue (db db' : DB) : Prop :=
  courses db' = courses db ∧ enrollments db' = enrollments db ∧
  quizzes db' = quizzes db ∧ questions db' = questions db ∧
  answers db' = answers db.

(** [a'] is [a] but for the score columns and the [auto_now] stamp. *)
Definition same_but_score (a a' : QuizAttempt.t) : Prop :=
  a' = QuizAttempt.set_updated_at (QuizAttempt.updated_at a')
         (QuizAttempt.set_score (QuizAttempt.score_points a')
            (QuizAttempt.score_percentage a') (QuizAttempt.passed a') a).

(** The operation is the grading, answered 200, of a response that
    belongs to the attempt of key [attempt]. *)
Definition grades
    (graded_data : string → string → string → datetime → option string)
    (db : DB) (now : datetime) (op : operation) (attempt : uuid) : Prop :=
  match op with
  | Grade user response_id request_data =>
      (∃ r, get_row QuestionResponse.id response_id (responses db) = Some r
            ∧ QuestionResponse.attempt r = attempt) ∧
      status_code (fst (grade_essay_response graded_data db now user
                                             response_id request_data))
      = HTTP_200_OK
  | _ => False
  end.

(** The attempt numbers a student has used at a quiz. *)
Definition attempt_numbers (db : DB) (quiz student : uuid) : list Z :=
  QuizAttempt.attempt_number <$> attempts_of db quiz student.

(** [a'] is the row of [a] with the snapshot [a] has. *)
Definition keeps_snapshot (a a' : QuizAttempt.t) : Prop :=
  QuizAttempt.id a' = QuizAttempt.id a ∧
  QuizAttempt.quiz_settings a' = QuizAttempt.quiz_settings a.

(** Python can represent the time limit of the quiz and the instant at
    which an attempt started at [now] expires. *)
Definition expiry_ok (now : datetime) (quiz : Quiz.t) : Prop :=
  match Quiz.time_limit_minutes quiz with
  | Some minutes =>
      minutes = 0
      ∨ (Z.abs (minutes * 60 / 86400) ≤ 999999999
         ∧ datetime_min ≤ now + minutes * 60000000 ≤ datetime_max)
  | None => True
  end.

#[global] Instance expiry_ok_dec now quiz : Decision (expiry_ok now quiz).
Proof. unfold expiry_ok. destruct (Quiz.time_limit_minutes quiz); apply _. Defined.

(** The attempt [start_quiz_attempt] creates for [user] at [quiz]. *)
Definition started_attempt (now : datetime) (new_id : uuid) (user : User.t)
    (quiz : Quiz.t) (enrollment : Enrollment.t) (attempt_number : Z)
    : QuizAttempt.t :=
  let limited :=
    match Quiz.time_limit_minutes quiz with
    | Some minutes => negb (minutes =? 0)
    | None => false
    end in
  QuizAttempt.mk new_id (Quiz.id quiz) (User.id user)
    (Some (Enrollment.id enrollment)) attempt_number in_progress
    0 (S754_zero false) false
    (if limited then Quiz.time_limit_minutes quiz else None)
    0 (Some now) None
    (if limited
     then (fun minutes => now + minutes * 60000000)
            <$> Quiz.time_limit_minutes quiz
     else None)
    (settings_of quiz) now now.

(** ** Sample data *)

Module Sample.

Definition tina : User.t := User.mk 10 "Tina" teacher.
Definition alice : User.t := User.mk 20 "Alice" learner.

Definition course : Course.t := Course.mk 1 10 0.
Definition enrolled : Enrollment.t := Enrollment.mk 1 20 1 enr_active.

(** A quiz of course 1: always available, answers and scores shown,
    review allowed, completion required, no shuffling. *)
Definition quiz (passing_score max_attempts : Z) (limit : option Z)
    : Quiz.t :=
  Quiz.mk 1 1 limit max_attempts passing_score 0 None None true
          false false true true true true 100.

(** Alice's attempt number 1 at quiz 1, started at time 1000. *)
Definition attempt (status : attempt_status) (expires : option datetime)
    : QuizAttempt.t :=
  QuizAttempt.mk 1 1 20 (Some 1%positive) 1 status 0 (S754_zero false) false
                 None 0 (Some 1000) None expires ∅ 1000 1000.

Definition db_of (quiz : Quiz.t) (questions : list Question.t)
    (attempts : list QuizAttempt.t) (responses : list QuestionResponse.t)
    : DB :=
  mkDB [course] [enrolled] [quiz] questions [] attempts responses.

(** One essay question worth 5 points, answered in a completed attempt
    and not graded yet. *)
Definition essay_db : DB :=
  db_of (quiz 70 1 None) [Question.mk 1 1 essay 5 1]
        [attempt completed None]
        [QuestionResponse.mk 1 1 1 ∅ "An essay." "{}" false 0 60 1500].

(** 69999 points earned out of 100000. *)
Definition close_db : DB :=
  db_of (quiz 70 1 None)
        [Question.mk 1 1 essay 69999 1; Question.mk 2 1 essay 30001 2]
        [attempt in_progress None]
        [QuestionResponse.mk 1 1 1 ∅ "" "{}" true 69999 0 1500;
         QuestionResponse.mk 2 1 2 ∅ "" "{}" false 0 0 1500].

(** An attempt without responses, at a quiz with that passing score. *)
Definition empty_db (passing_score : Z) : DB :=
  db_of (quiz passing_score 1 None) [] [attempt in_progress None] [].

(** A true/false question worth 2 points none of whose answers is
    flagged correct, and a response that selects nothing. *)
Definition unflagged_db : DB :=
  mkDB [course] [enrolled] [quiz 70 1 None]
       [Question.mk 1 1 true_false 2 1]
       [Answer.mk 1 1 "True" false None 1;
        Answer.mk 2 1 "False" false None 2]
       [attempt in_progress None]
       [QuestionResponse.mk 1 1 1 ∅ "" "{}" false 0 0 1500].

Definition unflagged_response : QuestionResponse.t :=
  QuestionResponse.mk 1 1 1 ∅ "" "{}" false 0 0 1500.

(** A multiple-choice question worth 2 points whose answers 1 and 3 are
    the correct ones, and a response that selects [selected]. *)
Definition choice_response (selected : gset uuid) : QuestionResponse.t :=
  QuestionResponse.mk 1 1 1 selected "" "{}" false 0 0 1500.

Definition choice_db (selected : gset uuid) : DB :=
  mkDB [course] [enrolled] [quiz 70 1 None]
       [Question.mk 1 1 multiple_choice 2 1]
       [Answer.mk 1 1 "A" true None 1;
        Answer.mk 2 1 "B" false None 2;
        Answer.mk 3 1 "C" true None 3]
       [attempt in_progress None]
       [choice_response selected].

(** Quiz 1 before anyone attempts it. *)
Definition fresh_db (max_attempts : Z) (limit : option Z) : DB :=
  db_of (quiz 70 max_attempts limit) [] [] [].

(** Quiz 1 with nobody enrolled. *)
Definition nobody_enrolled_db : DB :=
  mkDB [course] [] [quiz 70 1 None] [] [] [] [].

(** Quiz 1, which allows one attempt, with Alice's attempt in progress
    and no time limit. *)
Definition resumable_db : DB :=
  db_of (quiz 70 1 None) [] [attempt in_progress None] [].

(** Quiz 1, which allows three attempts of 30 minutes, with Alice's first
    attempt in progress and due at time 5000. *)
Definition timed_db : DB :=
  db_of (quiz 70 3 (Some 30)) [] [attempt in_progress (Some 5000)] [].

End Sample.

(** ** More of what the properties speak of *)

(** The number of attempts a student has at a quiz. *)
Definition attempt_count (db : DB) (quiz student : uuid) : Z :=
  Z.of_nat (length (attempts_of db quiz student)).

(** [a'] is the row of [a]: the key, the owner, the number and the
    snapshot are those of [a]. *)
Definition keeps_keys (a a' : QuizAttempt.t) : Prop :=
  QuizAttempt.id a' = QuizAttempt.id a ∧
  QuizAttempt.quiz a' = QuizAttempt.quiz a ∧
  QuizAttempt.student a' = QuizAttempt.student a ∧
  QuizAttempt.attempt_number a' = QuizAttempt.attempt_number a ∧
  QuizAttempt.quiz_settings a' = QuizAttempt.quiz_settings a.

(** The attempts of each student at each quiz are numbered 1, 2, ... in
    the order of their creation. *)
Definition well_numbered (db : DB) : Prop :=
  ∀ quiz student,
    attempt_numbers db quiz student
    = seqZ 1 (attempt_count db quiz student).


Section RunAll.

Variable strip_lower : string → string.
Variable matching_equal : string → list (uuid * option Z) → bool.
Variable ordering_ids : string → option (list uuid).
Variable graded_data : string → string → string → datetime → option string.
Variable text_valid : string → option string.
Variable seconds_valid : Z → bool.

(** The database after a sequence of operations, each with the time at
    which it arrives. *)
Definition run_all (db : DB) (steps : list (datetime * operation)) : DB :=
  foldl (fun db step =>
           run strip_lower matching_equal ordering_ids graded_data
               text_valid seconds_valid db (fst step) (snd step))
        db steps.

End RunAll.

(** [new] is the row a start adds: the operation is the start of a quiz
    by a student who is below the quiz's limit, and the row has a fresh
    key and the student's next number. *)
Definition started_row (db : DB) (op : operation) (new : QuizAttempt.t)
    : Prop :=
  ∃ new_id user quiz_id quiz,
    op = Start new_id user quiz_id ∧
    get_row Quiz.id quiz_id (quizzes db) = Some quiz ∧
    (new_id ∉ QuizAttempt.id <$> attempts db) ∧
    QuizAttempt.id new = new_id ∧
    QuizAttempt.quiz new = quiz_id ∧
    QuizAttempt.student new = User.id user ∧
    QuizAttempt.attempt_number new
    = attempt_count db quiz_id (User.id user) + 1 ∧
    attempt_count db quiz_id (User.id user) < Quiz.max_attempts quiz.

(** Alice starts a second attempt at time 6000 and completes it at time
    7000; a late submission for the first one arrives in between. *)
Definition sample_steps : list (datetime * operation) :=
  [(6000, Start 5 Sample.alice 1);
   (6500, Submit 8 Sample.alice 1 1
                 (Submission.of_answer (Some "late") None None None));
   (7000, Complete Sample.alice 5)].

(** The analytics of quiz 1 as calculated at time 0, before any attempt
    was completed. *)
Definition sample_analytics : QuizAnalytics.t :=
  QuizAnalytics.mk 1 0 0 (S754_zero false) (S754_zero false) 0 ∅ 0.

(** Analytics of quiz 1 left from a time when the quiz had two completed
    attempts, one of them passed, with an average score of 75 and an
    entry for question 1. *)
Definition earlier_analytics : QuizAnalytics.t :=
  QuizAnalytics.mk 1 2 2 (Py.float_of_int 75) (Py.float_of_int 50) 90
    {[ 1%positive := QuestionStats.mk 2 1 (Py.float_of_int 50)
                                      (Py.float_of_int 45) ]}
    0.

(** The keys that [uuid.uuid4] draws for the rows of [questions_data] are
    new to the database and differ from one another. *)
Definition fresh_keys (db : DB) (questions_data : list QuestionData.t)
    : Prop :=
  NoDup ((Question.id ∘ QuestionData.question) <$> questions_data) ∧
  Forall (fun i => i ∉ Question.id <$> questions db)
         ((Question.id ∘ QuestionData.question) <$> questions_data) ∧
  NoDup (Answer.id <$> (questions_data ≫= QuestionData.answers)) ∧
  Forall (fun i => i ∉ Answer.id <$> answers db)
         (Answer.id <$> (questions_data ≫= QuestionData.answers)).

#[global] Instance fresh_keys_dec db questions_data :
  Decision (fresh_keys db questions_data).
Proof. unfold fresh_keys. apply _. Defined.

(** The submitted question comes without an order, and the database can
    hold it: its points and the [match_order]s of its answers fit their
    columns, and so do the orders of its answers, with room above each
    order given for the orders that [Answer.save] assigns. *)
Definition submitted_fits (d : QuestionData.t) : Prop :=
  Question.order (QuestionData.question d) = 0 ∧
  fits_column (Question.points (QuestionData.question d)) ∧
  Forall (fun a => Forall fits_column (option_list (Answer.match_order a))
                   ∧ 0 ≤ Answer.order a
                   ∧ Answer.order a
                     + Z.of_nat (length (QuestionData.answers d))
                     ≤ max_integer)
         (QuestionData.answers d).

#[global] Instance submitted_fits_dec d : Decision (submitted_fits d).
Proof. unfold submitted_fits, fits_column. apply _. Defined.


(** A second quiz for Tina's course as it is submitted, with a
    multiple-choice question of two answers and an essay question, none of
    them given an order. *)
Definition submitted_quiz : Quiz.t :=
  Quiz.mk 2 1 None 1 70 0 None None true false false true true true false 0.

Definition submitted_questions : list QuestionData.t :=
  [QuestionData.mk (Question.mk 7 2 multiple_choice 2 0)
     [Answer.mk 11 7 "Yes" true None 0; Answer.mk 12 7 "No" false None 0];
   QuestionData.mk (Question.mk 8 2 essay 5 0) []].



(** New answers for the multiple-choice question of [Sample.choice_db],
    and the database after the update: Alice's selection is gone. *)
Definition submitted_update : QuestionUpdate.t :=
  QuestionUpdate.mk None None None
    (Some [Answer.mk 21 1 "A" true None 0; Answer.mk 22 1 "B" false None 0]).

Definition updated_db : DB :=
  mkDB [Sample.course] [Sample.enrolled]
       [Quiz.set_total_points 2 (Sample.quiz 70 1 None)]
       [Question.mk 1 1 multiple_choice 2 1]
       [Answer.mk 21 1 "A" true None 1; Answer.mk 22 1 "B" false None 2]
       [Sample.attempt in_progress None]
       [Sample.choice_response ∅].

(** * Tables *)

Section RowLemmas.
Context {A : Type} (pk : A → uuid).

Lemma get_row_Some i rows r :
  get_row pk i rows = Some r → r ∈ rows ∧ pk r = i.
Proof.
  unfold get_row. intros Hfind. apply find_some in Hfind as [Hin Hpk].
  split; [by apply list_elem_of_In|by apply bool_decide_eq_true in Hpk].
Qed.

Lemma get_row_None i rows r :
  get_row pk i rows = None → r ∈ rows → pk r ≠ i.
Proof.
  unfold get_row. intros Hfind Hin Hpk.
  apply list_elem_of_In in Hin.
  pose proof (find_none _ _ Hfind _ Hin) as Hno. simpl in Hno.
  by rewrite bool_decide_eq_true_2 in Hno.
Qed.

Lemma get_row_elem rows r : r ∈ rows → is_Some (get_row pk (pk r) rows).
Proof.
  intros Hin. destruct (get_row pk (pk r) rows) eqn:Hget; [by eexists|].
  by destruct (get_row_None _ _ _ Hget Hin).
Qed.

Lemma get_row_fmap_keep (f : A → A) i rows :
  (∀ r, pk (f r) = pk r) →
  get_row pk i (f <$> rows) = f <$> get_row pk i rows.
Proof.
  intros Hpk. unfold get_row.
  induction rows as [|r rows IH]; [done|]. simpl.
  rewrite Hpk. destruct (bool_decide (pk r = i)); [done|]. apply IH.
Qed.

(** Saving a row that is in the table overwrites it in place. *)
Lemma save_row_present x rows :
  is_Some (get_row pk (pk x) rows) →
  save_row pk x rows
  = (fun r => if bool_decide (pk r = pk x) then x else r) <$> rows.
Proof. unfold save_row. by intros [r ->]. Qed.

Lemma elem_of_save_row_other x y rows :
  x ∈ rows → pk x ≠ pk y → x ∈ save_row pk y rows.
Proof.
  intros Hin Hpk. unfold save_row. destruct (get_row pk (pk y) rows).
  - apply list_elem_of_fmap. exists x.
    by rewrite bool_decide_eq_false_2.
  - apply elem_of_app. by left.
Qed.

Lemma elem_of_save_row_same x y rows :
  x ∈ rows → pk x = pk y → y ∈ save_row pk y rows.
Proof.
  intros Hin Hpk. rewrite save_row_present.
  - apply list_elem_of_fmap. exists x. by rewrite bool_decide_eq_true_2.
  - rewrite <- Hpk. by apply get_row_elem.
Qed.

(** A primary key names one row. *)
Lemma NoDup_pk_eq rows x y :
  NoDup (pk <$> rows) → x ∈ rows → y ∈ rows → pk x = pk y → x = y.
Proof.
  induction rows as [|r rows IH]; simpl; intros Hnodup Hx Hy Hpk.
  - by apply elem_of_nil in Hx.
  - apply NoDup_cons in Hnodup as [Hfresh Hnodup].
    apply elem_of_cons in Hx as [->|Hx]; apply elem_of_cons in Hy as [->|Hy].
    + done.
    + destruct Hfresh. rewrite Hpk. by apply list_elem_of_fmap_2.
    + destruct Hfresh. rewrite <- Hpk. by apply list_elem_of_fmap_2.
    + by apply IH.
Qed.

(** Saving the newest row again, when its key is that of no older row. *)
Lemma save_row_last rows x y :
  get_row pk (pk x) rows = None → pk y = pk x →
  save_row pk y (rows ++ [x]) = rows ++ [y].
Proof.
  intros Hfresh Hpk. rewrite save_row_present.
  - rewrite fmap_app. simpl. rewrite Hpk, bool_decide_eq_true_2 by done.
    f_equal. rewrite <- (list_fmap_id rows) at 2.
    apply list_fmap_ext. intros _ r Hr%list_elem_of_lookup_2. simpl.
    rewrite bool_decide_eq_false_2; [done|].
    by apply (get_row_None _ _ _ Hfresh).
  - rewrite Hpk. apply get_row_elem, elem_of_app. right.
    by apply list_elem_of_singleton.
Qed.

End RowLemmas.

Lemma elem_of_insert_by {A} (before : A → A → bool) (x y : A) rows :
  y ∈ insert_by before x rows ↔ y = x ∨ y ∈ rows.
Proof.
  induction rows as [|r rows IH]; simpl.
  - rewrite list_elem_of_singleton, elem_of_nil. tauto.
  - destruct (before r x); rewrite !elem_of_cons; [rewrite IH|]; tauto.
Qed.

Lemma elem_of_order_by {A} (before : A → A → bool) (y : A) rows :
  y ∈ order_by before rows ↔ y ∈ rows.
Proof.
  unfold order_by. induction rows as [|r rows IH]; simpl; [done|].
  rewrite elem_of_insert_by, elem_of_cons, IH. tauto.
Qed.

Lemma first_by_elem {A} (before : A → A → bool) rows (x : A) :
  first_by before rows = Some x → x ∈ rows.
Proof.
  unfold first_by. intros Hhead%head_Some_elem_of.
  by apply elem_of_order_by in Hhead.
Qed.

Lemma elem_of_filter_list {A} (P : A → bool) x rows :
  x ∈ List.filter P rows ↔ x ∈ rows ∧ P x = true.
Proof. rewrite !list_elem_of_In. apply filter_In. Qed.

Lemma find_by_pk {A} (pk : A → uuid) (P : A → bool) rows a :
  NoDup (pk <$> rows) → a ∈ rows → P a = true →
  (∀ r, P r = true → pk r = pk a) →
  List.find P rows = Some a.
Proof.
  intros Hnodup Hin Ha Hpk.
  destruct (List.find P rows) as [b|] eqn:Hfind.
  - apply find_some in Hfind as [Hb HPb]. apply list_elem_of_In in Hb.
    f_equal. apply (NoDup_pk_eq pk rows); auto.
  - apply list_elem_of_In in Hin.
    pose proof (find_none _ _ Hfind _ Hin). congruence.
Qed.

Lemma get_row_save_row {A} (pk : A → uuid) x rows :
  get_row pk (pk x) (save_row pk x rows) = Some x.
Proof.
  destruct (get_row pk (pk x) rows) as [r|] eqn:Hget.
  - rewrite save_row_present by (by eexists).
    rewrite get_row_fmap_keep, Hget.
    + simpl. apply get_row_Some in Hget as [_ Hpk].
      by rewrite bool_decide_eq_true_2.
    + intros y. destruct (bool_decide (pk y = pk x)) eqn:Hy; [|done].
      by apply bool_decide_eq_true in Hy.
  - unfold save_row. rewrite Hget. unfold get_row in *.
    induction rows as [|y rows IH]; simpl in *.
    + by rewrite bool_decide_eq_true_2.
    + destruct (bool_decide (pk y = pk x)); [discriminate|]. by apply IH.
Qed.

(** ** Integer columns *)

Lemma write_integers_Ok values :
  write_integers values = Ok tt ↔ Forall fits_column values.
Proof.
  unfold write_integers, fits_column, sqlite_integer, min_integer,
    max_integer.
  induction values as [|v values IH]; simpl; [by split|].
  rewrite Forall_cons.
  destruct (forallb _ values) eqn:Hrange; simpl in *.
  - destruct (forallb (Z.leb 0) values) eqn:Hsign; simpl in *.
    + destruct IH as [IH _]. specialize (IH eq_refl).
      destruct (Z.leb_spec (-9223372036854775808) v),
               (Z.leb_spec v 9223372036854775807),
               (Z.leb_spec 0 v); simpl; split;
        try done; try (intros [? _]; lia); try (intros _; split; [lia|done]).
    + assert (¬ Forall (fun v => 0 ≤ v ≤ 9223372036854775807) values) as Hno
        by (intros H; by apply IH in H).
      rewrite !andb_false_r.
      destruct ((-9223372036854775808 <=? v)
                && (v <=? 9223372036854775807)); simpl;
        split; try done; by intros [_ ?].
  - assert (¬ Forall (fun v => 0 ≤ v ≤ 9223372036854775807) values) as Hno
      by (intros H; by apply IH in H).
    rewrite andb_false_r. simpl. split; [done|]. by intros [_ ?].
Qed.

(** A refused write raises one of two exceptions. *)
Lemma write_integers_Raise values e :
  write_integers values = Raise e → e = OverflowError ∨ e = IntegrityError.
Proof.
  unfold write_integers.
  destruct (forallb _ _); simpl; [|intros [= <-]; by left].
  destruct (forallb _ _); simpl; [done|]. intros [= <-]. by right.
Qed.

(** * Properties *)

(** ** Scoring *)

Lemma score_loop_sums db rs total earned :
  Forall (fun r => is_Some (get_row Question.id (QuestionResponse.question r)
                                    (questions db))) rs →
  score_loop db rs total earned
  = Ok (total + total_of db rs, earned + earned_of db rs).
Proof.
  intros Hrefs. revert total earned.
  induction Hrefs as [|r rs [q Hq] _ IH]; intros total earned; simpl.
  - f_equal. f_equal; lia.
  - rewrite Hq. simpl. rewrite IH.
    unfold total_of, earned_of, response_points. simpl. rewrite Hq. simpl.
    destruct (QuestionResponse.is_correct r); f_equal; f_equal; lia.
Qed.

(** Under referential integrity [calculate_score] raises nothing, and its
    result is the fold over the attempt's responses. *)
Lemma calculate_score_ok db a quiz :
  get_row Quiz.id (QuizAttempt.quiz a) (quizzes db) = Some quiz →
  Forall (fun r => is_Some (get_row Question.id (QuestionResponse.question r)
                                    (questions db)))
         (attempt_responses db (QuizAttempt.id a)) →
  let rs := attempt_responses db (QuizAttempt.id a) in
  let percentage := percentage_of (earned_of db rs) (total_of db rs) in
  calculate_score db a
  = Ok (QuizAttempt.set_score (earned_of db rs) percentage
          (Py.float_ge_int percentage (Quiz.passing_score quiz)) a).
Proof.
  intros Hquiz Hrefs rs percentage. unfold calculate_score.
  rewrite (score_loop_sums _ _ 0 0 Hrefs), !Z.add_0_l. simpl.
  fold rs. subst percentage. unfold percentage_of, Py.int_truediv.
  destruct (total_of db rs >? 0) eqn:Hpos; simpl.
  - assert (Hz : (total_of db rs =? 0) = false) by lia.
    rewrite Hz. simpl. rewrite Hquiz. reflexivity.
  - rewrite Hquiz. reflexivity.
Qed.

(** Whatever [calculate_score] returns has [passed] set from the stored
    percentage. *)
Lemma calculate_score_passed db a a' quiz :
  calculate_score db a = Ok a' →
  get_row Quiz.id (QuizAttempt.quiz a) (quizzes db) = Some quiz →
  QuizAttempt.passed a'
  = Py.float_ge_int (QuizAttempt.score_percentage a') (Quiz.passing_score quiz).
Proof.
  unfold calculate_score. intros Hcalc Hquiz.
  destruct (score_loop _ _ _ _) as [[total earned]|]; simpl in Hcalc;
    [|discriminate].
  destruct (total >? 0); simpl in Hcalc.
  - destruct (Py.int_truediv earned total); simpl in Hcalc; [|discriminate].
    rewrite Hquiz in Hcalc. simpl in Hcalc. by injection Hcalc as <-.
  - rewrite Hquiz in Hcalc. simpl in Hcalc. by injection Hcalc as <-.
Qed.

(** C1 (the claim fails on the code, which is at fault). The claim: for
    every attempt, [calculate_score] sets [score_points] to the sum of
    [points_earned] over the attempt's responses. Here a teacher grades the
    only response of an attempt, an essay worth 5 points, with 3 points:
    the handler stores [points_earned = 3], recalculates the attempt's
    score, and the attempt is left with [score_points = 0]. (The data
    stored with the response is the empty dictionary, which takes the
    feedback.) *)
Theorem C1_partial_credit_not_counted
    (graded_data : string → string → string → datetime → option string)
    (data : string) :
  graded_data "{}" "A good start" "Tina" 2000 = Some data →
  let request := Grading.mk (Some (Py.VInt 3)) (Some "A good start") in
  let out :=
    grade_essay_response graded_data Sample.essay_db 2000 Sample.tina 1
                         request in
  status_code (fst out) = HTTP_200_OK ∧
  sum_of QuestionResponse.points_earned (attempt_responses (snd out) 1) = 3 ∧
  QuizAttempt.score_points <$> get_row QuizAttempt.id 1 (attempts (snd out))
  = Some 0.
Proof.
  intros Hdata request out. subst out request.
  unfold grade_essay_response. simpl. rewrite Hdata.
  repeat split; vm_compute; reflexivity.
Qed.

Lemma C1_witness :
  let graded_data := fun data feedback _ _ => Some (data +:+ feedback) in
  let request := Grading.mk (Some (Py.VInt 3)) (Some "A good start") in
  let out :=
    grade_essay_response graded_data Sample.essay_db 2000 Sample.tina 1
                         request in
  status_code (fst out) = HTTP_200_OK ∧
  sum_of QuestionResponse.points_earned (attempt_responses (snd out) 1) = 3 ∧
  QuizAttempt.score_points <$> get_row QuizAttempt.id 1 (attempts (snd out))
  = Some 0.
Proof.
  apply (C1_partial_credit_not_counted
           (fun data feedback _ _ => Some (data +:+ feedback))
           "{}A good start").
  reflexivity.
Defined.

(** On responses that carry the evaluator's all-or-nothing points the two
    sums agree: the score is then the sum of [points_earned]. *)
Lemma earned_of_points_earned db rs :
  Forall (fun r => QuestionResponse.points_earned r
                   = if QuestionResponse.is_correct r
                     then response_points db r else 0) rs →
  earned_of db rs = sum_of QuestionResponse.points_earned rs.
Proof.
  induction 1 as [|r rs Hr _ IH]; [done|].
  unfold earned_of in *. simpl. rewrite IH, Hr. reflexivity.
Qed.

(** C2. Once [calculate_score] has run, [passed] is true exactly when the
    stored [score_percentage] is at least the quiz's [passing_score], the
    two compared as they are, without rounding: with a passing score of 70
    and a percentage of 69.999 the attempt has not passed. *)
Theorem C2_passed_iff_percentage_reaches_passing_score db a a' quiz :
  calculate_score db a = Ok a' →
  get_row Quiz.id (QuizAttempt.quiz a) (quizzes db) = Some quiz →
  (QuizAttempt.passed a' = true
   ↔ Py.float_ge_int (QuizAttempt.score_percentage a')
                     (Quiz.passing_score quiz) = true) ∧
  (Quiz.passing_score quiz = 70 →
   QuizAttempt.score_percentage a' = float_69_999 →
   QuizAttempt.passed a' = false).
Proof.
  intros Hcalc Hquiz.
  rewrite (calculate_score_passed _ _ _ _ Hcalc Hquiz). split; [done|].
  intros -> ->. reflexivity.
Qed.

(** 69999 points out of 100000 with a passing score of 70: the percentage
    is 69.999 and the attempt has not passed. *)
Lemma C2_witness :
  let a' := QuizAttempt.set_score 69999 float_69_999 false
              (Sample.attempt in_progress None) in
  (QuizAttempt.passed a' = true
   ↔ Py.float_ge_int (QuizAttempt.score_percentage a')
                     (Quiz.passing_score (Sample.quiz 70 1 None)) = true) ∧
  (Quiz.passing_score (Sample.quiz 70 1 None) = 70 →
   QuizAttempt.score_percentage a' = float_69_999 →
   QuizAttempt.passed a' = false).
Proof.
  apply (C2_passed_iff_percentage_reaches_passing_score
           Sample.close_db (Sample.attempt in_progress None)).
  - vm_compute. reflexivity.
  - reflexivity.
Defined.

(** C3, as the claim states it, fails: with a passing score of 0 an attempt
    without responses is completed with a percentage of 0 and has passed. *)
Lemma C3_counterexample :
  attempt_responses (Sample.empty_db 0) 1 = [] ∧
  ∃ a' db',
    complete_attempt (Sample.empty_db 0) 2000
                     (Sample.attempt in_progress None) = Ok (a', db') ∧
    QuizAttempt.score_percentage a' = S754_zero false ∧
    QuizAttempt.passed a' = true.
Proof. split; [reflexivity|]. do 2 eexists. repeat split; vm_compute; reflexivity. Qed.

(** Without responses, [calculate_score] returns a score of 0 points and
    0 percent, and [passed] is the comparison [0 >= passing_score]. *)
Lemma calculate_score_no_responses db a quiz :
  attempt_responses db (QuizAttempt.id a) = [] →
  get_row Quiz.id (QuizAttempt.quiz a) (quizzes db) = Some quiz →
  calculate_score db a
  = Ok (QuizAttempt.set_score 0 (S754_zero false)
          (Quiz.passing_score quiz <=? 0) a).
Proof.
  intros Hnone Hquiz. unfold calculate_score.
  rewrite Hnone. simpl. rewrite Hquiz. simpl.
  by destruct (Quiz.passing_score quiz).
Qed.

(** C3 (amended). Completing an attempt that has no responses raises no
    division-by-zero error; when it returns, which it does from the
    statuses it accepts when the elapsed time fits its column, the
    percentage is 0 and [passed] is the comparison [0 >= passing_score]:
    false for every positive passing score, true for a passing score
    of 0. *)
Theorem C3_no_responses db now a quiz :
  attempt_responses db (QuizAttempt.id a) = [] →
  get_row Quiz.id (QuizAttempt.quiz a) (quizzes db) = Some quiz →
  complete_attempt db now a ≠ Raise ZeroDivisionError ∧
  (∀ a' db',
     complete_attempt db now a = Ok (a', db') →
     QuizAttempt.score_percentage a' = S754_zero false ∧
     QuizAttempt.passed a' = (Quiz.passing_score quiz <=? 0) ∧
     (0 < Quiz.passing_score quiz → QuizAttempt.passed a' = false)) ∧
  (QuizAttempt.status a = in_progress ∨ QuizAttempt.status a = time_expired →
   fits_column (time_spent_at now a) →
   ∃ a' db', complete_attempt db now a = Ok (a', db')).
Proof.
  intros Hnone Hquiz. unfold complete_attempt.
  set (timed := match QuizAttempt.started_at _ with
                | Some started => _
                | None => _
                end).
  assert (QuizAttempt.id timed = QuizAttempt.id a
          ∧ QuizAttempt.quiz timed = QuizAttempt.quiz a
          ∧ QuizAttempt.time_spent_seconds timed = time_spent_at now a)
    as (Hid & Hq & Hspent).
  { subst timed. unfold time_spent_at. simpl.
    by destruct (QuizAttempt.started_at a). }
  rewrite (calculate_score_no_responses db timed quiz)
    by (by rewrite ?Hid, ?Hq).
  simpl. rewrite Hspent.
  destruct (negb _) eqn:Hstatus.
  { repeat split; try done. intros [Hs|Hs]; rewrite Hs in Hstatus; done. }
  destruct (write_integers [time_spent_at now a; 0]) as [[]|e] eqn:Hwrite;
    simpl.
  - split; [done|]. split; [|by eauto].
    intros a' db' [= <- _]. simpl. split; [done|]. split; [done|].
    intros Hpos. by destruct (Quiz.passing_score quiz).
  - split.
    { apply write_integers_Raise in Hwrite as [-> | ->]; done. }
    split; [done|]. intros _ Hfits.
    assert (write_integers [time_spent_at now a; 0] = Ok tt) as Hok.
    { apply write_integers_Ok.
      repeat apply Forall_cons_2; try done;
        unfold fits_column, max_integer; lia. }
    congruence.
Qed.

Lemma C3_witness :
  complete_attempt (Sample.empty_db 70) 2000000
                   (Sample.attempt in_progress None)
  ≠ Raise ZeroDivisionError ∧
  (∀ a' db',
     complete_attempt (Sample.empty_db 70) 2000000
                      (Sample.attempt in_progress None) = Ok (a', db') →
     QuizAttempt.score_percentage a' = S754_zero false ∧
     QuizAttempt.passed a'
     = (Quiz.passing_score (Sample.quiz 70 1 None) <=? 0) ∧
     (0 < Quiz.passing_score (Sample.quiz 70 1 None) →
      QuizAttempt.passed a' = false)) ∧
  (QuizAttempt.status (Sample.attempt in_progress None) = in_progress
   ∨ QuizAttempt.status (Sample.attempt in_progress None) = time_expired →
   fits_column (time_spent_at 2000000 (Sample.attempt in_progress None)) →
   ∃ a' db',
     complete_attempt (Sample.empty_db 70) 2000000
                      (Sample.attempt in_progress None) = Ok (a', db')).
Proof.
  apply (C3_no_responses (Sample.empty_db 70) 2000000
           (Sample.attempt in_progress None) (Sample.quiz 70 1 None)).
  - reflexivity.
  - reflexivity.
Defined.
(** ** Completing an attempt *)

(** The attempt [complete_attempt] scores: completed at [now], with the
    seconds spent since [started_at]. *)
Lemma complete_attempt_unfold db now a :
  QuizAttempt.status a = in_progress ∨ QuizAttempt.status a = time_expired →
  complete_attempt db now a
  = (scored ← calculate_score db
       (QuizAttempt.set_time_spent_seconds (time_spent_at now a)
          (QuizAttempt.set_completed_at (Some now)
             (QuizAttempt.set_status completed a)));
     _ ← write_integers [QuizAttempt.time_spent_seconds scored;
                         QuizAttempt.score_points scored];
     Ok (QuizAttempt_save db now scored)).
Proof.
  intros Hstatus. unfold complete_attempt, time_spent_at.
  assert (negb (bool_decide (QuizAttempt.status a = in_progress)
                || bool_decide (QuizAttempt.status a = time_expired))
          = false) as ->
    by (destruct Hstatus as [-> | ->]; done).
  destruct a as [i q s e n st sp pc ps tl ts [started|] ca ex qs cr up];
    reflexivity.
Qed.



(** Seven seconds and a bit are seven seconds spent. *)
Example complete_attempt_time_spent :
  match complete_attempt Sample.close_db 7501000
                         (Sample.attempt in_progress None) with
  | Ok (a', _) => QuizAttempt.time_spent_seconds a' = 7
  | Raise _ => False
  end.
Proof. vm_compute. reflexivity. Qed.

(** A clock set back by two seconds: the database refuses the negative
    number of seconds, and the attempt is not completed. *)
Example complete_attempt_clock_set_back :
  complete_attempt Sample.close_db 1000000
    (QuizAttempt.set_started_at (Some 3000000)
                                (Sample.attempt in_progress None))
  = Raise IntegrityError.
Proof. vm_compute. reflexivity. Qed.

(** ** Evaluating a response *)

(** C10. On a true/false question [evaluate_response] sets [is_correct] to
    whether the first answer flagged correct and the first selected answer
    are the same (absent on both sides counts as the same), and
    [points_earned] to the question's points when [is_correct] and to 0
    otherwise. So a question without a correct-flagged answer, answered by
    selecting nothing, earns the full points. *)
Theorem C10_true_false_evaluation
    (strip_lower : string → string)
    (matching_equal : string → list (uuid * option Z) → bool)
    (ordering_ids : string → option (list uuid))
    db now r question :
  get_row Question.id (QuestionResponse.question r) (questions db)
  = Some question →
  Question.question_type question = true_false →
  ∃ r',
    evaluate_response strip_lower matching_equal ordering_ids db now r
    = Ok (r', snd (QuestionResponse_save db now r')) ∧
    QuestionResponse.is_correct r'
    = bool_decide
        (Answer.id <$> head (correct_answers db (Question.id question))
         = Answer.id <$> head (selected_answers_all db r)) ∧
    QuestionResponse.points_earned r'
    = (if QuestionResponse.is_correct r' then Question.points question
       else 0) ∧
    (correct_answers db (Question.id question) = [] →
     selected_answers_all db r = [] →
     QuestionResponse.is_correct r' = true ∧
     QuestionResponse.points_earned r' = Question.points question).
Proof.
  intros Hquestion Htype. unfold evaluate_response.
  rewrite Hquestion. simpl. rewrite Htype. simpl.
  match goal with
  | |- ∃ r', Ok (QuestionResponse_save _ _ ?x) = _ ∧ _ =>
      exists (QuestionResponse.set_answered_at now x)
  end.
  split; [reflexivity|]. simpl.
  split; [reflexivity|]. split; [reflexivity|].
  intros -> ->. done.
Qed.

Lemma C10_witness :
  ∃ r',
    evaluate_response (fun s => s) (fun _ _ => false) (fun _ => None)
                      Sample.unflagged_db 2000 Sample.unflagged_response
    = Ok (r', snd (QuestionResponse_save Sample.unflagged_db 2000 r')) ∧
    QuestionResponse.is_correct r'
    = bool_decide
        (Answer.id <$> head (correct_answers Sample.unflagged_db 1)
         = Answer.id <$> head (selected_answers_all Sample.unflagged_db
                                 Sample.unflagged_response)) ∧
    QuestionResponse.points_earned r'
    = (if QuestionResponse.is_correct r' then 2 else 0) ∧
    (correct_answers Sample.unflagged_db 1 = [] →
     selected_answers_all Sample.unflagged_db Sample.unflagged_response = [] →
     QuestionResponse.is_correct r' = true ∧
     QuestionResponse.points_earned r' = 2).
Proof.
  apply (C10_true_false_evaluation (fun s => s) (fun _ _ => false)
           (fun _ => None) Sample.unflagged_db 2000
           Sample.unflagged_response (Question.mk 1 1 true_false 2 1)).
  - reflexivity.
  - reflexivity.
Defined.

(** The sample question has no correct-flagged answer and the sample
    response selects nothing: it is marked correct, with the 2 points. *)
Example unflagged_true_false_earns_the_points :
  correct_answers Sample.unflagged_db 1 = [] ∧
  selected_answers_all Sample.unflagged_db Sample.unflagged_response = [] ∧
  match evaluate_response (fun s => s) (fun _ _ => false) (fun _ => None)
                          Sample.unflagged_db 2000
                          Sample.unflagged_response with
  | Ok (r', _) =>
      QuestionResponse.is_correct r' = true ∧
      QuestionResponse.points_earned r' = 2
  | Raise _ => False
  end.
Proof. vm_compute. repeat split. Qed.

(** A multiple-choice response is correct when it selects the correct
    answers and no other: of the answers A, B, C with A and C correct,
    {A, C} earns the points, {A} and {A, B, C} earn nothing. *)
Example multiple_choice_is_set_equality :
  let points selected :=
    match evaluate_response (fun s => s) (fun _ _ => false) (fun _ => None)
                            (Sample.choice_db selected) 2000
                            (Sample.choice_response selected) with
    | Ok (r', _) =>
        Some (QuestionResponse.is_correct r', QuestionResponse.points_earned r')
    | Raise _ => None
    end in
  points {[1%positive; 3%positive]} = Some (true, 2) ∧
  points {[1%positive]} = Some (false, 0) ∧
  points {[1%positive; 2%positive; 3%positive]} = Some (false, 0).
Proof. vm_compute. repeat split. Qed.

(** ** The settings snapshot *)

(** What [start_attempt] stores in [quiz_settings] is [settings_of] the
    quiz as it is at that moment. *)
Lemma start_attempt_quiz_settings db now a a' db' :
  start_attempt db now a = Ok (a', db') →
  ∃ quiz,
    get_row Quiz.id (QuizAttempt.quiz a) (quizzes db) = Some quiz ∧
    QuizAttempt.quiz_settings a' = settings_of quiz.
Proof.
  unfold start_attempt. intros Hstart.
  destruct (negb _); [discriminate|]. simpl in Hstart.
  destruct (get_row Quiz.id _ _) as [quiz|]; [|discriminate].
  simpl in Hstart. exists quiz. split; [reflexivity|].
  destruct (Quiz.time_limit_minutes quiz) as [minutes|];
    [destruct (minutes =? 0)|]; simpl in Hstart.
  - by injection Hstart as <- _.
  - destruct (timedelta_minutes minutes) as [limit|]; [|discriminate].
    simpl in Hstart.
    destruct (datetime_add now limit) as [expires|]; [|discriminate].
    by injection Hstart as <- _.
  - by injection Hstart as <- _.
Qed.

(** The snapshot has five keys, and [require_completion] is none of
    them. *)
Lemma settings_of_keys quiz :
  dom (settings_of quiz)
  = ({[ "shuffle_questions"; "shuffle_answers"; "show_correct_answers";
        "show_score_immediately"; "allow_review" ]} : gset string) ∧
  settings_of quiz !! "require_completion" = None.
Proof.
  unfold settings_of. split.
  - rewrite !dom_insert_L, dom_empty_L. set_solver.
  - by rewrite !lookup_insert_ne, lookup_empty.
Qed.

(** C8 (the claim fails on the code, which is at fault). The claim: the
    snapshot taken at the start of an attempt holds all six behavioural
    flags of the quiz. Here Alice starts the sample quiz, whose
    [require_completion] flag is set: the attempt she gets has a snapshot
    of five flags, without [require_completion]. *)
Theorem C8_snapshot_lacks_require_completion :
  Quiz.require_completion (Sample.quiz 70 1 None) = true ∧
  match start_quiz_attempt (Sample.fresh_db 1 None) 1000 5 Sample.alice 1 with
  | (Response (AttemptData a) code, _) =>
      code = HTTP_201_CREATED ∧
      QuizAttempt.quiz_settings a !! "shuffle_questions" = Some false ∧
      QuizAttempt.quiz_settings a !! "shuffle_answers" = Some false ∧
      QuizAttempt.quiz_settings a !! "show_correct_answers" = Some true ∧
      QuizAttempt.quiz_settings a !! "show_score_immediately" = Some true ∧
      QuizAttempt.quiz_settings a !! "allow_review" = Some true ∧
      QuizAttempt.quiz_settings a !! "require_completion" = None
  | _ => False
  end.
Proof. vm_compute. repeat split. Qed.

(** ** The total of a quiz *)

(** [calculate_total_points] leaves the quiz with the sum of the points of
    its questions. *)
Lemma calculate_total_points_sum db quiz_id total db' quiz :
  calculate_total_points db quiz_id = Ok (total, db') →
  get_row Quiz.id quiz_id (quizzes db') = Some quiz →
  Quiz.total_points quiz = sum_of Question.points (quiz_questions db' quiz_id).
Proof.
  unfold calculate_total_points.
  destruct (write_integers _); [|discriminate].
  intros [= <- <-]. simpl.
  rewrite get_row_fmap_keep.
  2:{ intros r. destruct (bool_decide _); reflexivity. }
  destruct (get_row Quiz.id quiz_id (quizzes db)) as [old|] eqn:Hold;
    [|discriminate].
  simpl. intros [= <-].
  apply get_row_Some in Hold as [_ Hold]. rewrite bool_decide_eq_true_2 by done.
  reflexivity.
Qed.

(** A question that is added or modified goes through [Question.save],
    after which the total of its quiz is the sum of the points of the
    quiz's questions. *)
Lemma Question_save_total_points db q q' db' quiz :
  Question_save db q = Ok (q', db') →
  get_row Quiz.id (Question.quiz q') (quizzes db') = Some quiz →
  Quiz.total_points quiz
  = sum_of Question.points (quiz_questions db' (Question.quiz q')).
Proof.
  unfold Question_save.
  destruct (Question_save_row db q) as [[self db1]|]; [|discriminate].
  simpl.
  destruct (calculate_total_points db1 (Question.quiz self))
    as [[total out]|] eqn:Hcalc; [|discriminate].
  simpl. intros [= <- <-].
  eapply calculate_total_points_sum, Hcalc.
Qed.

(** C9 (the claim fails on the code, which is at fault). The claim: after
    a question is added, modified or removed, the quiz's [total_points] is
    the sum of the points of its questions. Here a question worth 5 points
    is saved into an empty quiz, whose total becomes 5, and then deleted:
    the quiz has no question left and its total is still 5. *)
Theorem C9_total_points_stale_after_delete :
  match Question_save (Sample.fresh_db 1 None)
                      (Question.mk 1 1 essay 5 0) with
  | Ok (q, db) =>
      Question.order q = 1 ∧
      Quiz.total_points <$> get_row Quiz.id 1 (quizzes db) = Some 5 ∧
      sum_of Question.points (quiz_questions db 1) = 5 ∧
      let db' := Question_delete db (Question.id q) in
      quiz_questions db' 1 = [] ∧
      sum_of Question.points (quiz_questions db' 1) = 0 ∧
      Quiz.total_points <$> get_row Quiz.id 1 (quizzes db') = Some 5
  | Raise _ => False
  end.
Proof. vm_compute. repeat split. Qed.

(** ** Starting an attempt *)

(** C6, as the claim states it, fails: a student without an active
    enrollment is answered 404 (not found), not 400 (the validation
    failure). *)
Lemma C6_counterexample :
  active_enrollment Sample.nobody_enrolled_db 20 1 = None ∧
  start_quiz_attempt Sample.nobody_enrolled_db 1000 5 Sample.alice 1
  = (Http404, Sample.nobody_enrolled_db) ∧
  status_code Http404 ≠ HTTP_400_BAD_REQUEST.
Proof. repeat split. discriminate. Qed.

(** C6 (amended). A learner's request to start an existing quiz is refused
    without any write to the database when the learner has no active
    enrollment in the quiz's course, and then the answer is 404 (not
    found); and when, the learner being enrolled, the quiz is not available
    or the number of the learner's attempts has reached [max_attempts], and
    then the answer is 400 (validation failure). *)
Theorem C6_start_refused db now new_id user quiz_id quiz :
  User.role user = learner →
  get_row Quiz.id quiz_id (quizzes db) = Some quiz →
  active_enrollment db (User.id user) (Quiz.course quiz) = None
  ∨ is_available now quiz = false
  ∨ Quiz.max_attempts quiz
    ≤ Z.of_nat (length (attempts_of db quiz_id (User.id user))) →
  snd (start_quiz_attempt db now new_id user quiz_id) = db ∧
  status_code (fst (start_quiz_attempt db now new_id user quiz_id))
  = match active_enrollment db (User.id user) (Quiz.course quiz) with
    | Some _ => HTTP_400_BAD_REQUEST
    | None => HTTP_404_NOT_FOUND
    end.
Proof.
  intros Hrole Hquiz Hcase. unfold start_quiz_attempt.
  rewrite Hrole, Hquiz. simpl.
  destruct (active_enrollment db (User.id user) (Quiz.course quiz))
    as [enrollment|]; [|done].
  destruct (is_available now quiz) eqn:Havailable; simpl; [|done].
  destruct Hcase as [|[|Hmax]]; [done..|].
  assert ((Z.of_nat (length (attempts_of db quiz_id (User.id user)))
           >=? Quiz.max_attempts quiz) = true) as -> by lia.
  done.
Qed.

(** The quiz allows one attempt and Alice has made one. *)
Lemma C6_witness :
  snd (start_quiz_attempt Sample.essay_db 3000 5 Sample.alice 1)
  = Sample.essay_db ∧
  status_code (fst (start_quiz_attempt Sample.essay_db 3000 5 Sample.alice 1))
  = match active_enrollment Sample.essay_db (User.id Sample.alice)
            (Quiz.course (Sample.quiz 70 1 None)) with
    | Some _ => HTTP_400_BAD_REQUEST
    | None => HTTP_404_NOT_FOUND
    end.
Proof.
  apply (C6_start_refused Sample.essay_db 3000 5 Sample.alice 1
           (Sample.quiz 70 1 None)).
  - reflexivity.
  - reflexivity.
  - right. right. vm_compute. discriminate.
Defined.

Lemma in_progress_attempt_of_Some db quiz student a :
  in_progress_attempt_of db quiz student = Some a →
  a ∈ attempts db ∧ QuizAttempt.status a = in_progress.
Proof.
  unfold in_progress_attempt_of, attempts_of.
  intros Hfirst%first_by_elem.
  apply elem_of_filter_list in Hfirst as [Hin Hstatus].
  apply elem_of_filter_list in Hin as [Hin _].
  split; [done|by apply bool_decide_eq_true in Hstatus].
Qed.

Lemma attempt_number_taken_numbers db quiz student number :
  attempt_number_taken db quiz student number
  = existsb (fun m => m =? number) (attempt_numbers db quiz student).
Proof.
  unfold attempt_number_taken, attempt_numbers.
  induction (attempts_of db quiz student) as [|a rows IH]; [done|].
  simpl. by rewrite IH.
Qed.

Lemma attempt_numbers_fmap (f : QuizAttempt.t → QuizAttempt.t) rows
    quiz student :
  Forall (fun r => QuizAttempt.quiz (f r) = QuizAttempt.quiz r
                   ∧ QuizAttempt.student (f r) = QuizAttempt.student r
                   ∧ QuizAttempt.attempt_number (f r)
                     = QuizAttempt.attempt_number r) rows →
  QuizAttempt.attempt_number
    <$> List.filter
          (fun a => bool_decide (QuizAttempt.quiz a = quiz)
                    && bool_decide (QuizAttempt.student a = student))
          (f <$> rows)
  = QuizAttempt.attempt_number
      <$> List.filter
            (fun a => bool_decide (QuizAttempt.quiz a = quiz)
                      && bool_decide (QuizAttempt.student a = student))
            rows.
Proof.
  induction 1 as [|r rows (Hquiz & Hstudent & Hnumber) _ IH]; [done|].
  cbn [fmap list_fmap List.filter]. rewrite Hquiz, Hstudent.
  destruct (bool_decide (QuizAttempt.quiz r = quiz)
            && bool_decide (QuizAttempt.student r = student)).
  - cbn [fmap list_fmap] in *. by rewrite Hnumber, IH.
  - apply IH.
Qed.

(** Saving an attempt of the table under a new status keeps the attempt
    numbers of every student. *)
Lemma attempt_numbers_save_status db now a status quiz student :
  NoDup (QuizAttempt.id <$> attempts db) →
  a ∈ attempts db →
  attempt_numbers
    (snd (QuizAttempt_save db now (QuizAttempt.set_status status a)))
    quiz student
  = attempt_numbers db quiz student.
Proof.
  intros Hnodup Hin. unfold attempt_numbers, attempts_of, QuizAttempt_save.
  cbn [snd attempts set_attempts].
  rewrite save_row_present
    by (simpl; by apply (get_row_elem QuizAttempt.id)).
  apply attempt_numbers_fmap, Forall_forall. intros r Hr.
  destruct (bool_decide _) eqn:Hid; [|done].
  apply bool_decide_eq_true in Hid. simpl in Hid.
  by rewrite (NoDup_pk_eq QuizAttempt.id _ r a Hnodup Hr Hin Hid).
Qed.

(** Creating and starting an attempt under a fresh key and a free number
    appends the started attempt to the table. *)
Lemma create_then_start db now new_id user quiz_id quiz enrollment number :
  get_row Quiz.id quiz_id (quizzes db) = Some quiz →
  expiry_ok now quiz →
  get_row QuizAttempt.id new_id (attempts db) = None →
  attempt_number_taken db quiz_id (User.id user) number = false →
  ('(attempt, db') ← QuizAttempt_create db now new_id quiz_id (User.id user)
                      (Enrollment.id enrollment) number;
   start_attempt db' now attempt)
  = Ok (started_attempt now new_id user quiz enrollment number,
        set_attempts
          (attempts db
           ++ [started_attempt now new_id user quiz enrollment number]) db).
Proof.
  intros Hquiz Hexpiry Hfresh Hfree. unfold QuizAttempt_create.
  rewrite Hfresh, Hfree. simpl.
  unfold start_attempt. simpl. rewrite Hquiz. simpl.
  unfold QuizAttempt_save. simpl.
  apply get_row_Some in Hquiz as [_ Hid].
  assert (∀ x, QuizAttempt.id x = new_id →
               save_row QuizAttempt.id x
                 (attempts db
                  ++ [QuizAttempt.mk new_id quiz_id (User.id user)
                        (Some (Enrollment.id enrollment)) number not_started 0
                        (S754_zero false) false None 0 None None None ∅
                        now now])
               = attempts db ++ [x]) as Hsave.
  { intros x Hx. by apply save_row_last. }
  unfold started_attempt, expiry_ok in *. rewrite Hid.
  destruct (Quiz.time_limit_minutes quiz) as [minutes|];
    [destruct (Z.eqb_spec minutes 0) as [->|Hne]|]; simpl.
  - rewrite Hsave by done. reflexivity.
  - destruct Hexpiry as [?|[Hdays Hrange]]; [done|].
    unfold timedelta_minutes, datetime_add.
    assert ((Z.abs (minutes * 60 / 86400) >? 999999999) = false) as ->
      by lia.
    simpl.
    assert ((datetime_min <=? now + minutes * 60000000)
            && (now + minutes * 60000000 <=? datetime_max) = true) as ->
      by lia.
    simpl. rewrite Hsave by done. reflexivity.
  - rewrite Hsave by done. reflexivity.
Qed.

(** When the time limit or the expiry is beyond what Python represents,
    starting raises [OverflowError]. *)
Lemma create_then_start_overflow db now new_id user quiz_id quiz enrollment
    number :
  get_row Quiz.id quiz_id (quizzes db) = Some quiz →
  ¬ expiry_ok now quiz →
  get_row QuizAttempt.id new_id (attempts db) = None →
  attempt_number_taken db quiz_id (User.id user) number = false →
  ('(attempt, db') ← QuizAttempt_create db now new_id quiz_id (User.id user)
                      (Enrollment.id enrollment) number;
   start_attempt db' now attempt)
  = Raise OverflowError.
Proof.
  intros Hquiz Hexpiry Hfresh Hfree. unfold QuizAttempt_create.
  rewrite Hfresh, Hfree. simpl.
  unfold start_attempt. simpl. rewrite Hquiz. simpl.
  unfold expiry_ok in Hexpiry.
  destruct (Quiz.time_limit_minutes quiz) as [minutes|]; [|done].
  destruct (Z.eqb_spec minutes 0) as [->|Hne]; [destruct Hexpiry; by left|].
  unfold timedelta_minutes, datetime_add.
  destruct (Z.abs (minutes * 60 / 86400) >? 999999999) eqn:Hdays;
    [done|]. simpl.
  destruct ((datetime_min <=? now + minutes * 60000000)
            && (now + minutes * 60000000 <=? datetime_max)) eqn:Hrange;
    [|done].
  destruct Hexpiry. right. lia.
Qed.

(** What [start_attempt] has done when it returns. *)
Lemma start_attempt_inv db now a a' db' :
  start_attempt db now a = Ok (a', db') →
  ∃ quiz,
    get_row Quiz.id (QuizAttempt.quiz a) (quizzes db) = Some quiz ∧
    db' = set_attempts (save_row QuizAttempt.id a' (attempts db)) db ∧
    QuizAttempt.id a' = QuizAttempt.id a ∧
    QuizAttempt.quiz a' = QuizAttempt.quiz a ∧
    QuizAttempt.student a' = QuizAttempt.student a ∧
    QuizAttempt.attempt_number a' = QuizAttempt.attempt_number a ∧
    QuizAttempt.quiz_settings a' = settings_of quiz ∧
    QuizAttempt.status a' = in_progress.
Proof.
  unfold start_attempt. intros Hstart.
  destruct (negb _); [discriminate|]. simpl in Hstart.
  destruct (get_row Quiz.id _ _) as [quiz|]; [|discriminate].
  simpl in Hstart. exists quiz. split; [reflexivity|].
  destruct (Quiz.time_limit_minutes quiz) as [minutes|];
    [destruct (minutes =? 0)|]; simpl in Hstart.
  - by injection Hstart as <- <-.
  - destruct (timedelta_minutes minutes) as [limit|]; [|discriminate].
    simpl in Hstart.
    destruct (datetime_add now limit) as [expires|]; [|discriminate].
    by injection Hstart as <- <-.
  - by injection Hstart as <- <-.
Qed.
(** ** Starting an attempt: resume or create *)

(** C5 (the claim fails on the code, which is at fault). The claim: a new
    attempt gets [expires_at = started_at] plus the time limit exactly
    when the quiz defines [time_limit_minutes]. Here the quiz defines a
    time limit of 0 minutes ([time_limit_minutes] is not null, and the
    column's help text reads "null = no limit"): the attempt Alice starts
    at time 3000 has no [expires_at], and is never expired, where the
    claim has it due at 3000. *)
Theorem C5_zero_time_limit_sets_no_expiry :
  Quiz.time_limit_minutes (Sample.quiz 70 1 (Some 0)) = Some 0 ∧
  match start_quiz_attempt (Sample.fresh_db 1 (Some 0)) 3000 5
                           Sample.alice 1 with
  | (Response (AttemptData a) code, _) =>
      code = HTTP_201_CREATED ∧ QuizAttempt.started_at a = Some 3000 ∧
      QuizAttempt.expires_at a = None ∧
      ∀ later, is_expired later a = false
  | _ => False
  end.
Proof. vm_compute. repeat split. Qed.

(** The rest of the claim holds. Let a learner with an active enrollment
    ask to start an available quiz at which the learner has made fewer
    than [max_attempts] attempts. If the learner's newest attempt in
    progress has not expired, the answer is that attempt and nothing is
    written. Otherwise that attempt, if there is one, is saved as
    [time_expired], and a new attempt is appended to the table: numbered
    one more than the attempts the learner has at the quiz, [in_progress],
    started now, carrying the snapshot [settings_of] the quiz, and due
    [time_limit_minutes] after its start when the quiz has a
    [time_limit_minutes] other than 0. (Primary keys are unique, [new_id]
    is a fresh one, the new number is not in use, and Python can represent
    the expiry.) *)
Lemma start_resumes_or_creates
    db now new_id user quiz_id quiz enrollment :
  let student := User.id user in
  let number := Z.of_nat (length (attempts_of db quiz_id student)) + 1 in
  let attempt := started_attempt now new_id user quiz enrollment number in
  let created (db1 : DB) :=
    (Response (AttemptData attempt) HTTP_201_CREATED,
     set_attempts (attempts db1 ++ [attempt]) db1) in
  User.role user = learner →
  get_row Quiz.id quiz_id (quizzes db) = Some quiz →
  active_enrollment db student (Quiz.course quiz) = Some enrollment →
  is_available now quiz = true →
  Z.of_nat (length (attempts_of db quiz_id student)) < Quiz.max_attempts quiz →
  NoDup (QuizAttempt.id <$> attempts db) →
  get_row QuizAttempt.id new_id (attempts db) = None →
  attempt_number_taken db quiz_id student number = false →
  expiry_ok now quiz →
  (∀ a, in_progress_attempt_of db quiz_id student = Some a →
        is_expired now a = false →
        start_quiz_attempt db now new_id user quiz_id
        = (Response (AttemptData a) HTTP_200_OK, db)) ∧
  (∀ a, in_progress_attempt_of db quiz_id student = Some a →
        is_expired now a = true →
        let expired :=
          QuizAttempt.set_updated_at now
            (QuizAttempt.set_status time_expired a) in
        let db1 := set_attempts (save_row QuizAttempt.id expired (attempts db))
                                db in
        expired ∈ attempts db1 ∧
        start_quiz_attempt db now new_id user quiz_id = created db1) ∧
  (in_progress_attempt_of db quiz_id student = None →
   start_quiz_attempt db now new_id user quiz_id = created db) ∧
  (QuizAttempt.attempt_number attempt = number ∧
   QuizAttempt.status attempt = in_progress ∧
   QuizAttempt.started_at attempt = Some now ∧
   QuizAttempt.quiz_settings attempt = settings_of quiz ∧
   QuizAttempt.expires_at attempt
   = match Quiz.time_limit_minutes quiz with
     | Some minutes =>
         if minutes =? 0 then None
         else Some (now + minutes * 60000000)
     | None => None
     end).
Proof.
  intros student number attempt created
         Hrole Hquiz Henrolled Havailable Hcount Hnodup Hfresh Hfree Hexpiry.
  subst student.
  assert (start_quiz_attempt db now new_id user quiz_id
          = match in_progress_attempt_of db quiz_id (User.id user) with
            | Some a =>
                if is_expired now a then
                  match
                    '(attempt, db') ←
                      QuizAttempt_create
                        (snd (QuizAttempt_save db now
                                (QuizAttempt.set_status time_expired a)))
                        now new_id quiz_id (User.id user)
                        (Enrollment.id enrollment) number;
                    start_attempt db' now attempt
                  with
                  | Ok (attempt, db') =>
                      (Response (AttemptData attempt) HTTP_201_CREATED, db')
                  | Raise e =>
                      (Http500 e,
                       snd (QuizAttempt_save db now
                              (QuizAttempt.set_status time_expired a)))
                  end
                else (Response (AttemptData a) HTTP_200_OK, db)
            | None =>
                match
                  '(attempt, db') ←
                    QuizAttempt_create db now new_id quiz_id (User.id user)
                      (Enrollment.id enrollment) number;
                  start_attempt db' now attempt
                with
                | Ok (attempt, db') =>
                    (Response (AttemptData attempt) HTTP_201_CREATED, db')
                | Raise e => (Http500 e, db)
                end
            end) as Hstart.
  { unfold start_quiz_attempt.
    rewrite Hrole, Hquiz. simpl. rewrite Henrolled, Havailable. simpl.
    assert ((Z.of_nat (length (attempts_of db quiz_id (User.id user)))
             >=? Quiz.max_attempts quiz) = false) as -> by lia.
    reflexivity. }
  split; [|split; [|split]].
  - intros a Ha Hlive. by rewrite Hstart, Ha, Hlive.
  - intros a Ha Hdue expired db1.
    pose proof (in_progress_attempt_of_Some _ _ _ _ Ha) as [Hin _]. split.
    { by eapply (elem_of_save_row_same QuizAttempt.id). }
    rewrite Hstart, Ha, Hdue.
    rewrite create_then_start with (quiz := quiz); [done|done|done|..].
    + unfold QuizAttempt_save. cbn [snd attempts set_attempts].
      rewrite save_row_present
        by (simpl; by apply (get_row_elem QuizAttempt.id)).
      rewrite get_row_fmap_keep, Hfresh; [done|].
      intros r. by destruct (bool_decide _) eqn:Hid;
        [apply bool_decide_eq_true in Hid|].
    + rewrite attempt_number_taken_numbers, attempt_numbers_save_status
        by done.
      by rewrite <- attempt_number_taken_numbers.
  - intros Hnone. rewrite Hstart, Hnone.
    by rewrite create_then_start with (quiz := quiz).
  - unfold attempt, started_attempt. simpl.
    destruct (Quiz.time_limit_minutes quiz) as [minutes|];
      [destruct (minutes =? 0)|]; repeat split.
Qed.

(** Alice's first attempt at the sample quiz was due at time 5000; at time
    6000 she starts her second, which is due 30 minutes later. *)
Example second_attempt_after_expiry :
  let expired :=
    QuizAttempt.set_updated_at 6000
      (QuizAttempt.set_status time_expired
         (Sample.attempt in_progress (Some 5000))) in
  let attempt :=
    started_attempt 6000 5 Sample.alice (Sample.quiz 70 3 (Some 30))
                    Sample.enrolled 2 in
  start_quiz_attempt Sample.timed_db 6000 5 Sample.alice 1
  = (Response (AttemptData attempt) HTTP_201_CREATED,
     set_attempts [expired; attempt] Sample.timed_db) ∧
  QuizAttempt.expires_at attempt = Some 1800006000.
Proof. vm_compute. split; reflexivity. Qed.

(** A time limit of ten thousand million minutes: the expiry is past the
    year 9999, starting raises [OverflowError], and the request is
    answered 500 with nothing written. *)
Example start_beyond_year_9999 :
  start_quiz_attempt (Sample.fresh_db 1 (Some 10000000000)) 3000 5
                     Sample.alice 1
  = (Http500 OverflowError, Sample.fresh_db 1 (Some 10000000000)).
Proof. vm_compute. reflexivity. Qed.

(** ** Attempts that are over *)

Lemma same_but_score_refl a : same_but_score a a.
Proof. unfold same_but_score. by destruct a. Qed.

Lemma calculate_score_shape db a scored :
  calculate_score db a = Ok scored →
  ∃ points percentage pass,
    scored = QuizAttempt.set_score points percentage pass a.
Proof.
  unfold calculate_score. intros Hcalc.
  destruct (score_loop _ _ _ _) as [[total earned]|]; [|discriminate].
  simpl in Hcalc.
  destruct (_ : result Py.float) as [percentage|]; [|discriminate].
  simpl in Hcalc.
  destruct (lookup_or_raise _) as [quiz|]; [|discriminate].
  simpl in Hcalc. injection Hcalc as <-. by do 3 eexists.
Qed.



Lemma create_then_start_keeps db now new_id quiz student enrollment number
    a out db' :
  ('(attempt, db1) ← QuizAttempt_create db now new_id quiz student
                       enrollment number;
   start_attempt db1 now attempt) = Ok (out, db') →
  a ∈ attempts db → a ∈ attempts db'.
Proof.
  unfold QuizAttempt_create. intros Hrun Hin.
  destruct (bool_decide (is_Some _)) eqn:Hfresh; [discriminate|].
  apply bool_decide_eq_false in Hfresh.
  destruct (attempt_number_taken _ _ _ _); [discriminate|].
  simpl in Hrun.
  apply start_attempt_inv in Hrun as (q & _ & -> & Hid' & _).
  cbn [attempts set_attempts QuizAttempt.id] in *.
  apply (elem_of_save_row_other QuizAttempt.id).
  - apply elem_of_app. by left.
  - intros Hid. apply Hfresh.
    replace new_id with (QuizAttempt.id a); [by apply get_row_elem|].
    by rewrite Hid.
Qed.
(** ** What the handlers write *)

Lemma same_catalogue_refl db : same_catalogue db db.
Proof. by repeat split. Qed.

Lemma same_catalogue_trans db1 db2 db3 :
  same_catalogue db1 db2 → same_catalogue db2 db3 → same_catalogue db1 db3.
Proof.
  intros (? & ? & ? & ? & ?) (? & ? & ? & ? & ?).
  repeat split; congruence.
Qed.

Lemma QuizAttempt_save_frame db now a :
  same_catalogue db (snd (QuizAttempt_save db now a)) ∧
  responses (snd (QuizAttempt_save db now a)) = responses db ∧
  attempts (snd (QuizAttempt_save db now a))
  = save_row QuizAttempt.id (QuizAttempt.set_updated_at now a) (attempts db).
Proof. by repeat split. Qed.

Lemma QuestionResponse_save_frame db now r :
  same_catalogue db (snd (QuestionResponse_save db now r)) ∧
  attempts (snd (QuestionResponse_save db now r)) = attempts db.
Proof. by repeat split. Qed.

Section Frames.

Variable strip_lower : string → string.
Variable matching_equal : string → list (uuid * option Z) → bool.
Variable ordering_ids : string → option (list uuid).
Variable graded_data : string → string → string → datetime → option string.
Variable text_valid : string → option string.
Variable seconds_valid : Z → bool.

#[local] Arguments QuestionResponse_save : simpl never.
#[local] Arguments QuizAttempt_save : simpl never.

(** The evaluator writes the row of the response, whose attempt and
    question it keeps, and nothing else. *)
Lemma evaluate_response_frame db now r r' db' :
  evaluate_response strip_lower matching_equal ordering_ids db now r
  = Ok (r', db') →
  same_catalogue db db' ∧ attempts db' = attempts db ∧
  QuestionResponse.id r' = QuestionResponse.id r ∧
  QuestionResponse.attempt r' = QuestionResponse.attempt r ∧
  QuestionResponse.question r' = QuestionResponse.question r.
Proof.
  unfold evaluate_response. intros Heval.
  destruct (lookup_or_raise _) as [question|]; [|discriminate].
  simpl in Heval.
  destruct (_ : result QuestionResponse.t) as [out|] eqn:Hout;
    [|discriminate].
  simpl in Heval. injection Heval as <- <-. simpl.
  assert (QuestionResponse.id out = QuestionResponse.id r
          ∧ QuestionResponse.attempt out = QuestionResponse.attempt r
          ∧ QuestionResponse.question out = QuestionResponse.question r)
    as (? & ? & ?).
  { destruct (Question.question_type question);
      try (by injection Hout as <-).
    destruct (ordering_ids _); [by injection Hout as <-|discriminate]. }
  by repeat split.
Qed.

Lemma create_response_frame db now new_id attempt_id question_id request r
    db' :
  create_response db now new_id attempt_id question_id request
  = Ok (r, db') →
  same_catalogue db db' ∧ attempts db' = attempts db ∧
  responses db' = responses db ++ [r].
Proof.
  unfold create_response. intros Hcreate.
  repeat (match type of Hcreate with
          | (if ?c then _ else _) = _ => destruct c; [discriminate|]
          end).
  destruct (write_integers _); [|discriminate]. simpl in Hcreate.
  destruct (_ || _); [discriminate|].
  injection Hcreate as <- <-. by repeat split.
Qed.

Lemma QuestionResponseSerializer_update_frame db now instance request :
  let out :=
    QuestionResponseSerializer_update strip_lower matching_equal
      ordering_ids text_valid db now instance request in
  same_catalogue db (snd out) ∧ attempts (snd out) = attempts db.
Proof.
  unfold QuestionResponseSerializer_update. cbv zeta.
  destruct (bool_decide _); [by repeat split|].
  destruct (write_integers _); [|by repeat split].
  destruct (response_taken _ _); [by repeat split|].
  match goal with
  | |- context [QuestionResponse_save db now ?x] =>
      destruct (QuestionResponse_save_frame db now x) as [Hsame Hattempts];
      destruct (QuestionResponse_save db now x) as [saved db1]
  end.
  simpl in Hsame, Hattempts.
  destruct (evaluate_response _ _ _ _ _ _) as [[out db']|] eqn:Heval;
    [|done].
  apply evaluate_response_frame in Heval as (Hsame' & Hattempts' & _).
  simpl. split; [by eapply same_catalogue_trans|congruence].
Qed.

(** A submission writes responses, and the one attempt it finds
    expired. *)
Lemma submit_question_response_frame db now new_id user attempt_id
    question_id request :
  let out :=
    submit_question_response strip_lower matching_equal ordering_ids
      text_valid seconds_valid db now new_id user attempt_id question_id
      request in
  same_catalogue db (snd out) ∧
  (attempts (snd out) = attempts db
   ∨ ∃ b, b ∈ attempts db ∧ QuizAttempt.id b = attempt_id ∧
          QuizAttempt.status b = in_progress ∧
          attempts (snd out)
          = save_row QuizAttempt.id
              (QuizAttempt.set_updated_at now
                 (QuizAttempt.set_status time_expired b))
              (attempts db)).
Proof.
  pose proof (same_catalogue_refl db) as Hrefl.
  unfold submit_question_response. cbv zeta.
  destruct (negb _); [by split; [|left]|].
  destruct (List.find _ (attempts db)) as [b|] eqn:Hb; [|by split; [|left]].
  apply find_some in Hb as [Hb Hfound]. apply list_elem_of_In in Hb.
  apply andb_prop in Hfound as [Hfound Hstatus%bool_decide_eq_true].
  apply andb_prop in Hfound as [Hid%bool_decide_eq_true _].
  destruct (is_expired now b).
  { split; [done|]. right. by exists b. }
  destruct (List.find _ (questions db)) as [question|]; [|by split; [|left]].
  destruct (List.find _ (responses db)) as [response|].
  - destruct (negb _); [by split; [|left]|].
    pose proof (QuestionResponseSerializer_update_frame db now response
                  request) as Hupdate.
    cbv zeta in Hupdate.
    destruct (QuestionResponseSerializer_update _ _ _ _ _ _ _ _)
      as [[out|e] db']; simpl in *; destruct Hupdate as [? ?];
      by split; [|left].
  - destruct (create_response _ _ _ _ _ _) as [[out db']|] eqn:Hcreate;
      [|by split; [|left]].
    apply create_response_frame in Hcreate as (? & ? & _).
    by split; [|left].
Qed.

(** Grading writes the row of the response and, when it answers 200, the
    row of the response's attempt with the score calculated anew. *)
Lemma grade_essay_response_frame db now user response_id request :
  let out := grade_essay_response graded_data db now user response_id
                                  request in
  same_catalogue db (snd out) ∧
  (status_code (fst out) ≠ HTTP_200_OK → attempts (snd out) = attempts db) ∧
  (status_code (fst out) = HTTP_200_OK →
   ∃ r graded db1 b scored,
     get_row QuestionResponse.id response_id (responses db) = Some r ∧
     QuestionResponse_save db now
       (QuestionResponse.set_response_data
          (QuestionResponse.response_data graded)
          (QuestionResponse.set_evaluation
             (QuestionResponse.is_correct graded)
             (QuestionResponse.points_earned graded) r))
     = (graded, db1) ∧
     fst out = Response (ResponseData graded) HTTP_200_OK ∧
     get_row QuizAttempt.id (QuestionResponse.attempt r) (attempts db)
     = Some b ∧
     calculate_score db1 b = Ok scored ∧
     responses (snd out) = responses db1 ∧
     attempts (snd out)
     = save_row QuizAttempt.id (QuizAttempt.set_updated_at now scored)
                (attempts db)).
Proof.
  pose proof (same_catalogue_refl db) as Hrefl.
  unfold grade_essay_response. cbv zeta.
  destruct (negb _); [by repeat split|].
  destruct (_ ≫= _) as [[response question]|] eqn:Hfound;
    [|by repeat split].
  destruct (Py.value_lt_int _ 0) as [[|]|e1]; cbn [mbind result_bind];
    [by repeat split| |by repeat split].
  destruct (Py.value_gt_int _ _) as [[|]|e2]; cbn [mbind result_bind];
    [by repeat split| |by repeat split].
  destruct (graded_data _ _ _ _) as [data|]; [|by repeat split].
  destruct (Py.int_of_value _) as [points|]; [|by repeat split].
  match goal with
  | |- context [QuestionResponse_save db now ?x] =>
      set (marked := x);
      destruct (QuestionResponse_save_frame db now marked)
        as [Hsame Hattempts];
      destruct (QuestionResponse_save db now marked) as [graded db1] eqn:Hsave
  end.
  simpl in Hsame, Hattempts.
  assert (QuestionResponse.attempt graded = QuestionResponse.attempt response)
    as Hattempt by (by injection Hsave as <- _).
  destruct (get_row QuizAttempt.id (QuestionResponse.attempt graded)
                    (attempts db1)) as [b|] eqn:Hb;
    [|simpl; split; [done|split; [done|discriminate]]].
  cbn [mbind result_bind lookup_or_raise].
  destruct (calculate_score db1 b) as [scored|] eqn:Hscore;
    [|simpl; split; [done|split; [done|discriminate]]].
  cbn [mbind result_bind].
  destruct (write_integers _);
    [|simpl; split; [done|split; [done|discriminate]]].
  simpl. split; [done|]. split; [done|]. intros _.
  destruct (get_row QuestionResponse.id response_id (responses db))
    as [r|]; [|discriminate].
  simpl in Hfound.
  destruct (essay_question_of db user r); [|discriminate].
  injection Hfound as -> ->.
  exists response, graded, db1, b, scored.
  rewrite Hattempt, Hattempts in Hb.
  repeat split; try done.
  - rewrite <- Hsave. f_equal. injection Hsave as <- _. by destruct response.
  - unfold QuizAttempt_save. simpl. by rewrite Hattempts.
Qed.

End Frames.

(** Completing writes the row of the attempt it completes. *)
Lemma complete_quiz_attempt_frame db now user attempt_id :
  let out := complete_quiz_attempt db now user attempt_id in
  same_catalogue db (snd out) ∧ responses (snd out) = responses db ∧
  (attempts (snd out) = attempts db
   ∨ ∃ b scored,
       b ∈ attempts db ∧ QuizAttempt.id b = attempt_id ∧
       (QuizAttempt.status b = in_progress
        ∨ QuizAttempt.status b = time_expired) ∧
       calculate_score db
         (QuizAttempt.set_time_spent_seconds (time_spent_at now b)
            (QuizAttempt.set_completed_at (Some now)
               (QuizAttempt.set_status completed b))) = Ok scored ∧
       attempts (snd out)
       = save_row QuizAttempt.id (QuizAttempt.set_updated_at now scored)
                  (attempts db)).
Proof.
  pose proof (same_catalogue_refl db) as Hrefl.
  unfold complete_quiz_attempt. cbv zeta.
  destruct (negb _); [by split; [|split; [|left]]|].
  destruct (List.find _ (attempts db)) as [b|] eqn:Hb;
    [|by split; [|split; [|left]]].
  apply find_some in Hb as [Hb Hfound]. apply list_elem_of_In in Hb.
  apply andb_prop in Hfound as [Hfound Hstatus].
  apply andb_prop in Hfound as [Hid%bool_decide_eq_true _].
  assert (QuizAttempt.status b = in_progress
          ∨ QuizAttempt.status b = time_expired) as Hlive.
  { apply orb_prop in Hstatus as [?%bool_decide_eq_true
                                 |?%bool_decide_eq_true]; tauto. }
  rewrite (complete_attempt_unfold _ _ _ Hlive).
  destruct (calculate_score db _) as [scored|] eqn:Hscore;
    [|by split; [|split; [|left]]].
  simpl. destruct (write_integers _); [|by split; [|split; [|left]]].
  simpl. split; [done|]. split; [done|]. right. by exists b, scored.
Qed.

(** What creating and starting an attempt leaves, when it succeeds. *)
Lemma create_then_start_inv db now new_id quiz student enrollment number
    out db' :
  ('(attempt, db1) ← QuizAttempt_create db now new_id quiz student
                       enrollment number;
   start_attempt db1 now attempt) = Ok (out, db') →
  same_catalogue db db' ∧ responses db' = responses db ∧
  attempts db' = attempts db ++ [out] ∧
  get_row QuizAttempt.id new_id (attempts db) = None ∧
  attempt_number_taken db quiz student number = false ∧
  QuizAttempt.id out = new_id ∧ QuizAttempt.quiz out = quiz ∧
  QuizAttempt.student out = student ∧
  QuizAttempt.attempt_number out = number ∧
  (∃ row, get_row Quiz.id quiz (quizzes db) = Some row
          ∧ QuizAttempt.quiz_settings out = settings_of row).
Proof.
  unfold QuizAttempt_create. intros Hrun.
  destruct (bool_decide (is_Some _)) eqn:Hfresh; [discriminate|].
  apply bool_decide_eq_false in Hfresh.
  destruct (get_row QuizAttempt.id new_id (attempts db)) as [old|] eqn:Hold;
    [by destruct Hfresh|].
  destruct (attempt_number_taken _ _ _ _) eqn:Htaken; [discriminate|].
  simpl in Hrun.
  apply start_attempt_inv in Hrun
    as (row & Hrow & -> & Hid & Hquiz & Hstudent & Hnumber & Hsettings & _).
  cbn [attempts set_attempts quizzes responses QuizAttempt.id
       QuizAttempt.quiz QuizAttempt.student QuizAttempt.attempt_number] in *.
  rewrite save_row_last by done.
  repeat split; try done. by exists row.
Qed.

(** [Question.save] and [question.delete()] write no attempt, and of a
    quiz they write [total_points] at most. *)
Lemma calculate_total_points_frame db quiz total db' :
  calculate_total_points db quiz = Ok (total, db') →
  attempts db' = attempts db ∧ questions db' = questions db ∧
  responses db' = responses db ∧ answers db' = answers db ∧
  quizzes db'
  = (fun q => if bool_decide (Quiz.id q = quiz)
              then Quiz.set_total_points total q else q) <$> quizzes db.
Proof.
  unfold calculate_total_points.
  destruct (write_integers _); [|discriminate].
  simpl. by intros [= <- <-].
Qed.

Lemma Question_save_row_frame db q q' db' :
  Question_save_row db q = Ok (q', db') →
  attempts db' = attempts db ∧ quizzes db' = quizzes db ∧
  responses db' = responses db ∧ answers db' = answers db ∧
  questions db' = save_row Question.id q' (questions db) ∧
  q' = Question.set_order (Question.order q') q ∧
  (Question.order q ≠ 0 → q' = q) ∧
  is_Some (get_row Quiz.id (Question.quiz q) (quizzes db)).
Proof.
  unfold Question_save_row. intros Hsave.
  destruct (_ : result Question.t) as [self|] eqn:Hself; [|discriminate].
  simpl in Hsave.
  destruct (write_integers _); [|discriminate]. simpl in Hsave.
  destruct (question_order_taken db self); [discriminate|].
  simpl in Hsave.
  destruct (bool_decide (is_Some _)) eqn:Hquiz; [|discriminate].
  apply bool_decide_eq_true in Hquiz.
  simpl in Hsave. injection Hsave as <- <-.
  assert (self = Question.set_order (Question.order self) q
          ∧ (Question.order q ≠ 0 → self = q)) as [Hshape Hkept].
  { destruct (Z.eqb_spec (Question.order q) 0) as [Hzero|Hnonzero].
    - destruct (lookup_or_raise _); [|discriminate].
      simpl in Hself. injection Hself as <-. by split.
    - injection Hself as <-. split; [by destruct q|done]. }
  repeat split; try done. rewrite Hshape in Hquiz. exact Hquiz.
Qed.




(** In the sample the grading is that of a response of the attempt, and
    the attempt is stored with the 5 points and has passed. *)
Example graded_attempt_is_scored_anew :
  let graded_data := fun (_ feedback _ : string) (_ : datetime) =>
                       Some feedback in
  let op := Grade Sample.tina 1
                  (Grading.mk (Some (Py.VInt 5)) (Some "Excellent")) in
  grades graded_data Sample.essay_db 2000 op 1 ∧
  (fun a => (QuizAttempt.score_points a, QuizAttempt.passed a,
             QuizAttempt.status a, QuizAttempt.updated_at a))
    <$> get_row QuizAttempt.id 1
          (attempts (run (fun s => s) (fun _ _ => false) (fun _ => None)
                         graded_data (fun s => Some s) (fun _ => true)
                         Sample.essay_db 2000 op))
  = Some (5, true, completed, 2000).
Proof.
  split; [|vm_compute; reflexivity].
  split; [|vm_compute; reflexivity].
  eexists. split; vm_compute; reflexivity.
Qed.

(** ** The snapshot stays *)

Lemma keeps_snapshot_refl a : keeps_snapshot a a.
Proof. by split. Qed.

(** Saving a row derived from a row [b] of the table, with [b]'s key and
    snapshot, keeps the snapshot of every row. *)
Lemma QuizAttempt_save_keeps_snapshot db now a b b' :
  NoDup (QuizAttempt.id <$> attempts db) →
  a ∈ attempts db → b ∈ attempts db →
  QuizAttempt.id b' = QuizAttempt.id b →
  QuizAttempt.quiz_settings b' = QuizAttempt.quiz_settings b →
  ∃ a', a' ∈ attempts (snd (QuizAttempt_save db now b'))
        ∧ keeps_snapshot a a'.
Proof.
  intros Hnodup Ha Hb Hid Hsettings. unfold QuizAttempt_save. simpl.
  destruct (decide (QuizAttempt.id a = QuizAttempt.id b)) as [Hsame|Hother].
  - assert (a = b) as -> by (by apply (NoDup_pk_eq QuizAttempt.id (attempts db))).
    eexists. split.
    + by apply (elem_of_save_row_same QuizAttempt.id b).
    + by split.
  - exists a. split; [|apply keeps_snapshot_refl].
    apply (elem_of_save_row_other QuizAttempt.id); [done|]. simpl. congruence.
Qed.

(** No operation rewrites the [quiz_settings] of a stored attempt: what
    [start_attempt] stored stays until the row goes. *)
Lemma quiz_settings_frame
    (strip_lower : string → string)
    (matching_equal : string → list (uuid * option Z) → bool)
    (ordering_ids : string → option (list uuid))
    (graded_data : string → string → string → datetime → option string)
    (text_valid : string → option string)
    (seconds_valid : Z → bool)
    db now op a :
  NoDup (QuizAttempt.id <$> attempts db) →
  a ∈ attempts db →
  ∃ a', a' ∈ attempts (run strip_lower matching_equal ordering_ids
                           graded_data text_valid seconds_valid db now op)
        ∧ keeps_snapshot a a'.
Proof.
  intros Hnodup Hin.
  assert (∃ a', a' ∈ attempts db ∧ keeps_snapshot a a') as Hsame
    by (exists a; split; [done|apply keeps_snapshot_refl]).
  destruct op as [new_id user quiz_id
                 |new_id user attempt_id question_id request_data
                 |user attempt_id
                 |user response_id request_data
                 |question
                 |question_id]; simpl.
  - (* start_quiz_attempt *)
    unfold start_quiz_attempt.
    destruct (negb _); [by simpl|].
    destruct (get_row Quiz.id _ _) as [quiz|]; [|by simpl].
    destruct (active_enrollment _ _ _) as [enrollment|]; [|by simpl].
    destruct (negb _); [by simpl|].
    destruct (_ >=? _); [by simpl|].
    destruct (in_progress_attempt_of _ _ _) as [b|] eqn:Hb.
    + apply in_progress_attempt_of_Some in Hb as [Hb _].
      destruct (is_expired now b); [|by simpl].
      destruct (QuizAttempt_save_keeps_snapshot db now a b
                  (QuizAttempt.set_status time_expired b) Hnodup Hin Hb
                  eq_refl eq_refl) as (a' & Ha' & Hkeeps).
      destruct (_ ≫= _) as [[out db']|] eqn:Hrun; [|by exists a'].
      exists a'. split; [|done]. by eapply create_then_start_keeps.
    + destruct (_ ≫= _) as [[out db']|] eqn:Hrun; [|by simpl].
      exists a. split; [|apply keeps_snapshot_refl].
      by eapply create_then_start_keeps.
  - (* submit_question_response *)
    destruct (submit_question_response_frame strip_lower matching_equal
                ordering_ids text_valid seconds_valid db now new_id user
                attempt_id question_id request_data)
      as [_ [-> | (b & Hb & _ & _ & ->)]]; [done|].
    by apply (QuizAttempt_save_keeps_snapshot db now a b
                (QuizAttempt.set_status time_expired b)).
  - (* complete_quiz_attempt *)
    destruct (complete_quiz_attempt_frame db now user attempt_id)
      as (_ & _ & [-> | (b & scored & Hb & _ & _ & Hscore & ->)]);
      [done|].
    apply calculate_score_shape in Hscore as (p & f & t & ->).
    by apply (QuizAttempt_save_keeps_snapshot db now a b
                (QuizAttempt.set_score p f t _)).
  - (* grade_essay_response *)
    destruct (grade_essay_response_frame graded_data db now user
                response_id request_data) as (_ & Hrefused & Hgraded).
    cbv zeta in *.
    destruct (decide (status_code
                        (fst (grade_essay_response graded_data db now user
                                response_id request_data)) = HTTP_200_OK))
      as [Hok|Hno]; [|by rewrite Hrefused].
    destruct (Hgraded Hok)
      as (r & graded & db1 & b & scored & _ & _ & _ & Hb & Hscore & _ & ->).
    apply calculate_score_shape in Hscore as (p & f & t & ->).
    apply get_row_Some in Hb as [Hb _].
    by apply (QuizAttempt_save_keeps_snapshot db now a b
                (QuizAttempt.set_score p f t b)).
  - (* Question.save *)
    destruct (Question_save_row db question) as [[out db1]|] eqn:Hsave;
      [|done].
    apply Question_save_row_frame in Hsave as (Hattempts & _).
    destruct (calculate_total_points db1 _) as [[total db2]|] eqn:Htotal;
      [|by rewrite Hattempts].
    apply calculate_total_points_frame in Htotal as (-> & _).
    by rewrite Hattempts.
  - (* question.delete() *)
    done.
Qed.

(** ** The handler of completion *)

(** [complete_quiz_attempt] hands the learner's attempt, when it is in
    progress or time-expired, to [complete_attempt]; any other attempt is
    not found. *)
Lemma complete_quiz_attempt_found db now user attempt_id a :
  User.role user = learner →
  a ∈ attempts db →
  NoDup (QuizAttempt.id <$> attempts db) →
  QuizAttempt.id a = attempt_id →
  QuizAttempt.student a = User.id user →
  complete_quiz_attempt db now user attempt_id
  = if bool_decide (QuizAttempt.status a = in_progress)
       || bool_decide (QuizAttempt.status a = time_expired)
    then match complete_attempt db now a with
         | Ok (a', db') => (Response (AttemptData a') HTTP_200_OK, db')
         | Raise e => (Http500 e, db)
         end
    else (Http404, db).
Proof.
  intros Hrole Hin Hnodup Hid Hstudent. unfold complete_quiz_attempt.
  rewrite Hrole. simpl.
  destruct (List.find _ (attempts db)) as [b|] eqn:Hb.
  - apply find_some in Hb as [Hb Hmatch]. apply list_elem_of_In in Hb.
    apply andb_prop in Hmatch as [Hmatch Hstatus].
    apply andb_prop in Hmatch as [Hkey%bool_decide_eq_true _].
    assert (b = a) as ->
      by (apply (NoDup_pk_eq QuizAttempt.id (attempts db)); congruence).
    by rewrite Hstatus.
  - apply list_elem_of_In in Hin.
    pose proof (find_none _ _ Hb _ Hin) as Hno. simpl in Hno.
    rewrite !bool_decide_eq_true_2 in Hno by done. simpl in Hno.
    by rewrite Hno.
Qed.

(** ** The scenario of the specification *)

(** A multiple-choice question worth 2 points answered right and a
    true/false question worth 1 point answered wrong, with a passing score
    of 60: 2 points, 66.66666666666666 per cent, passed. *)
Example two_of_three_points :
  let db :=
    Sample.db_of (Sample.quiz 60 1 None)
      [Question.mk 1 1 multiple_choice 2 1; Question.mk 2 1 true_false 1 2]
      [Sample.attempt in_progress None]
      [QuestionResponse.mk 1 1 1 ∅ "" "{}" true 2 0 1500;
       QuestionResponse.mk 2 1 2 ∅ "" "{}" false 0 0 1500] in
  match complete_attempt db 9000 (Sample.attempt in_progress None) with
  | Ok (a', _) =>
      QuizAttempt.status a' = completed ∧
      QuizAttempt.score_points a' = 2 ∧
      QuizAttempt.score_percentage a'
      = S754_finite false 4691249611844266 (-46) ∧
      QuizAttempt.passed a' = true
  | Raise _ => False
  end.
Proof. vm_compute. repeat split. Qed.

(** The percentage is the float Python computes: 57 points of 100 make
    56.99999999999999, below a passing score of 57. *)
Example rounded_percentage_below_passing_score :
  percentage_of 57 100 = S754_finite false 8022036836253695 (-47) ∧
  Py.float_ge_int (percentage_of 57 100) 57 = false ∧
  Py.float_ge_int (percentage_of 70 100) 70 = true.
Proof. vm_compute. repeat split. Qed.

(** * Further properties of the quiz code *)

(** ** Availability and expiry *)

(** X1. A quiz is available exactly when it is active and the instant lies
    in its window, both ends of which belong to the window; a missing end
    does not bound it. *)
Theorem X1_is_available_window now quiz :
  is_available now quiz = true
  ↔ Quiz.is_active quiz = true
    ∧ (∀ from, Quiz.available_from quiz = Some from → from ≤ now)
    ∧ (∀ until, Quiz.available_until quiz = Some until → now ≤ until).
Proof.
  unfold is_available.
  destruct (Quiz.available_from quiz) as [from|],
           (Quiz.available_until quiz) as [until|].
  - destruct (now <? from) eqn:Hfrom, (now >? until) eqn:Huntil;
      split; try discriminate.
    + intros (_ & Hf & _). specialize (Hf _ eq_refl). lia.
    + intros (_ & Hf & _). specialize (Hf _ eq_refl). lia.
    + intros (_ & _ & Hu). specialize (Hu _ eq_refl). lia.
    + intros ->. repeat split; intros ? [= <-]; lia.
    + by intros (-> & _).
  - destruct (now <? from) eqn:Hfrom; split; try discriminate.
    + intros (_ & Hf & _). specialize (Hf _ eq_refl). lia.
    + intros ->. repeat split; [intros ? [= <-]; lia|done].
    + by intros (-> & _).
  - destruct (now >? until) eqn:Huntil; split; try discriminate.
    + intros (_ & _ & Hu). specialize (Hu _ eq_refl). lia.
    + intros ->. repeat split; [done|intros ? [= <-]; lia].
    + by intros (-> & _).
  - split; [by intros ->|by intros (-> & _)].
Qed.

(** X2. An attempt started by [start_attempt] expires exactly when the
    clock has passed its start by the quiz's time limit; an attempt of a
    quiz without a time limit (none, or 0 minutes) never expires, whatever
    the hour. *)
Theorem X2_started_attempt_expiry db now a a' db' quiz later :
  start_attempt db now a = Ok (a', db') →
  get_row Quiz.id (QuizAttempt.quiz a) (quizzes db) = Some quiz →
  QuizAttempt.expires_at a = None →
  is_expired later a'
  = match Quiz.time_limit_minutes quiz with
    | Some minutes =>
        if minutes =? 0 then false else later >? now + minutes * 60000000
    | None => false
    end.
Proof.
  unfold start_attempt. intros Hstart Hquiz Hnone.
  destruct (negb _); [discriminate|]. simpl in Hstart.
  rewrite Hquiz in Hstart. simpl in Hstart.
  unfold is_expired.
  destruct (Quiz.time_limit_minutes quiz) as [minutes|];
    [destruct (minutes =? 0)|]; simpl in Hstart.
  - injection Hstart as <- _. simpl. by rewrite Hnone.
  - unfold timedelta_minutes, datetime_add in Hstart.
    destruct (_ >? 999999999); [discriminate|]. simpl in Hstart.
    destruct (_ && _); [|discriminate].
    by injection Hstart as <- _.
  - injection Hstart as <- _. simpl. by rewrite Hnone.
Qed.

Lemma X2_witness :
  is_expired 1800003001
    (started_attempt 3000 5 Sample.alice (Sample.quiz 70 3 (Some 30))
                     Sample.enrolled 1)
  = match Quiz.time_limit_minutes (Sample.quiz 70 3 (Some 30)) with
    | Some minutes =>
        if minutes =? 0 then false
        else 1800003001 >? 3000 + minutes * 60000000
    | None => false
    end.
Proof.
  apply (X2_started_attempt_expiry
           (set_attempts
              [QuizAttempt.mk 5 1 20 (Some 1%positive) 1 not_started 0
                 (S754_zero false) false None 0 None None None ∅ 3000 3000]
              (Sample.fresh_db 3 (Some 30)))
           3000
           (QuizAttempt.mk 5 1 20 (Some 1%positive) 1 not_started 0
              (S754_zero false) false None 0 None None None ∅ 3000 3000)
           _
           (set_attempts
              [started_attempt 3000 5 Sample.alice (Sample.quiz 70 3 (Some 30))
                               Sample.enrolled 1]
              (Sample.fresh_db 3 (Some 30)))).
  - vm_compute. reflexivity.
  - reflexivity.
  - reflexivity.
Defined.

(** ** Scoring once more *)

Lemma earned_of_bounds db rs :
  Forall (fun r => 0 ≤ response_points db r) rs →
  0 ≤ earned_of db rs ≤ total_of db rs.
Proof.
  unfold earned_of, total_of.
  induction 1 as [|r rs Hr _ IH]; simpl; [lia|].
  destruct (QuestionResponse.is_correct r); lia.
Qed.

(** X3. In a database whose foreign keys resolve, [calculate_score] raises
    nothing and touches the score columns only: [score_points] becomes the
    sum of the points of the questions answered correctly, and the
    percentage is that sum over the points of all questions answered. With
    no negative points the score lies between 0 and that total. *)
Theorem X3_calculate_score_total db a :
  attempt_refs_ok db a →
  let rs := attempt_responses db (QuizAttempt.id a) in
  ∃ percentage pass,
    calculate_score db a
    = Ok (QuizAttempt.set_score (earned_of db rs) percentage pass a) ∧
    percentage = percentage_of (earned_of db rs) (total_of db rs) ∧
    (Forall (fun r => 0 ≤ response_points db r) rs →
     0 ≤ earned_of db rs ≤ total_of db rs).
Proof.
  intros [[quiz Hquiz] Hrefs] rs.
  do 2 eexists. split; [by apply calculate_score_ok|].
  split; [done|apply earned_of_bounds].
Qed.

Lemma X3_witness :
  let rs := attempt_responses Sample.close_db 1 in
  ∃ percentage pass,
    calculate_score Sample.close_db (Sample.attempt in_progress None)
    = Ok (QuizAttempt.set_score (earned_of Sample.close_db rs) percentage pass
            (Sample.attempt in_progress None)) ∧
    percentage
    = percentage_of (earned_of Sample.close_db rs)
                    (total_of Sample.close_db rs) ∧
    (Forall (fun r => 0 ≤ response_points Sample.close_db r) rs →
     0 ≤ earned_of Sample.close_db rs ≤ total_of Sample.close_db rs).
Proof.
  apply (X3_calculate_score_total Sample.close_db
           (Sample.attempt in_progress None)).
  apply (bool_decide_unpack _). vm_compute. exact I.
Defined.

(** X4. The score is a function of the stored responses: calculating it
    again on an attempt that carries a calculated score changes nothing. *)
Theorem X4_calculate_score_again db a a' :
  calculate_score db a = Ok a' → calculate_score db a' = Ok a'.
Proof.
  intros Hcalc.
  destruct (calculate_score_shape _ _ _ Hcalc) as (p & f & t & ->).
  revert Hcalc. unfold calculate_score. simpl.
  destruct (score_loop _ _ _ _) as [[total earned]|]; [|discriminate].
  simpl. destruct (_ : result Py.float) as [percentage|]; [|discriminate].
  simpl. destruct (lookup_or_raise _) as [quiz|]; [|discriminate].
  simpl. intros [= <- <- <-]. reflexivity.
Qed.

Lemma X4_witness :
  calculate_score Sample.close_db
    (QuizAttempt.set_score 69999 float_69_999 false
       (Sample.attempt in_progress None))
  = Ok (QuizAttempt.set_score 69999 float_69_999 false
          (Sample.attempt in_progress None)).
Proof.
  apply (X4_calculate_score_again Sample.close_db
           (Sample.attempt in_progress None)).
  vm_compute. reflexivity.
Defined.

(** ** Completing twice *)

(** X5. An attempt is completed once: after [complete_quiz_attempt] has
    answered 200 for an attempt, the same request is answered 404 and
    writes nothing, at any later time. *)
Theorem X5_complete_only_once db now later user attempt_id attempt db' :
  complete_quiz_attempt db now user attempt_id
  = (Response (AttemptData attempt) HTTP_200_OK, db') →
  complete_quiz_attempt db' later user attempt_id = (Http404, db').
Proof.
  unfold complete_quiz_attempt at 1.
  destruct (negb (bool_decide (User.role user = learner))) eqn:Hrole;
    [discriminate|].
  destruct (List.find _ (attempts db)) as [b|] eqn:Hb; [|discriminate].
  apply find_some in Hb as [Hb Hmatch]. apply list_elem_of_In in Hb.
  apply andb_prop in Hmatch as [Hmatch _].
  apply andb_prop in Hmatch as [Hid%bool_decide_eq_true _].
  destruct (complete_attempt db now b) as [[a' db1]|] eqn:Hrun;
    [|discriminate].
  intros [= -> ->].
  unfold complete_attempt in Hrun.
  destruct (negb (bool_decide (QuizAttempt.status b = in_progress)
                  || bool_decide (QuizAttempt.status b = time_expired)));
    [discriminate|].
  destruct (calculate_score db _) as [scored|] eqn:Hscore; [|discriminate].
  apply calculate_score_shape in Hscore as (p & f & t & ->).
  simpl in Hrun. destruct (write_integers _); [|discriminate].
  simpl in Hrun. injection Hrun as <- <-.
  unfold complete_quiz_attempt. rewrite Hrole.
  match goal with
  | |- context [List.find ?P (attempts ?d)] =>
      destruct (List.find P (attempts d)) as [c|] eqn:Hc; [|done]
  end.
  exfalso.
  apply find_some in Hc as [Hc Hmatch]. apply list_elem_of_In in Hc.
  apply andb_prop in Hmatch as [Hmatch Hstatus].
  apply andb_prop in Hmatch as [Hcid%bool_decide_eq_true _].
  simpl in Hc. rewrite save_row_present in Hc.
  2:{ simpl. replace (QuizAttempt.id _) with (QuizAttempt.id b)
        by (by destruct (QuizAttempt.started_at b)).
      by apply (get_row_elem QuizAttempt.id). }
  apply list_elem_of_fmap in Hc as (r & -> & Hr).
  destruct (bool_decide (QuizAttempt.id r = _)) eqn:Hrid.
  - by destruct (QuizAttempt.started_at b).
  - apply bool_decide_eq_false in Hrid. apply Hrid. simpl.
    rewrite Hcid, <- Hid. by destruct (QuizAttempt.started_at b).
Qed.

Lemma X5_witness :
  ∃ attempt db',
    complete_quiz_attempt Sample.close_db 7501000 Sample.alice 1
    = (Response (AttemptData attempt) HTTP_200_OK, db') ∧
    complete_quiz_attempt db' 9000000 Sample.alice 1 = (Http404, db').
Proof.
  do 2 eexists. split; [vm_compute; reflexivity|].
  eapply (X5_complete_only_once Sample.close_db 7501000 9000000
            Sample.alice 1).
  vm_compute. reflexivity.
Defined.

(** ** Evaluating again *)

Lemma save_row_again {A} (pk : A → uuid) x rows :
  save_row pk x (save_row pk x rows) = save_row pk x rows.
Proof.
  destruct (get_row pk (pk x) rows) as [r|] eqn:Hget.
  - assert (is_Some (get_row pk (pk x) rows)) as Hsome by (by eexists).
    rewrite (save_row_present pk x rows Hsome).
    rewrite save_row_present.
    + rewrite <- list_fmap_compose. apply list_fmap_ext.
      intros _ y _. simpl.
      destruct (bool_decide (pk y = pk x)) eqn:Hy; [|by rewrite Hy].
      by rewrite bool_decide_eq_true_2.
    + rewrite get_row_fmap_keep, Hget; [by eexists|].
      intros y. destruct (bool_decide (pk y = pk x)) eqn:Hy; [|done].
      by apply bool_decide_eq_true in Hy.
  - assert (save_row pk x rows = rows ++ [x]) as ->
      by (unfold save_row; by rewrite Hget).
    by apply save_row_last.
Qed.

Section Evaluated.

Variable strip_lower : string → string.
Variable matching_equal : string → list (uuid * option Z) → bool.
Variable ordering_ids : string → option (list uuid).

(** X6. The evaluator gives all or nothing and keeps the payload: a
    response it has evaluated carries the question's points when it is
    marked correct and 0 otherwise, and is stored under its key; it
    differs from the response it was given in [is_correct], in
    [points_earned] and in [answered_at], which is the time of the save,
    and in nothing else. An essay is never marked correct, so evaluating
    a graded essay again takes its points back. *)
Theorem X6_evaluate_all_or_nothing db now r r' db' :
  evaluate_response strip_lower matching_equal ordering_ids db now r
  = Ok (r', db') →
  ∃ question,
    get_row Question.id (QuestionResponse.question r) (questions db)
    = Some question ∧
    QuestionResponse.points_earned r'
    = (if QuestionResponse.is_correct r' then Question.points question
       else 0) ∧
    (Question.question_type question = essay →
     QuestionResponse.is_correct r' = false ∧
     QuestionResponse.points_earned r' = 0) ∧
    r' = QuestionResponse.set_answered_at now
           (QuestionResponse.set_evaluation (QuestionResponse.is_correct r')
              (QuestionResponse.points_earned r') r) ∧
    db' = set_responses (save_row QuestionResponse.id r' (responses db)) db.
Proof.
  unfold evaluate_response. intros Heval.
  destruct (get_row Question.id _ _) as [question|]; [|discriminate].
  exists question. split; [done|]. simpl in Heval.
  destruct (Question.question_type question) eqn:Htype; simpl in Heval;
    try (injection Heval as <- <-; simpl;
         repeat split; try discriminate; by destruct r).
  destruct (ordering_ids _); [|discriminate]. simpl in Heval.
  injection Heval as <- <-; simpl.
  repeat split; try discriminate; by destruct r.
Qed.

(** X7. Evaluation is repeatable: evaluating the stored result of an
    evaluation, in the database that evaluation left, marks it as before,
    with the same [is_correct] and [points_earned], and stores it again
    under the time of the second save; at the same instant it yields the
    same response and the same database. *)
Theorem X7_evaluate_again db now later r r' db' :
  evaluate_response strip_lower matching_equal ordering_ids db now r
  = Ok (r', db') →
  evaluate_response strip_lower matching_equal ordering_ids db' later r'
  = Ok (QuestionResponse.set_answered_at later r',
        set_responses
          (save_row QuestionResponse.id
             (QuestionResponse.set_answered_at later r') (responses db'))
          db')
  ∧ (later = now →
     evaluate_response strip_lower matching_equal ordering_ids db' later r'
     = Ok (r', db')).
Proof.
  unfold evaluate_response. intros Heval.
  destruct (get_row Question.id (QuestionResponse.question r) (questions db))
    as [question|] eqn:Hquestion; [|discriminate].
  simpl in Heval.
  destruct (Question.question_type question) eqn:Htype; simpl in Heval;
    try (injection Heval as <- <-; simpl; rewrite Hquestion; simpl;
         rewrite Htype; simpl; unfold QuestionResponse_save; simpl;
         split; [done|intros ->; by rewrite save_row_again]).
  destruct (ordering_ids (QuestionResponse.response_data r)) as [ids|]
    eqn:Hids; [|discriminate].
  simpl in Heval. injection Heval as <- <-. simpl. rewrite Hquestion. simpl.
  rewrite Htype, Hids. simpl. unfold QuestionResponse_save. simpl.
  split; [done|intros ->; by rewrite save_row_again].
Qed.

End Evaluated.

Lemma X6_witness :
  ∃ question,
    get_row Question.id 1 (questions Sample.essay_db) = Some question ∧
    QuestionResponse.points_earned
      (QuestionResponse.mk 1 1 1 ∅ "An essay." "{}" false 0 60 2000)
    = (if false then Question.points question else 0) ∧
    (Question.question_type question = essay → false = false ∧ 0 = 0) ∧
    QuestionResponse.mk 1 1 1 ∅ "An essay." "{}" false 0 60 2000
    = QuestionResponse.set_answered_at 2000
        (QuestionResponse.set_evaluation false 0
           (QuestionResponse.mk 1 1 1 ∅ "An essay." "{}" true 5 60 1500)) ∧
    set_responses
      [QuestionResponse.mk 1 1 1 ∅ "An essay." "{}" false 0 60 2000]
      Sample.essay_db
    = set_responses
        (save_row QuestionResponse.id
           (QuestionResponse.mk 1 1 1 ∅ "An essay." "{}" false 0 60 2000)
           (responses
              (set_responses
                 [QuestionResponse.mk 1 1 1 ∅ "An essay." "{}" true 5 60 1500]
                 Sample.essay_db)))
        (set_responses
           [QuestionResponse.mk 1 1 1 ∅ "An essay." "{}" true 5 60 1500]
           Sample.essay_db).
Proof.
  apply (X6_evaluate_all_or_nothing (fun s => s) (fun _ _ => false)
           (fun _ => None)
           (set_responses
              [QuestionResponse.mk 1 1 1 ∅ "An essay." "{}" true 5 60 1500]
              Sample.essay_db)
           2000
           (QuestionResponse.mk 1 1 1 ∅ "An essay." "{}" true 5 60 1500)
           (QuestionResponse.mk 1 1 1 ∅ "An essay." "{}" false 0 60 2000)
           (set_responses
              [QuestionResponse.mk 1 1 1 ∅ "An essay." "{}" false 0 60 2000]
              Sample.essay_db)).
  vm_compute. reflexivity.
Defined.

Lemma X7_witness :
  let selected : gset uuid := {[1%positive; 3%positive]} in
  let r' := QuestionResponse.set_answered_at 2000
              (QuestionResponse.set_evaluation true 2
                 (Sample.choice_response selected)) in
  let db' := snd (QuestionResponse_save (Sample.choice_db selected) 2000 r') in
  evaluate_response (fun s => s) (fun _ _ => false) (fun _ => None) db' 2600
                    r'
  = Ok (QuestionResponse.set_answered_at 2600 r',
        set_responses
          (save_row QuestionResponse.id
             (QuestionResponse.set_answered_at 2600 r') (responses db'))
          db')
  ∧ (2600 = 2000 →
     evaluate_response (fun s => s) (fun _ _ => false) (fun _ => None) db'
                       2600 r'
     = Ok (r', db')).
Proof.
  apply (X7_evaluate_again (fun s => s) (fun _ _ => false) (fun _ => None)
           (Sample.choice_db {[1%positive; 3%positive]}) 2000 2600
           (Sample.choice_response {[1%positive; 3%positive]})).
  vm_compute. reflexivity.
Defined.

(** ** Grading an essay *)

Section Graded.

Variable graded_data : string → string → string → datetime → option string.

(** X8. A grade below 0 or above the question's points is refused with
    400 and nothing is written; a request without [points_earned] grades
    with 0. *)
Theorem X8_grade_out_of_range db now user response_id request r question :
  User.role user = teacher →
  get_row QuestionResponse.id response_id (responses db) = Some r →
  essay_question_of db user r = Some question →
  Py.value_lt_int (default (Py.VInt 0) (Grading.points_earned request)) 0
  = Ok true
  ∨ Py.value_gt_int (default (Py.VInt 0) (Grading.points_earned request))
                    (Question.points question)
    = Ok true →
  grade_essay_response graded_data db now user response_id request
  = (Response (ErrorData ("Points must be between 0 and "
                          +:+ pretty (Question.points question)))
              HTTP_400_BAD_REQUEST, db).
Proof.
  intros Hrole Hr Hquestion Hrange. unfold grade_essay_response.
  rewrite Hrole, Hr. simpl. rewrite Hquestion. simpl.
  destruct Hrange as [-> | Habove]; [done|].
  rewrite Habove.
  destruct (default (Py.VInt 0) (Grading.points_earned request))
    as [b|n|x|]; simpl; [| | |discriminate].
  - by destruct (Z.b2z b <? 0).
  - by destruct (n <? 0).
  - by destruct (bool_decide _).
Qed.

(** X9. A grade within the bounds is stored on the response, whatever
    becomes of the attempt's score afterwards: [points_earned] is the
    grade as an integer, [is_correct] says whether the grade is the
    question's full points, [response_data] carries the grading,
    [answered_at] is the time of the save, and the rest of the response is
    as it was. When the response's [response_data] is no JSON object, so
    that nothing can be stored under its ["grading"] key, the request is
    answered 500 with a [TypeError] and nothing is written; so it is when
    [points_earned] is given and is no number. *)
Theorem X9_grade_is_stored db now user response_id request r question :
  User.role user = teacher →
  get_row QuestionResponse.id response_id (responses db) = Some r →
  essay_question_of db user r = Some question →
  let v := default (Py.VInt 0) (Grading.points_earned request) in
  let data :=
    graded_data (QuestionResponse.response_data r)
                (default "" (Grading.feedback request)) (User.name user)
                now in
  let out := grade_essay_response graded_data db now user response_id
                                  request in
  (Py.value_lt_int v 0 = Ok false →
   Py.value_gt_int v (Question.points question) = Ok false →
   (∀ response_data points,
      data = Some response_data → Py.int_of_value v = Ok points →
      get_row QuestionResponse.id response_id (responses (snd out))
      = Some (QuestionResponse.set_answered_at now
                (QuestionResponse.set_response_data response_data
                   (QuestionResponse.set_evaluation
                      (Py.value_eq_int v (Question.points question))
                      points r))))
   ∧ (data = None → out = (Http500 TypeError, db)))
  ∧ (v = Py.VOther → out = (Http500 TypeError, db)).
Proof.
  intros Hrole Hr Hquestion v data out. subst v data out.
  unfold grade_essay_response.
  rewrite Hrole, Hr. simpl. rewrite Hquestion. simpl.
  split; [|by intros ->].
  intros -> ->. simpl. split; [|by intros ->].
  intros response_data points -> ->.
  apply get_row_Some in Hr as [_ Hid].
  match goal with
  | |- context [save_row QuestionResponse.id ?x (responses db)] =>
      set (graded := x)
  end.
  set (db1 := set_responses
                (save_row QuestionResponse.id graded (responses db)) db).
  assert (get_row QuestionResponse.id response_id (responses db1)
          = Some graded) as Hsaved.
  { subst db1. simpl.
    replace response_id with (QuestionResponse.id graded)
      by (by subst graded).
    apply get_row_save_row. }
  assert (graded
          = QuestionResponse.set_answered_at now
              (QuestionResponse.set_response_data response_data
                 (QuestionResponse.set_evaluation
                    (Py.value_eq_int
                       (default (Py.VInt 0) (Grading.points_earned request))
                       (Question.points question))
                    points r))) as <-
    by (subst graded; by destruct r).
  destruct (_ ≫= _) as [[a db']|] eqn:Hscore; simpl; [|done].
  destruct (lookup_or_raise _) as [a0|]; [|discriminate].
  simpl in Hscore.
  destruct (calculate_score _ a0) as [scored|]; [|discriminate].
  simpl in Hscore. destruct (write_integers _); [|discriminate].
  simpl in Hscore. by injection Hscore as _ <-.
Qed.

(** X10. Grading is for the instructor of the quiz's course and for essays:
    a teacher who asks to grade a response of somebody else's course, or
    a response to a question that is no essay, is answered 404 and nothing
    is written. *)
Theorem X10_grade_not_found db now user response_id request r question
    quiz course :
  User.role user = teacher →
  get_row QuestionResponse.id response_id (responses db) = Some r →
  get_row Question.id (QuestionResponse.question r) (questions db)
  = Some question →
  get_row Quiz.id (Question.quiz question) (quizzes db) = Some quiz →
  get_row Course.id (Quiz.course quiz) (courses db) = Some course →
  Course.instructor course ≠ User.id user
  ∨ Question.question_type question ≠ essay →
  grade_essay_response graded_data db now user response_id request
  = (Http404, db).
Proof.
  intros Hrole Hr Hquestion Hquiz Hcourse Hcase.
  unfold grade_essay_response, essay_question_of.
  rewrite Hrole, Hr. simpl. rewrite Hquestion. simpl.
  rewrite Hquiz. simpl. rewrite Hcourse. simpl.
  destruct Hcase as [Hother|Htype].
  - by rewrite bool_decide_eq_false_2.
  - rewrite (bool_decide_eq_false_2 _ Htype). by rewrite andb_false_r.
Qed.

End Graded.

Lemma X8_witness :
  grade_essay_response (fun _ feedback _ _ => Some feedback) Sample.essay_db
    2000 Sample.tina 1 (Grading.mk (Some (Py.VInt 6)) None)
  = (Response (ErrorData ("Points must be between 0 and "
                          +:+ pretty (Question.points
                                        (Question.mk 1 1 essay 5 1))))
              HTTP_400_BAD_REQUEST, Sample.essay_db).
Proof.
  apply (X8_grade_out_of_range (fun _ feedback _ _ => Some feedback)
           Sample.essay_db 2000 Sample.tina 1
           (Grading.mk (Some (Py.VInt 6)) None)
           (QuestionResponse.mk 1 1 1 ∅ "An essay." "{}" false 0 60 1500)).
  - reflexivity.
  - reflexivity.
  - reflexivity.
  - right. reflexivity.
Defined.

Lemma X9_witness :
  let graded_data := fun (_ feedback _ : string) (_ : datetime) =>
                       Some feedback in
  let request := Grading.mk (Some (Py.VInt 3)) (Some "A good start") in
  let out := grade_essay_response graded_data Sample.essay_db 2000
               Sample.tina 1 request in
  get_row QuestionResponse.id 1 (responses (snd out))
  = Some (QuestionResponse.mk 1 1 1 ∅ "An essay." "A good start" false 3 60
                              2000).
Proof.
  intros graded_data request out.
  destruct (X9_grade_is_stored (fun _ feedback _ _ => Some feedback)
              Sample.essay_db 2000 Sample.tina 1
              (Grading.mk (Some (Py.VInt 3)) (Some "A good start"))
              (QuestionResponse.mk 1 1 1 ∅ "An essay." "{}" false 0 60 1500)
              (Question.mk 1 1 essay 5 1) eq_refl eq_refl eq_refl)
    as [Hstored _].
  destruct (Hstored eq_refl eq_refl) as [Hsome _].
  exact (Hsome "A good start" 3 eq_refl eq_refl).
Defined.

Lemma X10_witness :
  grade_essay_response (fun _ feedback _ _ => Some feedback)
    Sample.unflagged_db 2000 Sample.tina 1
    (Grading.mk (Some (Py.VInt 1)) None)
  = (Http404, Sample.unflagged_db).
Proof.
  apply (X10_grade_not_found (fun _ feedback _ _ => Some feedback)
           Sample.unflagged_db 2000 Sample.tina 1
           (Grading.mk (Some (Py.VInt 1)) None)
           Sample.unflagged_response (Question.mk 1 1 true_false 2 1)
           (Sample.quiz 70 1 None) Sample.course).
  - reflexivity.
  - reflexivity.
  - reflexivity.
  - reflexivity.
  - reflexivity.
  - right. discriminate.
Defined.

(** ** Submitting a response *)

Section Submitted.

Variable strip_lower : string → string.
Variable matching_equal : string → list (uuid * option Z) → bool.
Variable ordering_ids : string → option (list uuid).
Variable text_valid : string → option string.
Variable seconds_valid : Z → bool.

(** X11. A submission that arrives after the attempt's time is up is
    refused with 400: no response is written, and the attempt is stored
    as [time_expired]. *)
Theorem X11_submit_after_time db now new_id user attempt_id question_id
    request a :
  User.role user = learner →
  NoDup (QuizAttempt.id <$> attempts db) →
  a ∈ attempts db →
  QuizAttempt.id a = attempt_id →
  QuizAttempt.student a = User.id user →
  QuizAttempt.status a = in_progress →
  is_expired now a = true →
  let expired :=
    QuizAttempt.set_updated_at now (QuizAttempt.set_status time_expired a) in
  submit_question_response strip_lower matching_equal ordering_ids
    text_valid seconds_valid db now new_id user attempt_id question_id
    request
  = (Response (ErrorData "Quiz attempt has expired") HTTP_400_BAD_REQUEST,
     set_attempts (save_row QuizAttempt.id expired (attempts db)) db) ∧
  get_row QuizAttempt.id attempt_id
    (save_row QuizAttempt.id expired (attempts db)) = Some expired.
Proof.
  intros Hrole Hnodup Hin Hid Hstudent Hstatus Hdue expired.
  split.
  - unfold submit_question_response. rewrite Hrole. simpl.
    rewrite (find_by_pk QuizAttempt.id _ (attempts db) a Hnodup Hin).
    + by rewrite Hdue.
    + by rewrite Hid, Hstudent, Hstatus, !bool_decide_eq_true_2.
    + simpl. intros r Hr. apply andb_prop in Hr as [Hr _].
      apply andb_prop in Hr as [Hr%bool_decide_eq_true _]. congruence.
  - rewrite <- Hid. apply (get_row_save_row QuizAttempt.id expired).
Qed.

(** X12. When a submission is answered 200, the attempt of the request
    is the user's and in progress, the question of the request is one of
    the attempt's quiz, and no attempt is touched. The response belongs to
    that attempt and that question unless the body itself names others:
    the keys [attempt_id] and [question_id] of the body of a first
    submission go into the new row, and the key [question] of a later one
    moves the response. The attempt and the question of the response are
    stored rows in either case. *)
Theorem X12_submit_stays_in_quiz db now new_id user attempt_id question_id
    request r db' :
  submit_question_response strip_lower matching_equal ordering_ids
    text_valid seconds_valid db now new_id user attempt_id question_id
    request
  = (Response (ResponseData r) HTTP_200_OK, db') →
  (QuestionResponse.attempt r = attempt_id
   ∨ Submission.attempt_id request = Some (QuestionResponse.attempt r)) ∧
  (QuestionResponse.question r = question_id
   ∨ Submission.question_id request = Some (QuestionResponse.question r)
   ∨ Submission.question request = Some (QuestionResponse.question r)) ∧
  is_Some (get_row Question.id (QuestionResponse.question r)
                   (questions db)) ∧
  attempts db' = attempts db ∧
  ∃ a question,
    a ∈ attempts db ∧ QuizAttempt.id a = attempt_id ∧
    QuizAttempt.student a = User.id user ∧
    QuizAttempt.status a = in_progress ∧
    question ∈ questions db ∧ Question.id question = question_id ∧
    Question.quiz question = QuizAttempt.quiz a.
Proof.
  unfold submit_question_response. intros Hsubmit.
  destruct (negb _); [discriminate|].
  destruct (List.find _ (attempts db)) as [a|] eqn:Ha; [|discriminate].
  apply find_some in Ha as [Ha Hmatch]. apply list_elem_of_In in Ha.
  apply andb_prop in Hmatch as [Hmatch Hstatus%bool_decide_eq_true].
  apply andb_prop in Hmatch as [Hid%bool_decide_eq_true
                                Hstudent%bool_decide_eq_true].
  destruct (is_expired now a); [discriminate|].
  destruct (List.find _ (questions db)) as [question|] eqn:Hq;
    [|discriminate].
  apply find_some in Hq as [Hq Hmatch]. apply list_elem_of_In in Hq.
  apply andb_prop in Hmatch as [Hqid%bool_decide_eq_true
                                Hquiz%bool_decide_eq_true].
  assert (∃ a question,
            a ∈ attempts db ∧ QuizAttempt.id a = attempt_id ∧
            QuizAttempt.student a = User.id user ∧
            QuizAttempt.status a = in_progress ∧
            question ∈ questions db ∧ Question.id question = question_id ∧
            Question.quiz question = QuizAttempt.quiz a) as Hfound
    by (by exists a, question).
  assert (is_Some (get_row Question.id question_id (questions db)))
    as Hstored
    by (rewrite <- Hqid; by apply (get_row_elem Question.id)).
  destruct (List.find _ (responses db)) as [old|] eqn:Hold.
  - apply find_some in Hold as [_ Hmatch].
    apply andb_prop in Hmatch as [Hattempt%bool_decide_eq_true
                                  Hquestion%bool_decide_eq_true].
    destruct (negb (is_valid _ _ _ _)) eqn:Hvalid; [discriminate|].
    apply negb_false_iff in Hvalid. unfold is_valid in Hvalid.
    apply andb_prop in Hvalid as [Hvalid _].
    apply andb_prop in Hvalid as [Hvalid _].
    apply andb_prop in Hvalid as [Hvalid _].
    pose proof (QuestionResponseSerializer_update_frame strip_lower
                  matching_equal ordering_ids text_valid db now old request)
      as [_ Hattempts].
    cbv zeta in Hattempts.
    destruct (QuestionResponseSerializer_update _ _ _ _ _ _ _ _)
      as [[out|e] db1] eqn:Hupdate; [|discriminate].
    injection Hsubmit as <- <-. simpl in Hattempts.
    unfold QuestionResponseSerializer_update in Hupdate.
    destruct (bool_decide _); [discriminate|].
    destruct (write_integers _); [|discriminate].
    destruct (response_taken _ _); [discriminate|].
    match type of Hupdate with
    | context [QuestionResponse_save db now ?x] =>
        assert (QuestionResponse.attempt x = attempt_id
                ∧ QuestionResponse.question x
                  = default question_id (Submission.question request))
          as [Hsame Hmoved]
          by (destruct (Submission.question request),
                       (Submission.text_response request ≫= text_valid),
                       (Submission.response_data request),
                       (Submission.time_spent_seconds request),
                       (Submission.selected_answer_ids request); by simpl);
        destruct (QuestionResponse_save db now x) as [saved db2] eqn:Hsave
    end.
    assert (QuestionResponse.attempt saved = attempt_id
            ∧ QuestionResponse.question saved
              = default question_id (Submission.question request))
      as [Hsaved Hsaved']
      by (by injection Hsave as <- _).
    destruct (evaluate_response _ _ _ _ _ _) as [[out' db3]|] eqn:Heval;
      [|discriminate].
    injection Hupdate as <- <-.
    apply (evaluate_response_frame strip_lower matching_equal ordering_ids)
      in Heval as (_ & _ & _ & Hkept & Hkept').
    rewrite Hkept, Hkept', Hsaved, Hsaved'.
    split; [by left|].
    destruct (Submission.question request) as [moved|] eqn:Hkey; simpl.
    + split; [by right; right|]. split; [|done].
      simpl in Hvalid. by apply bool_decide_eq_true in Hvalid.
    + by split; [left|].
  - destruct (create_response _ _ _ _ _ _) as [[out db1]|] eqn:Hcreate;
      [|discriminate].
    injection Hsubmit as <- <-.
    unfold create_response in Hcreate.
    repeat (match type of Hcreate with
            | (if ?c then _ else _) = _ => destruct c; [discriminate|]
            end).
    destruct (write_integers _); [|discriminate]. simpl in Hcreate.
    destruct (_ || _) eqn:Hrefused; [discriminate|].
    apply orb_false_iff in Hrefused as [_ Hthere].
    apply negb_false_iff, bool_decide_eq_true in Hthere.
    simpl in Hthere.
    injection Hcreate as <- <-. simpl.
    split; [|split; [|by split]].
    + destruct (Submission.attempt_id request); simpl; [by right|by left].
    + destruct (Submission.question_id request); simpl;
        [by right; left|by left].
Qed.

End Submitted.

Lemma X11_witness :
  let expired :=
    QuizAttempt.set_updated_at 6000
      (QuizAttempt.set_status time_expired
         (Sample.attempt in_progress (Some 5000))) in
  submit_question_response (fun s => s) (fun _ _ => false) (fun _ => None)
    (fun s => Some s) (fun _ => true) Sample.timed_db 6000 7 Sample.alice
    1 1 (Submission.of_answer (Some "late") None None None)
  = (Response (ErrorData "Quiz attempt has expired") HTTP_400_BAD_REQUEST,
     set_attempts [expired] Sample.timed_db) ∧
  get_row QuizAttempt.id 1 [expired] = Some expired.
Proof.
  apply (X11_submit_after_time (fun s => s) (fun _ _ => false)
           (fun _ => None) (fun s => Some s) (fun _ => true)
           Sample.timed_db 6000 7 Sample.alice 1 1
           (Submission.of_answer (Some "late") None None None)
           (Sample.attempt in_progress (Some 5000))).
  - reflexivity.
  - apply (bool_decide_unpack _). vm_compute. exact I.
  - apply list_elem_of_singleton. reflexivity.
  - reflexivity.
  - reflexivity.
  - reflexivity.
  - reflexivity.
Defined.

Lemma X12_witness :
  let r := QuestionResponse.mk 7 1 1 ∅ "first" "{}" false 0 0 2000 in
  let request := Submission.of_answer (Some "first") None None None in
  (QuestionResponse.attempt r = 1%positive
   ∨ Submission.attempt_id request = Some (QuestionResponse.attempt r)) ∧
  (QuestionResponse.question r = 1%positive
   ∨ Submission.question_id request = Some (QuestionResponse.question r)
   ∨ Submission.question request = Some (QuestionResponse.question r)) ∧
  is_Some (get_row Question.id (QuestionResponse.question r)
                   [Question.mk 1 1 essay 5 1]) ∧
  [Sample.attempt in_progress None] = [Sample.attempt in_progress None] ∧
  ∃ a question,
    a ∈ [Sample.attempt in_progress None] ∧ QuizAttempt.id a = 1%positive ∧
    QuizAttempt.student a = User.id Sample.alice ∧
    QuizAttempt.status a = in_progress ∧
    question ∈ [Question.mk 1 1 essay 5 1] ∧
    Question.id question = 1%positive ∧
    Question.quiz question = QuizAttempt.quiz a.
Proof.
  apply (X12_submit_stays_in_quiz (fun s => s) (fun _ _ => false)
           (fun _ => None) (fun s => Some s) (fun _ => true)
           (Sample.db_of (Sample.quiz 70 1 None) [Question.mk 1 1 essay 5 1]
                         [Sample.attempt in_progress None] [])
           2000 7 Sample.alice 1 1
           (Submission.of_answer (Some "first") None None None)
           (QuestionResponse.mk 7 1 1 ∅ "first" "{}" false 0 0 2000)
           (Sample.db_of (Sample.quiz 70 1 None) [Question.mk 1 1 essay 5 1]
                         [Sample.attempt in_progress None]
                         [QuestionResponse.mk 7 1 1 ∅ "first" "{}" false 0 0
                                              2000])).
  vm_compute. reflexivity.
Defined.

(** The body of a first submission can name another attempt and mark
    itself: the learner Alice, whose attempt 1 is in progress, submits
    for her attempt a body with the keys [attempt_id], [is_correct] and
    [points_earned], and the row is stored for attempt 2, the completed
    attempt of another student, marked correct with 5 points. *)
Example submit_for_another_attempt :
  let other :=
    QuizAttempt.mk 2 1 21 (Some 2%positive) 1 completed 0 (S754_zero false)
                   false None 0 (Some 1000) (Some 1200) None ∅ 1000 1200 in
  let db := Sample.db_of (Sample.quiz 70 1 None) [Question.mk 1 1 essay 5 1]
                         [Sample.attempt in_progress None; other] [] in
  let request :=
    Submission.mk None None (Some 2%positive) None None None (Some "mine")
                  None (Some true) (Some 5) None None false in
  let out := submit_question_response (fun s => s) (fun _ _ => false)
               (fun _ => None) (fun s => Some s) (fun _ => true) db 2000 7
               Sample.alice 1 1 request in
  fst out
  = Response (ResponseData
                (QuestionResponse.mk 7 2 1 ∅ "mine" "{}" true 5 0 2000))
             HTTP_200_OK ∧
  responses (snd out)
  = [QuestionResponse.mk 7 2 1 ∅ "mine" "{}" true 5 0 2000].
Proof. vm_compute. split; reflexivity. Qed.

(** ** Saving questions and answers *)

Lemma head_insert_by {A} (before : A → A → bool) x rows :
  head (insert_by before x rows)
  = match head rows with
    | Some y => if before y x then Some y else Some x
    | None => Some x
    end.
Proof. destruct rows as [|y rows]; simpl; [done|]. by destruct (before y x). Qed.

(** The first row of a queryset in descending order of [f] has the
    greatest [f]. *)
Lemma first_by_greatest {A} (f : A → Z) rows x :
  first_by (fun a b => f a >? f b) rows = Some x →
  ∀ y, y ∈ rows → f y ≤ f x.
Proof.
  unfold first_by, order_by. revert x.
  induction rows as [|r rows IH]; intros x Hx y Hy.
  - by apply elem_of_nil in Hy.
  - simpl in Hx. rewrite head_insert_by in Hx.
    destruct (head (foldr _ _ rows)) as [z|] eqn:Hz.
    + specialize (IH z eq_refl).
      apply elem_of_cons in Hy as [->|Hy].
      * destruct (f z >? f r) eqn:Hzr; injection Hx as <-; lia.
      * specialize (IH y Hy).
        destruct (f z >? f r) eqn:Hzr; injection Hx as <-; lia.
    + injection Hx as <-. apply head_None in Hz.
      apply elem_of_cons in Hy as [->|Hy]; [lia|].
      apply (elem_of_order_by (fun a b => f a >? f b)) in Hy.
      unfold order_by in Hy. rewrite Hz in Hy. by apply elem_of_nil in Hy.
Qed.

Lemma first_by_None {A} (before : A → A → bool) rows :
  first_by before rows = None → rows = [].
Proof.
  unfold first_by. intros Hnone%head_None.
  destruct rows as [|r rows]; [done|].
  assert (r ∈ order_by before (r :: rows)) as Hr
    by (apply elem_of_order_by, elem_of_cons; by left).
  rewrite Hnone in Hr. by apply elem_of_nil in Hr.
Qed.

(** A question saved with order 0 is written under the order after the
    last of its quiz, when that order and the points fit. *)
Lemma Question_save_row_auto_order db q :
  Question.order q = 0 →
  is_Some (get_row Quiz.id (Question.quiz q) (quizzes db)) →
  fits_column (Question.points q) →
  (∀ other, other ∈ quiz_questions db (Question.quiz q) →
            0 ≤ Question.order other < max_integer) →
  let q' :=
    Question.set_order
      (match first_by (fun a b => Question.order a >? Question.order b)
                      (quiz_questions db (Question.quiz q)) with
       | Some l => Question.order l + 1
       | None => 1
       end) q in
  Question_save_row db q
  = Ok (q', set_questions (save_row Question.id q' (questions db)) db) ∧
  (∀ other, other ∈ quiz_questions db (Question.quiz q) →
            Question.order other < Question.order q').
Proof.
  intros Horder [quiz Hquiz] Hpoints Horders.
  set (last := first_by (fun a b => Question.order a >? Question.order b)
                        (quiz_questions db (Question.quiz q))).
  intros q'.
  assert (∀ other, other ∈ quiz_questions db (Question.quiz q) →
                   Question.order other < Question.order q') as Hgreater.
  { intros other Hother. subst q'. simpl.
    destruct last as [l|] eqn:Hlast.
    - pose proof (first_by_greatest Question.order _ _ Hlast other Hother).
      lia.
    - apply first_by_None in Hlast. rewrite Hlast in Hother.
      by apply elem_of_nil in Hother. }
  assert (fits_column (Question.order q')) as Hfits.
  { subst q'. simpl. destruct last as [l|] eqn:Hlast.
    - apply first_by_elem in Hlast. specialize (Horders l Hlast).
      unfold fits_column. lia.
    - unfold fits_column, max_integer. lia. }
  assert (question_order_taken db q' = false) as Hfree.
  { unfold question_order_taken. apply not_true_is_false.
    intros (other & Hother & Hmatch)%existsb_exists.
    apply andb_prop in Hmatch as [Hmatch _].
    apply andb_prop in Hmatch as [Hsame%bool_decide_eq_true Heq].
    assert (Question.order other < Question.order q'); [|lia].
    apply Hgreater. apply elem_of_filter_list.
    split; [by apply list_elem_of_In|]. by apply bool_decide_eq_true_2. }
  split; [|done].
  unfold Question_save_row. rewrite Horder. simpl. rewrite Hquiz. simpl.
  fold last. fold q'.
  change (write_integers _)
    with (write_integers [Question.points q'; Question.order q']).
  assert (write_integers [Question.points q'; Question.order q'] = Ok tt)
    as -> by (apply write_integers_Ok; by repeat apply Forall_cons_2).
  simpl. rewrite Hfree. simpl.
  by rewrite bool_decide_eq_true_2 by (by exists quiz).
Qed.

(** X13. A question saved with order 0 into a quiz that exists is
    stored as long as its columns hold the values: it is given an order
    above that of every question of the quiz (1 when the quiz has none),
    so the uniqueness of [(quiz, order)] cannot refuse it, and the row is
    written when its points and that order fit their columns. The total
    of the quiz is written after the row: when the sum of the points fits
    the column, [Question.save] returns the question; when it does not,
    [Question.save] raises, and the row of the question stays. *)
Theorem X13_question_save_auto_order db q :
  Question.order q = 0 →
  is_Some (get_row Quiz.id (Question.quiz q) (quizzes db)) →
  fits_column (Question.points q) →
  (∀ other, other ∈ quiz_questions db (Question.quiz q) →
            0 ≤ Question.order other < max_integer) →
  ∃ q' db1,
    Question_save_row db q = Ok (q', db1) ∧
    get_row Question.id (Question.id q) (questions db1) = Some q' ∧
    (∀ other, other ∈ quiz_questions db (Question.quiz q) →
              Question.order other < Question.order q') ∧
    (quiz_questions db (Question.quiz q) = [] → Question.order q' = 1) ∧
    let total :=
      sum_of Question.points (quiz_questions db1 (Question.quiz q)) in
    (fits_column total →
     ∃ db', Question_save db q = Ok (q', db')
            ∧ questions db' = questions db1) ∧
    (¬ fits_column total →
     Question_save db q = Raise OverflowError
     ∨ Question_save db q = Raise IntegrityError).
Proof.
  intros Horder Hquiz Hpoints Horders.
  destruct (Question_save_row_auto_order db q Horder Hquiz Hpoints Horders)
    as [Hrow Hgreater].
  cbv zeta in Hrow, Hgreater.
  set (q' := Question.set_order _ q) in *.
  set (db1 := set_questions (save_row Question.id q' (questions db)) db)
    in *.
  exists q', db1. split; [done|]. split; [|split; [done|split]].
  - apply (get_row_save_row Question.id q').
  - intros Hempty. subst q'. simpl. by rewrite Hempty.
  - cbv zeta. unfold Question_save, calculate_total_points.
    rewrite Hrow. simpl.
    change (Question.quiz q') with (Question.quiz q).
    split.
    + intros Htotal.
      assert (write_integers
                [sum_of Question.points
                        (quiz_questions db1 (Question.quiz q))] = Ok tt)
        as -> by (apply write_integers_Ok; by repeat apply Forall_cons_2).
      simpl. by eexists.
    + intros Htotal.
      destruct (write_integers _) as [[]|e] eqn:Hwrite.
      * apply write_integers_Ok, Forall_cons in Hwrite as [? _]. done.
      * simpl. by apply write_integers_Raise in Hwrite as [-> | ->];
          [left|right].
Qed.

Lemma X13_witness :
  ∃ q' db1,
    Question_save_row (Sample.fresh_db 1 None) (Question.mk 1 1 essay 5 0)
    = Ok (q', db1) ∧
    get_row Question.id 1 (questions db1) = Some q' ∧
    (∀ other, other ∈ quiz_questions (Sample.fresh_db 1 None) 1 →
              Question.order other < Question.order q') ∧
    (quiz_questions (Sample.fresh_db 1 None) 1 = [] → Question.order q' = 1) ∧
    let total := sum_of Question.points (quiz_questions db1 1) in
    (fits_column total →
     ∃ db', Question_save (Sample.fresh_db 1 None)
                          (Question.mk 1 1 essay 5 0) = Ok (q', db')
            ∧ questions db' = questions db1) ∧
    (¬ fits_column total →
     Question_save (Sample.fresh_db 1 None) (Question.mk 1 1 essay 5 0)
     = Raise OverflowError
     ∨ Question_save (Sample.fresh_db 1 None) (Question.mk 1 1 essay 5 0)
       = Raise IntegrityError).
Proof.
  apply (X13_question_save_auto_order (Sample.fresh_db 1 None)
           (Question.mk 1 1 essay 5 0)).
  - reflexivity.
  - eexists. reflexivity.
  - unfold fits_column, max_integer. simpl. lia.
  - intros other Hother. by apply elem_of_nil in Hother.
Defined.

(** Points beyond the 64-bit range are refused, and a question whose
    points do not fit is not written. *)
Example question_points_overflow :
  Question_save (Sample.fresh_db 1 None)
                (Question.mk 1 1 essay 9223372036854775808 0)
  = Raise OverflowError ∧
  Question_save (Sample.fresh_db 1 None) (Question.mk 1 1 essay (-1) 0)
  = Raise IntegrityError.
Proof. vm_compute. split; reflexivity. Qed.

(** X14. Whenever [Question.save] stores a question, the quiz of that
    question is left with a [total_points] equal to the sum of the points
    of its questions, the saved one included. *)
Theorem X14_question_save_total db q q' db' :
  Question_save db q = Ok (q', db') →
  get_row Question.id (Question.id q') (questions db') = Some q' ∧
  ∃ quiz,
    get_row Quiz.id (Question.quiz q') (quizzes db') = Some quiz ∧
    Quiz.total_points quiz
    = sum_of Question.points (quiz_questions db' (Question.quiz q')).
Proof.
  intros Hsave. pose proof Hsave as Hboth. unfold Question_save in Hboth.
  destruct (Question_save_row db q) as [[self db1]|] eqn:Hrow;
    [|discriminate].
  simpl in Hboth.
  destruct (calculate_total_points db1 (Question.quiz self))
    as [[total db2]|] eqn:Htotal; [|discriminate].
  simpl in Hboth. injection Hboth as -> ->.
  apply Question_save_row_frame in Hrow
    as (_ & Hquizzes & _ & _ & Hquestions & Hshape & _ & [quiz Hquiz]).
  apply calculate_total_points_frame in Htotal
    as (_ & Hquestions' & _ & _ & Hquizzes').
  split.
  - rewrite Hquestions', Hquestions.
    apply (get_row_save_row Question.id q').
  - assert (is_Some (get_row Quiz.id (Question.quiz q') (quizzes db')))
      as [quiz' Hquiz'].
    { rewrite Hquizzes', Hquizzes, get_row_fmap_keep.
      - rewrite Hshape. simpl. rewrite Hquiz. by eexists.
      - intros r. by destruct (bool_decide _). }
    exists quiz'. split; [done|].
    by apply (Question_save_total_points db q).
Qed.

Lemma X14_witness :
  get_row Question.id 1
    (questions
       (mkDB [Sample.course] [Sample.enrolled]
             [Quiz.set_total_points 5 (Sample.quiz 70 1 None)]
             [Question.mk 1 1 essay 5 1] [] [] []))
  = Some (Question.mk 1 1 essay 5 1) ∧
  ∃ quiz,
    get_row Quiz.id 1
      (quizzes
         (mkDB [Sample.course] [Sample.enrolled]
               [Quiz.set_total_points 5 (Sample.quiz 70 1 None)]
               [Question.mk 1 1 essay 5 1] [] [] []))
    = Some quiz ∧
    Quiz.total_points quiz
    = sum_of Question.points
        (quiz_questions
           (mkDB [Sample.course] [Sample.enrolled]
                 [Quiz.set_total_points 5 (Sample.quiz 70 1 None)]
                 [Question.mk 1 1 essay 5 1] [] [] []) 1).
Proof.
  apply (X14_question_save_total (Sample.fresh_db 1 None)
           (Question.mk 1 1 essay 5 0) (Question.mk 1 1 essay 5 1)).
  vm_compute. reflexivity.
Defined.

(** X15. [Answer.save] stores an answer of a question that exists when
    its [order] and [match_order] fit their columns; an answer saved with
    order 0 is given an order above that of every answer of its question
    (1 when the question has none), and an answer saved with another order
    keeps it. An answer of a question that is no row is refused. *)
Theorem X15_answer_save_order db a :
  (is_Some (get_row Question.id (Answer.question a) (questions db)) →
   Forall fits_column (option_list (Answer.match_order a)) →
   (Answer.order a ≠ 0 → fits_column (Answer.order a)) →
   (Answer.order a = 0 →
    ∀ other, other ∈ answers db →
             Answer.question other = Answer.question a →
             0 ≤ Answer.order other < max_integer) →
   ∃ a' db',
     Answer_save db a = Ok (a', db') ∧
     get_row Answer.id (Answer.id a) (answers db') = Some a' ∧
     (Answer.order a ≠ 0 → a' = a) ∧
     (Answer.order a = 0 →
      ∀ other, other ∈ answers db →
               Answer.question other = Answer.question a →
               Answer.order other < Answer.order a') ∧
     (Answer.order a = 0 →
      (∀ other, other ∈ answers db →
                Answer.question other ≠ Answer.question a) →
      Answer.order a' = 1))
  ∧ (get_row Question.id (Answer.question a) (questions db) = None →
     ∃ e, Answer_save db a = Raise e).
Proof.
  split.
  - intros [question Hquestion] Hmatch Hgiven Hothers.
    unfold Answer_save. rewrite Hquestion.
    destruct (Z.eqb_spec (Answer.order a) 0) as [Hzero|Hnonzero].
    + specialize (Hothers Hzero). simpl.
      set (last := first_by _ _).
      set (a' := Answer_set_order _ a).
      assert (∀ other, other ∈ answers db →
                       Answer.question other = Answer.question a →
                       Answer.order other < Answer.order a') as Hgreater.
      { intros other Hin Hsame. subst a'. simpl.
        assert (other ∈ List.filter
                  (fun b => bool_decide
                              (Answer.question b = Answer.question a))
                  (answers db)) as Hother.
        { apply elem_of_filter_list. split; [done|].
          by apply bool_decide_eq_true_2. }
        destruct last as [l|] eqn:Hlast.
        - pose proof (first_by_greatest Answer.order _ _ Hlast other Hother).
          lia.
        - apply first_by_None in Hlast. rewrite Hlast in Hother.
          by apply elem_of_nil in Hother. }
      assert (fits_column (Answer.order a')) as Hfits.
      { subst a'. simpl. destruct last as [l|] eqn:Hlast.
        - apply first_by_elem, elem_of_filter_list in Hlast as [Hl Hsame].
          apply bool_decide_eq_true in Hsame.
          specialize (Hothers l Hl Hsame). unfold fits_column. lia.
        - unfold fits_column, max_integer. lia. }
      change (write_integers _)
        with (write_integers
                (Answer.order a' :: option_list (Answer.match_order a'))).
      assert (write_integers
                (Answer.order a' :: option_list (Answer.match_order a'))
              = Ok tt) as ->
        by (apply write_integers_Ok; by apply Forall_cons_2).
      simpl. rewrite Hquestion.
      rewrite bool_decide_eq_true_2 by (by eexists). simpl.
      do 2 eexists. split; [reflexivity|]. simpl.
      split; [apply (get_row_save_row Answer.id a')|].
      split; [done|]. split; [done|].
      intros _ Hnone. subst a'. simpl.
      destruct last as [l|] eqn:Hlast; [|done].
      apply first_by_elem, elem_of_filter_list in Hlast as [Hl Hsame].
      apply bool_decide_eq_true in Hsame. by destruct (Hnone l).
    + simpl.
      assert (write_integers
                (Answer.order a :: option_list (Answer.match_order a))
              = Ok tt) as ->
        by (apply write_integers_Ok; apply Forall_cons_2; auto).
      simpl. rewrite bool_decide_eq_true_2 by (by eexists). simpl.
      do 2 eexists. split; [reflexivity|]. simpl.
      split; [apply (get_row_save_row Answer.id a)|].
      split; [done|]. split; intros; lia.
  - intros Hnone. unfold Answer_save. rewrite Hnone.
    destruct (Answer.order a =? 0); simpl; [by eexists|].
    destruct (write_integers _); simpl; [|by eexists].
    rewrite Hnone. by eexists.
Qed.

Lemma X15_witness :
  let a := Answer.mk 3 1 "Paris" true None 0 in
  let db := set_answers [Answer.mk 1 1 "Rome" false None 1;
                         Answer.mk 2 1 "Oslo" false None 4]
              (Sample.db_of (Sample.quiz 70 1 None)
                            [Question.mk 1 1 multiple_choice 2 1] [] []) in
  ∃ a' db',
    Answer_save db a = Ok (a', db') ∧
    get_row Answer.id (Answer.id a) (answers db') = Some a' ∧
    (Answer.order a ≠ 0 → a' = a) ∧
    (Answer.order a = 0 →
     ∀ other, other ∈ answers db →
              Answer.question other = Answer.question a →
              Answer.order other < Answer.order a') ∧
    (Answer.order a = 0 →
     (∀ other, other ∈ answers db →
               Answer.question other ≠ Answer.question a) →
     Answer.order a' = 1).
Proof.
  intros a db.
  apply (X15_answer_save_order db a).
  - eexists. reflexivity.
  - apply Forall_nil_2.
  - intros Hgiven. by destruct Hgiven.
  - intros _ other Hother _.
    apply elem_of_cons in Hother as [-> | Hother];
      [unfold max_integer; simpl; lia|].
    apply list_elem_of_singleton in Hother as ->.
    unfold max_integer. simpl. lia.
Defined.

(** An answer with a negative order is refused, and so is an answer of a
    question that is no row. *)
Example answer_refused :
  Answer_save (Sample.db_of (Sample.quiz 70 1 None)
                            [Question.mk 1 1 multiple_choice 2 1] [] [])
              (Answer.mk 3 1 "Paris" true None (-7))
  = Raise IntegrityError ∧
  Answer_save (Sample.fresh_db 1 None) (Answer.mk 3 9 "Paris" true None 2)
  = Raise IntegrityError ∧
  Answer_save (Sample.fresh_db 1 None) (Answer.mk 3 9 "Paris" true None 0)
  = Raise DoesNotExist.
Proof. vm_compute. repeat split. Qed.

(** ** Time remaining *)

Lemma int_of_float_negative_sign m e l :
  Py.int_of_float (binary_round_aux Py.prec Py.emax true m e l) ≤ 0.
Proof.
  unfold binary_round_aux.
  destruct (shr_fexp Py.prec Py.emax m e l) as [mrs' e'].
  destruct (shr_fexp Py.prec Py.emax _ e' loc_Exact) as [mrs'' e''].
  destruct (shr_m mrs'') as [|mantissa|mantissa]; simpl; [lia| |lia].
  destruct (e'' <=? Py.emax - Py.prec); simpl; [|lia].
  destruct (0 <=? e'') eqn:Hsign.
  - assert (0 < 2 ^ e'') by (apply Z.pow_pos_nonneg; lia). lia.
  - assert (0 < 2 ^ (- e'')) by (apply Z.pow_pos_nonneg; lia).
    change (Z.neg mantissa) with (- Z.pos mantissa).
    rewrite Z.quot_opp_l by lia.
    assert (0 ≤ Z.pos mantissa ÷ 2 ^ (- e'')); [|lia].
    apply Z.quot_pos; lia.
Qed.

Lemma total_seconds_not_positive td :
  td ≤ 0 → Py.int_of_float (total_seconds td) ≤ 0.
Proof.
  intros Htd. unfold total_seconds.
  destruct td as [|p|p]; [done|lia|]. simpl.
  destruct (SFdiv_core_binary _ _ _ _ _ _) as [[mz ez] lz].
  apply int_of_float_negative_sign.
Qed.

(** X16. [time_remaining_seconds] is absent exactly for the attempts
    without [expires_at]; otherwise it is a number of seconds that is never
    negative, and 0 from the instant [expires_at] on. *)
Theorem X16_time_remaining now a :
  (QuizAttempt.expires_at a = None ↔ time_remaining_seconds now a = None) ∧
  (∀ expires, QuizAttempt.expires_at a = Some expires →
     ∃ seconds,
       time_remaining_seconds now a = Some seconds ∧ 0 ≤ seconds ∧
       (expires ≤ now → seconds = 0)).
Proof.
  unfold time_remaining_seconds. split.
  - by destruct (QuizAttempt.expires_at a).
  - intros expires ->. eexists. split; [reflexivity|]. split; [lia|].
    intros Hdue.
    pose proof (total_seconds_not_positive (expires - now)). lia.
Qed.

(** Ninety seconds and a half before the time is up, 90 seconds remain. *)
Example time_remaining_rounds_down :
  time_remaining_seconds 1000 (Sample.attempt in_progress (Some 90501000))
  = Some 90.
Proof. vm_compute. reflexivity. Qed.

(** ** What every operation keeps *)

Lemma keeps_keys_refl a : keeps_keys a a.
Proof. by repeat split. Qed.

Lemma keeps_keys_same rows : Forall2 keeps_keys rows rows.
Proof. apply Forall_Forall2_diag, Forall_forall. intros. apply keeps_keys_refl. Qed.

Lemma keeps_keys_ids rows rows' :
  Forall2 keeps_keys rows rows' →
  QuizAttempt.id <$> rows' = QuizAttempt.id <$> rows.
Proof.
  induction 1 as [|a a' rows rows' (Hid & _) _ IH]; [done|].
  rewrite !fmap_cons. by rewrite Hid, IH.
Qed.


Lemma keeps_keys_elem rows rows' a :
  Forall2 keeps_keys rows rows' → a ∈ rows →
  ∃ a', a' ∈ rows' ∧ keeps_keys a a'.
Proof.
  induction 1 as [|b b' rows rows' Hb _ IH]; intros Ha.
  - by apply elem_of_nil in Ha.
  - apply elem_of_cons in Ha as [->|Ha].
    + exists b'. split; [apply elem_of_cons; by left|done].
    + destruct (IH Ha) as (a' & Ha' & Hkeys).
      exists a'. split; [apply elem_of_cons; by right|done].
Qed.

(** Saving a row derived from a row of the table keeps every row. *)
Lemma keeps_keys_save_row rows b x :
  NoDup (QuizAttempt.id <$> rows) → b ∈ rows → keeps_keys b x →
  Forall2 keeps_keys rows (save_row QuizAttempt.id x rows).
Proof.
  intros Hnodup Hb Hkeys.
  pose proof Hkeys as (Hid & _).
  rewrite save_row_present
    by (rewrite Hid; by apply (get_row_elem QuizAttempt.id)).
  apply Forall2_fmap_r, Forall_Forall2_diag, Forall_forall.
  intros r Hr. simpl.
  destruct (bool_decide (QuizAttempt.id r = QuizAttempt.id x)) eqn:Hsame;
    [|apply keeps_keys_refl].
  apply bool_decide_eq_true in Hsame.
  assert (r = b) as ->; [|done].
  apply (NoDup_pk_eq QuizAttempt.id rows); [done..|congruence].
Qed.

Section Kept.

Variable strip_lower : string → string.
Variable matching_equal : string → list (uuid * option Z) → bool.
Variable ordering_ids : string → option (list uuid).
Variable graded_data : string → string → string → datetime → option string.
Variable text_valid : string → option string.
Variable seconds_valid : Z → bool.

(** An operation rewrites rows of attempts in place, keeping their keys,
    and only a start adds a row: for a student below the quiz's limit,
    under a fresh key and the next number. *)
Lemma run_attempts_shape db now op :
  NoDup (QuizAttempt.id <$> attempts db) →
  ∃ rows,
    Forall2 keeps_keys (attempts db) rows ∧
    (attempts (run strip_lower matching_equal ordering_ids graded_data
                   text_valid seconds_valid db now op) = rows
     ∨ ∃ new,
         attempts (run strip_lower matching_equal ordering_ids graded_data
                       text_valid seconds_valid db now op) = rows ++ [new]
         ∧ started_row db op new).
Proof.
  intros Hnodup.
  assert (∃ rows,
            Forall2 keeps_keys (attempts db) rows ∧
            (attempts db = rows
             ∨ ∃ new, attempts db = rows ++ [new] ∧ started_row db op new))
    as Hsame
    by (exists (attempts db); split; [apply keeps_keys_same|by left]).
  assert (∀ b x, b ∈ attempts db → keeps_keys b x →
            ∃ rows,
              Forall2 keeps_keys (attempts db) rows ∧
              (save_row QuizAttempt.id x (attempts db) = rows
               ∨ ∃ new,
                   save_row QuizAttempt.id x (attempts db) = rows ++ [new]
                   ∧ started_row db op new)) as Hsaved.
  { intros b x Hb Hkeys. eexists. split; [|left; reflexivity].
    by apply (keeps_keys_save_row _ b). }
  destruct op as [new_id user quiz_id
                 |new_id user attempt_id question_id request_data
                 |user attempt_id
                 |user response_id request_data
                 |question
                 |question_id]; simpl.
  - (* start_quiz_attempt *)
    unfold start_quiz_attempt.
    destruct (negb _); [by simpl|].
    destruct (get_row Quiz.id _ _) as [quiz|] eqn:Hquiz; [|by simpl].
    destruct (active_enrollment _ _ _) as [enrollment|]; [|by simpl].
    destruct (negb _); [by simpl|].
    destruct (_ >=? _) eqn:Hcount; [by simpl|].
    destruct (in_progress_attempt_of _ _ _) as [b|] eqn:Hb.
    + apply in_progress_attempt_of_Some in Hb as [Hb _].
      destruct (is_expired now b); [|by simpl].
      set (db1 := snd (QuizAttempt_save db now
                         (QuizAttempt.set_status time_expired b))).
      assert (Forall2 keeps_keys (attempts db) (attempts db1)) as Hkept.
      { subst db1. unfold QuizAttempt_save. simpl.
        apply (keeps_keys_save_row _ b); [done..|]. by repeat split. }
      destruct (_ ≫= _) as [[out db']|] eqn:Hrun;
        [|exists (attempts db1); split; [done|by left]].
      apply create_then_start_inv in Hrun
        as (_ & _ & Hrows & Hfresh & _ & Hid & Hq & Hs & Hn & _).
      exists (attempts db1). split; [done|]. right.
      exists out. split; [done|].
      exists new_id, user, quiz_id, quiz.
      repeat split; try done.
      * rewrite <- (keeps_keys_ids _ _ Hkept).
        intros (r & Hr & Hin)%list_elem_of_fmap.
        by apply (get_row_None QuizAttempt.id _ _ _ Hfresh Hin).
      * unfold attempt_count. lia.
    + destruct (_ ≫= _) as [[out db']|] eqn:Hrun; [|by simpl].
      apply create_then_start_inv in Hrun
        as (_ & _ & Hrows & Hfresh & _ & Hid & Hq & Hs & Hn & _).
      exists (attempts db). split; [apply keeps_keys_same|]. right.
      exists out. split; [done|].
      exists new_id, user, quiz_id, quiz.
      repeat split; try done.
      * intros (r & Hr & Hin)%list_elem_of_fmap.
        by apply (get_row_None QuizAttempt.id _ _ _ Hfresh Hin).
      * unfold attempt_count. lia.
  - (* submit_question_response *)
    destruct (submit_question_response_frame strip_lower matching_equal
                ordering_ids text_valid seconds_valid db now new_id user
                attempt_id question_id request_data)
      as [_ [-> | (b & Hb & _ & _ & ->)]]; [done|].
    apply (Hsaved b); [done|]. by repeat split.
  - (* complete_quiz_attempt *)
    destruct (complete_quiz_attempt_frame db now user attempt_id)
      as (_ & _ & [-> | (b & scored & Hb & _ & _ & Hscore & ->)]);
      [done|].
    apply calculate_score_shape in Hscore as (p & f & t & ->).
    apply (Hsaved b); [done|]. by repeat split.
  - (* grade_essay_response *)
    destruct (grade_essay_response_frame graded_data db now user
                response_id request_data) as (_ & Hrefused & Hgraded).
    cbv zeta in *.
    destruct (decide (status_code
                        (fst (grade_essay_response graded_data db now user
                                response_id request_data)) = HTTP_200_OK))
      as [Hok|Hno]; [|by rewrite Hrefused].
    destruct (Hgraded Hok)
      as (r & graded & db1 & b & scored & _ & _ & _ & Hb & Hscore & _ & ->).
    apply calculate_score_shape in Hscore as (p & f & t & ->).
    apply get_row_Some in Hb as [Hb _].
    apply (Hsaved b); [done|]. by repeat split.
  - (* Question.save *)
    destruct (Question_save_row db question) as [[out db1]|] eqn:Hsave;
      [|done].
    apply Question_save_row_frame in Hsave as (Hattempts & _).
    destruct (calculate_total_points db1 _) as [[total db2]|] eqn:Htotal;
      [|by rewrite Hattempts].
    apply calculate_total_points_frame in Htotal as (-> & _).
    by rewrite Hattempts.
  - (* question.delete() *)
    done.
Qed.

End Kept.

Section Invariants.

Variable strip_lower : string → string.
Variable matching_equal : string → list (uuid * option Z) → bool.
Variable ordering_ids : string → option (list uuid).
Variable graded_data : string → string → string → datetime → option string.
Variable text_valid : string → option string.
Variable seconds_valid : Z → bool.

(** Primary keys stay unique. *)
Lemma run_NoDup db now op :
  NoDup (QuizAttempt.id <$> attempts db) →
  NoDup (QuizAttempt.id
           <$> attempts (run strip_lower matching_equal ordering_ids
                             graded_data text_valid seconds_valid db now op)).
Proof.
  intros Hnodup.
  destruct (run_attempts_shape strip_lower matching_equal ordering_ids
              graded_data text_valid seconds_valid db now op Hnodup)
    as (rows & Hkept & [-> | (new & -> & Hnew)]).
  - by rewrite (keeps_keys_ids _ _ Hkept).
  - destruct Hnew as (new_id & user & quiz_id & quiz & _ & _ & Hfresh
                      & Hid & _).
    rewrite fmap_app, (keeps_keys_ids _ _ Hkept). simpl.
    apply NoDup_app. split; [done|]. split; [|apply NoDup_singleton].
    intros i Hi ->%list_elem_of_singleton. by rewrite Hid in Hi.
Qed.


(** X17. The snapshot lasts: through any sequence of operations, a stored
    attempt keeps its row, and the row keeps the quiz, the student, the
    attempt number and the [quiz_settings] it has. *)
Theorem X17_snapshot_lasts db steps a :
  NoDup (QuizAttempt.id <$> attempts db) →
  a ∈ attempts db →
  ∃ a', a' ∈ attempts (run_all strip_lower matching_equal ordering_ids
                               graded_data text_valid seconds_valid db steps)
        ∧ keeps_keys a a'.
Proof.
  revert db a. induction steps as [|[now op] steps IH];
    intros db a Hnodup Hin.
  - exists a. split; [done|apply keeps_keys_refl].
  - simpl.
    destruct (run_attempts_shape strip_lower matching_equal ordering_ids
                graded_data text_valid seconds_valid
                db now op Hnodup) as (rows & Hkept & Hrows).
    destruct (keeps_keys_elem _ _ a Hkept Hin) as (b & Hb & Hab).
    destruct (IH (run strip_lower matching_equal ordering_ids
                      graded_data text_valid seconds_valid
                      db now op) b) as (a' & Ha' & Hba).
    + by apply run_NoDup.
    + destruct Hrows as [-> | (new & -> & _)]; [done|].
      apply elem_of_app. by left.
    + exists a'. split; [done|].
      destruct Hab as (? & ? & ? & ? & ?), Hba as (? & ? & ? & ? & ?).
      repeat split; congruence.
Qed.



End Invariants.
Section Limits.

Variable strip_lower : string → string.
Variable matching_equal : string → list (uuid * option Z) → bool.
Variable ordering_ids : string → option (list uuid).
Variable graded_data : string → string → string → datetime → option string.
Variable text_valid : string → option string.
Variable seconds_valid : Z → bool.




End Limits.

Lemma existsb_seqZ_next n :
  0 ≤ n → existsb (fun m => m =? n + 1) (seqZ 1 n) = false.
Proof.
  intros Hn. apply not_true_is_false.
  intros (m & Hm & Heq)%existsb_exists.
  apply list_elem_of_In, elem_of_seqZ in Hm. lia.
Qed.

(** X20. With attempts numbered in sequence, unique primary keys and a
    fresh key for the new row, starting an attempt never runs into the
    uniqueness of [(quiz, student, attempt_number)]. The request is
    answered 500 in one case only: Python cannot represent the quiz's
    time limit or the instant at which the attempt would expire, and
    [start_attempt] raises [OverflowError]. When it can, the request is
    never answered 500. *)
Theorem X20_start_never_fails db now new_id user quiz_id :
  NoDup (QuizAttempt.id <$> attempts db) →
  well_numbered db →
  get_row QuizAttempt.id new_id (attempts db) = None →
  let out := start_quiz_attempt db now new_id user quiz_id in
  (status_code (fst out) = HTTP_500_INTERNAL_SERVER_ERROR →
   fst out = Http500 OverflowError ∧
   ∃ quiz, get_row Quiz.id quiz_id (quizzes db) = Some quiz
           ∧ ¬ expiry_ok now quiz) ∧
  ((∀ quiz, get_row Quiz.id quiz_id (quizzes db) = Some quiz →
            expiry_ok now quiz) →
   status_code (fst out) ≠ HTTP_500_INTERNAL_SERVER_ERROR).
Proof.
  intros Hnodup Hnumbered Hfresh out.
  assert (status_code (fst out) = HTTP_500_INTERNAL_SERVER_ERROR →
          fst out = Http500 OverflowError ∧
          ∃ quiz, get_row Quiz.id quiz_id (quizzes db) = Some quiz
                  ∧ ¬ expiry_ok now quiz) as Hcase.
  2:{ split; [done|]. intros Hexpiry Hfailed.
      destruct (Hcase Hfailed) as (_ & quiz & Hquiz & Hno).
      by apply Hno, Hexpiry. }
  subst out. unfold start_quiz_attempt.
  destruct (negb _); [done|].
  destruct (get_row Quiz.id _ _) as [quiz|] eqn:Hquiz; [|done].
  destruct (active_enrollment _ _ _) as [enrollment|]; [|done].
  destruct (negb _); [done|].
  destruct (_ >=? _); [done|].
  assert (attempt_number_taken db quiz_id (User.id user)
            (Z.of_nat (length (attempts_of db quiz_id (User.id user))) + 1)
          = false) as Hfree.
  { rewrite attempt_number_taken_numbers, Hnumbered.
    apply existsb_seqZ_next. unfold attempt_count. lia. }
  destruct (in_progress_attempt_of _ _ _) as [b|] eqn:Hb.
  - apply in_progress_attempt_of_Some in Hb as [Hb _].
    destruct (is_expired now b); [|done].
    set (db1 := snd (QuizAttempt_save db now
                       (QuizAttempt.set_status time_expired b))).
    assert (get_row QuizAttempt.id new_id (attempts db1) = None) as Hfresh1.
    { subst db1. unfold QuizAttempt_save. cbn [snd attempts set_attempts].
      rewrite save_row_present
        by (simpl; by apply (get_row_elem QuizAttempt.id)).
      rewrite get_row_fmap_keep, Hfresh; [done|].
      intros r. by destruct (bool_decide _) eqn:Hid;
        [apply bool_decide_eq_true in Hid|]. }
    assert (attempt_number_taken db1 quiz_id (User.id user)
              (Z.of_nat (length (attempts_of db quiz_id (User.id user))) + 1)
            = false) as Hfree1.
    { subst db1.
      rewrite attempt_number_taken_numbers, attempt_numbers_save_status
        by done.
      by rewrite <- attempt_number_taken_numbers. }
    destruct (decide (expiry_ok now quiz)) as [Hok|Hno].
    + by rewrite create_then_start with (quiz := quiz).
    + rewrite create_then_start_overflow with (quiz := quiz) by done.
      intros _. split; [done|]. by exists quiz.
  - destruct (decide (expiry_ok now quiz)) as [Hok|Hno].
    + by rewrite create_then_start with (quiz := quiz).
    + rewrite create_then_start_overflow with (quiz := quiz) by done.
      intros _. split; [done|]. by exists quiz.
Qed.

(** ** Deleting a question *)

Lemma get_row_delete_row_ne {A} (pk : A → uuid) i j rows :
  i ≠ j → get_row pk i (delete_row pk j rows) = get_row pk i rows.
Proof.
  intros Hne. unfold get_row, delete_row.
  induction rows as [|r rows IH]; [done|]. simpl.
  destruct (bool_decide (pk r = j)) eqn:Hj; simpl.
  - apply bool_decide_eq_true in Hj.
    rewrite bool_decide_eq_false_2 by congruence. apply IH.
  - destruct (bool_decide (pk r = i)); [done|apply IH].
Qed.

(** X21. Deleting a question leaves no trace of it and breaks no
    reference: the question is gone, no answer and no response of the
    database refers to it, and every response that is left finds its
    question if every response did before. *)
Theorem X21_question_delete db question_id :
  let db' := Question_delete db question_id in
  get_row Question.id question_id (questions db') = None ∧
  (∀ a, a ∈ answers db' → Answer.question a ≠ question_id) ∧
  (∀ r, r ∈ responses db' → QuestionResponse.question r ≠ question_id) ∧
  ((∀ r, r ∈ responses db →
         is_Some (get_row Question.id (QuestionResponse.question r)
                          (questions db))) →
   ∀ r, r ∈ responses db' →
        is_Some (get_row Question.id (QuestionResponse.question r)
                         (questions db'))).
Proof.
  simpl.
  assert (∀ r, r ∈ responses (Question_delete db question_id) →
            ∃ r0, r0 ∈ responses db
                  ∧ QuestionResponse.question r = QuestionResponse.question r0
                  ∧ QuestionResponse.question r0 ≠ question_id) as Hleft.
  { intros r Hr. simpl in Hr.
    apply list_elem_of_fmap in Hr as (r0 & -> & Hr0).
    apply elem_of_filter_list in Hr0 as [Hr0 Hne].
    exists r0. repeat split; [done|].
    apply negb_true_iff, bool_decide_eq_false in Hne. done. }
  repeat split.
  - destruct (get_row _ _ _) as [q|] eqn:Hq; [|done].
    apply get_row_Some in Hq as [Hq Hid]. unfold delete_row in Hq.
    apply elem_of_filter_list in Hq as [_ Hne].
    apply negb_true_iff, bool_decide_eq_false in Hne. done.
  - intros a Ha. apply elem_of_filter_list in Ha as [_ Hne].
    by apply negb_true_iff, bool_decide_eq_false in Hne.
  - intros r Hr. destruct (Hleft r Hr) as (r0 & _ & -> & Hne). done.
  - intros Hrefs r Hr. destruct (Hleft r Hr) as (r0 & Hr0 & -> & Hne).
    rewrite get_row_delete_row_ne by done. by apply Hrefs.
Qed.

(** ** The invariants on sample data *)

Lemma timed_db_well_numbered : well_numbered Sample.timed_db.
Proof.
  intros quiz student.
  unfold attempt_numbers, attempt_count, attempts_of. simpl.
  repeat case_bool_decide; reflexivity.
Qed.


Lemma X17_witness :
  ∃ a', a' ∈ attempts (run_all (fun s => s) (fun _ _ => false)
                               (fun _ => None)
                               (fun _ feedback _ _ => Some feedback)
                               (fun s => Some s) (fun _ => true)
                               Sample.timed_db sample_steps)
        ∧ keeps_keys (Sample.attempt in_progress (Some 5000)) a'.
Proof.
  apply (X17_snapshot_lasts (fun s => s) (fun _ _ => false) (fun _ => None)
           (fun _ feedback _ _ => Some feedback) (fun s => Some s)
           (fun _ => true) Sample.timed_db sample_steps
           (Sample.attempt in_progress (Some 5000))).
  - apply (bool_decide_unpack _). vm_compute. exact I.
  - apply list_elem_of_singleton. reflexivity.
Defined.



Lemma X20_witness :
  status_code (fst (start_quiz_attempt Sample.timed_db 6000 5 Sample.alice 1))
  ≠ HTTP_500_INTERNAL_SERVER_ERROR.
Proof.
  assert (NoDup (QuizAttempt.id <$> attempts Sample.timed_db)) as Hnodup
    by (apply (bool_decide_unpack _); vm_compute; exact I).
  destruct (X20_start_never_fails Sample.timed_db 6000 5 Sample.alice 1
              Hnodup timed_db_well_numbered eq_refl) as [_ Hnever].
  apply Hnever. intros quiz Hquiz.
  vm_compute in Hquiz. injection Hquiz as <-.
  apply (bool_decide_unpack _). vm_compute. exact I.
Defined.

(** The sample steps leave Alice with a first attempt that is
    time-expired and a second one that is completed. *)
Example sample_steps_outcome :
  (fun a => (QuizAttempt.id a, QuizAttempt.attempt_number a,
             QuizAttempt.status a))
    <$> attempts (run_all (fun s => s) (fun _ _ => false) (fun _ => None)
                          (fun _ feedback _ _ => Some feedback)
                          (fun s => Some s) (fun _ => true)
                          Sample.timed_db sample_steps)
  = [(1%positive, 1, time_expired); (5%positive, 2, completed)].
Proof. vm_compute. reflexivity. Qed.

(** ** Analytics *)

Lemma length_insert_by {A} (before : A → A → bool) x rows :
  length (insert_by before x rows) = S (length rows).
Proof.
  induction rows as [|r rows IH]; simpl; [done|].
  destruct (before r x); simpl; by rewrite ?IH.
Qed.

Lemma length_order_by {A} (before : A → A → bool) (rows : list A) :
  length (order_by before rows) = length rows.
Proof.
  unfold order_by. induction rows as [|r rows IH]; simpl; [done|].
  by rewrite length_insert_by, IH.
Qed.

Lemma length_filter_insert_by {A} (P : A → bool) (before : A → A → bool)
    x rows :
  length (List.filter P (insert_by before x rows))
  = length (List.filter P (x :: rows)).
Proof.
  induction rows as [|r rows IH]; [done|].
  simpl in *. destruct (before r x); simpl; [|done].
  destruct (P r), (P x); simpl in *; lia.
Qed.

Lemma length_filter_order_by {A} (P : A → bool) (before : A → A → bool)
    (rows : list A) :
  length (List.filter P (order_by before rows))
  = length (List.filter P rows).
Proof.
  unfold order_by. induction rows as [|r rows IH]; [done|].
  cbn [foldr]. rewrite length_filter_insert_by. simpl.
  destruct (P r); simpl; by rewrite IH.
Qed.

Lemma length_filter_le {A} (P : A → bool) (rows : list A) :
  (length (List.filter P rows) ≤ length rows)%nat.
Proof.
  induction rows as [|r rows IH]; simpl; [done|].
  destruct (P r); simpl; lia.
Qed.

Section AnalyticsProperties.

Variable float_sum : list Py.float → Py.float.
Variable db_avg : list Z → Py.float.

(** X22. [calculate_analytics] always brings the two counters and the
    stamp up to date: [total_attempts] is the number of attempts at the
    quiz, [completed_attempts] the number of those that are completed,
    which is at most the total, and [last_calculated] is now. *)
Theorem X22_analytics_counts db now self :
  let out := calculate_analytics float_sum db_avg db now self in
  let rows :=
    List.filter
      (fun a => bool_decide (QuizAttempt.quiz a = QuizAnalytics.quiz self))
      (attempts db) in
  QuizAnalytics.quiz out = QuizAnalytics.quiz self ∧
  QuizAnalytics.last_calculated out = now ∧
  QuizAnalytics.total_attempts out = Z.of_nat (length rows) ∧
  QuizAnalytics.completed_attempts out
  = Z.of_nat (length (completed_only rows)) ∧
  0 ≤ QuizAnalytics.completed_attempts out
    ≤ QuizAnalytics.total_attempts out.
Proof.
  assert (∀ rows : list QuizAttempt.t,
            length (completed_only (order_by attempt_before rows))
            = length (completed_only rows)) as Hcompleted
    by (intros ?; apply length_filter_order_by).
  intros out rows. subst out. unfold calculate_analytics, quiz_attempts.
  fold rows. rewrite length_order_by, Hcompleted.
  assert (length (completed_only rows) ≤ length rows)%nat as Hle
    by apply length_filter_le.
  destruct (Z.of_nat (length (completed_only rows)) >? 0); simpl;
    repeat split; lia.
Qed.

(** X23. While no attempt at the quiz is completed, [calculate_analytics]
    leaves the averages, the pass rate and the question statistics as they
    are stored, whatever they are: only the counters and the stamp are
    written. *)
Theorem X23_analytics_without_completed db now self :
  (∀ a, a ∈ attempts db → QuizAttempt.quiz a = QuizAnalytics.quiz self →
        QuizAttempt.status a ≠ completed) →
  let out := calculate_analytics float_sum db_avg db now self in
  QuizAnalytics.completed_attempts out = 0 ∧
  QuizAnalytics.average_score out = QuizAnalytics.average_score self ∧
  QuizAnalytics.pass_rate out = QuizAnalytics.pass_rate self ∧
  QuizAnalytics.average_completion_time out
  = QuizAnalytics.average_completion_time self ∧
  QuizAnalytics.question_stats out = QuizAnalytics.question_stats self.
Proof.
  intros Hnone out. subst out. unfold calculate_analytics.
  assert (completed_only (quiz_attempts db (QuizAnalytics.quiz self)) = [])
    as ->; [|done].
  unfold completed_only.
  destruct (List.filter _ _) as [|a rest] eqn:Hfilter; [done|].
  assert (a ∈ a :: rest) as Ha by (apply elem_of_cons; by left).
  rewrite <- Hfilter in Ha.
  apply elem_of_filter_list in Ha as [Ha Hstatus%bool_decide_eq_true].
  unfold quiz_attempts in Ha. apply elem_of_order_by in Ha.
  apply elem_of_filter_list in Ha as [Ha Hquiz%bool_decide_eq_true].
  by destruct (Hnone a Ha Hquiz).
Qed.

(** X24. The question statistics hold an entry only for a question of the
    quiz that has responses in completed attempts; the entry counts those
    responses, and its correct responses are some of them. *)
Theorem X24_question_stats_entries db quiz question_id stats :
  calculate_question_stats db_avg db quiz !! question_id = Some stats →
  (∃ question, question ∈ quiz_questions db quiz
               ∧ Question.id question = question_id) ∧
  QuestionStats.total_responses stats
  = Z.of_nat (length (completed_responses db question_id)) ∧
  0 < QuestionStats.total_responses stats ∧
  0 ≤ QuestionStats.correct_responses stats
    ≤ QuestionStats.total_responses stats.
Proof.
  unfold calculate_question_stats.
  set (good := fun (i : uuid) (s : QuestionStats.t) =>
         (∃ question, question ∈ quiz_questions db quiz
                      ∧ Question.id question = i) ∧
         QuestionStats.total_responses s
         = Z.of_nat (length (completed_responses db i)) ∧
         0 < QuestionStats.total_responses s ∧
         0 ≤ QuestionStats.correct_responses s
           ≤ QuestionStats.total_responses s).
  assert (∀ (l : list Question.t) (acc : gmap uuid QuestionStats.t),
            (∀ q, q ∈ l → q ∈ quiz_questions db quiz) →
            (∀ i s, acc !! i = Some s → good i s) →
            ∀ i s,
              foldl
                (fun question_stats question =>
                   let responses :=
                     completed_responses db (Question.id question) in
                   let total_responses := Z.of_nat (length responses) in
                   if total_responses >? 0 then
                     let correct_responses :=
                       Z.of_nat
                         (length (List.filter QuestionResponse.is_correct
                                              responses)) in
                     let accuracy :=
                       Py.float_mul_int
                         (SFdiv Py.prec Py.emax (Py.raw_int correct_responses)
                                (Py.raw_int total_responses)) 100 in
                     <[Question.id question :=
                         QuestionStats.mk total_responses correct_responses
                           accuracy
                           (db_avg (QuestionResponse.time_spent_seconds
                                      <$> responses))]>
                       question_stats
                   else question_stats)
                acc l !! i = Some s → good i s) as Hfold.
  { induction l as [|q l IH]; intros acc Hl Hacc i s; simpl; [apply Hacc|].
    apply IH.
    - intros q' Hq'. apply Hl, elem_of_cons. by right.
    - intros j t.
      destruct (Z.of_nat (length (completed_responses db (Question.id q)))
                >? 0) eqn:Hpositive; [|apply Hacc].
      destruct (decide (Question.id q = j)) as [<-|Hne].
      + rewrite lookup_insert_eq. intros [= <-]. unfold good. simpl.
        split; [exists q; split; [apply Hl, elem_of_cons; by left|done]|].
        split; [done|]. split; [lia|].
        pose proof (length_filter_le QuestionResponse.is_correct
                      (completed_responses db (Question.id q))).
        lia.
      + rewrite lookup_insert_ne by done. apply Hacc. }
  apply Hfold; [done|]. intros i s. by rewrite lookup_empty.
Qed.

(** X25. A teacher who asks for the analytics of one of their quizzes
    without [refresh=true] is served the stored row as it is until it is
    two full days old; from then on it is calculated anew and stored. *)
Theorem X25_analytics_served_for_two_days db table now user quiz_id refresh
    quiz course stored :
  get_row Quiz.id quiz_id (quizzes db) = Some quiz →
  get_row Course.id (Quiz.course quiz) (courses db) = Some course →
  Course.instructor course = User.id user →
  get_row QuizAnalytics.quiz quiz_id table = Some stored →
  refresh ≠ Some "true" →
  QuizAnalyticsView_get_object float_sum db_avg db table now user quiz_id
                               refresh
  = if now - QuizAnalytics.last_calculated stored <? 172800000000
    then Some (stored, table)
    else Some (calculate_analytics float_sum db_avg db now stored,
               save_row QuizAnalytics.quiz
                 (calculate_analytics float_sum db_avg db now stored) table).
Proof.
  intros Hquiz Hcourse Hinstructor Hstored Hrefresh.
  unfold QuizAnalyticsView_get_object.
  rewrite Hquiz. simpl. rewrite Hcourse. simpl.
  rewrite (bool_decide_eq_true_2 _ Hinstructor). simpl.
  rewrite Hstored, (bool_decide_eq_false_2 _ Hrefresh). simpl.
  destruct (now - QuizAnalytics.last_calculated stored <? 172800000000)
    eqn:Hage.
  - assert ((now - QuizAnalytics.last_calculated stored) / 86400000000 < 2)
      by (apply Z.div_lt_upper_bound; lia).
    assert (((now - QuizAnalytics.last_calculated stored) / 86400000000 >? 1)
            = false) as -> by lia.
    done.
  - assert (2 ≤ (now - QuizAnalytics.last_calculated stored) / 86400000000)
      by (apply Z.div_le_lower_bound; lia).
    assert (((now - QuizAnalytics.last_calculated stored) / 86400000000 >? 1)
            = true) as -> by lia.
    done.
Qed.

End AnalyticsProperties.

Lemma X23_witness :
  let out := calculate_analytics (fun _ => S754_zero false)
               (fun _ => S754_zero false) Sample.timed_db 9000
               earlier_analytics in
  QuizAnalytics.completed_attempts out = 0 ∧
  QuizAnalytics.average_score out
  = QuizAnalytics.average_score earlier_analytics ∧
  QuizAnalytics.pass_rate out = QuizAnalytics.pass_rate earlier_analytics ∧
  QuizAnalytics.average_completion_time out
  = QuizAnalytics.average_completion_time earlier_analytics ∧
  QuizAnalytics.question_stats out
  = QuizAnalytics.question_stats earlier_analytics.
Proof.
  apply (X23_analytics_without_completed (fun _ => S754_zero false)
           (fun _ => S754_zero false) Sample.timed_db 9000
           earlier_analytics).
  intros a Ha%list_elem_of_singleton _. by rewrite Ha.
Defined.

(** The row left from two completed attempts keeps its average of 75, its
    pass rate of 50, its 90 seconds and its entry for question 1 when it
    is calculated for a quiz whose only attempt is in progress; the
    counters become 1 and 0. *)
Example analytics_left_from_completed_attempts :
  let out := calculate_analytics (fun _ => S754_zero false)
               (fun _ => S754_zero false) Sample.timed_db 9000
               earlier_analytics in
  QuizAnalytics.total_attempts out = 1 ∧
  QuizAnalytics.completed_attempts out = 0 ∧
  QuizAnalytics.average_score out = Py.float_of_int 75 ∧
  QuizAnalytics.pass_rate out = Py.float_of_int 50 ∧
  QuizAnalytics.average_completion_time out = 90 ∧
  QuizAnalytics.question_stats out !! 1%positive
  = Some (QuestionStats.mk 2 1 (Py.float_of_int 50) (Py.float_of_int 45)) ∧
  QuizAnalytics.last_calculated out = 9000.
Proof. vm_compute. repeat split. Qed.

Lemma X25_witness :
  QuizAnalyticsView_get_object (fun _ => S754_zero false)
    (fun _ => S754_zero false) Sample.essay_db [sample_analytics]
    172799999999 Sample.tina 1 None
  = if 172799999999 - QuizAnalytics.last_calculated sample_analytics
       <? 172800000000
    then Some (sample_analytics, [sample_analytics])
    else Some (calculate_analytics (fun _ => S754_zero false)
                 (fun _ => S754_zero false) Sample.essay_db 172799999999
                 sample_analytics,
               save_row QuizAnalytics.quiz
                 (calculate_analytics (fun _ => S754_zero false)
                    (fun _ => S754_zero false) Sample.essay_db 172799999999
                    sample_analytics) [sample_analytics]).
Proof.
  apply (X25_analytics_served_for_two_days (fun _ => S754_zero false)
           (fun _ => S754_zero false) Sample.essay_db [sample_analytics]
           172799999999 Sample.tina 1 None (Sample.quiz 70 1 None)
           Sample.course sample_analytics).
  - reflexivity.
  - reflexivity.
  - reflexivity.
  - reflexivity.
  - discriminate.
Defined.

(** One microsecond short of two days the stored row is served although
    the essay attempt has been completed since; at two days it is
    calculated anew. *)
Example analytics_two_days :
  (QuizAnalytics.completed_attempts ∘ fst)
    <$> QuizAnalyticsView_get_object (fun _ => S754_zero false)
          (fun _ => S754_zero false) Sample.essay_db [sample_analytics]
          172799999999 Sample.tina 1 None
  = Some 0 ∧
  (QuizAnalytics.completed_attempts ∘ fst)
    <$> QuizAnalyticsView_get_object (fun _ => S754_zero false)
          (fun _ => S754_zero false) Sample.essay_db [sample_analytics]
          172800000000 Sample.tina 1 None
  = Some 1.
Proof. vm_compute. split; reflexivity. Qed.

Lemma X24_witness :
  (∃ question, question ∈ quiz_questions Sample.essay_db 1
               ∧ Question.id question = 1%positive) ∧
  QuestionStats.total_responses
    (QuestionStats.mk 1 0 (S754_zero false) (S754_zero false))
  = Z.of_nat (length (completed_responses Sample.essay_db 1)) ∧
  0 < QuestionStats.total_responses
        (QuestionStats.mk 1 0 (S754_zero false) (S754_zero false)) ∧
  0 ≤ QuestionStats.correct_responses
        (QuestionStats.mk 1 0 (S754_zero false) (S754_zero false))
    ≤ QuestionStats.total_responses
        (QuestionStats.mk 1 0 (S754_zero false) (S754_zero false)).
Proof.
  apply (X24_question_stats_entries (fun _ => S754_zero false)
           Sample.essay_db 1 1
           (QuestionStats.mk 1 0 (S754_zero false) (S754_zero false))).
  vm_compute. reflexivity.
Defined.

(** ** Creating quizzes and questions *)

Lemma get_row_fresh {A} (pk : A → uuid) i rows :
  i ∉ pk <$> rows → get_row pk i rows = None.
Proof.
  intros Hfresh. destruct (get_row pk i rows) as [r|] eqn:Hget; [|done].
  apply get_row_Some in Hget as [Hin <-].
  destruct Hfresh. by apply list_elem_of_fmap_2.
Qed.

Lemma get_row_app_fresh {A} (pk : A → uuid) i rows x :
  get_row pk i rows = None → pk x = i → get_row pk i (rows ++ [x]) = Some x.
Proof.
  unfold get_row. intros Hnone Hpk.
  induction rows as [|r rows IH]; simpl in *.
  - by rewrite bool_decide_eq_true_2.
  - destruct (bool_decide (pk r = i)); [discriminate|]. by apply IH.
Qed.

Lemma sum_of_app {A} (f : A → Z) rows rows' :
  sum_of f (rows ++ rows') = sum_of f rows + sum_of f rows'.
Proof.
  unfold sum_of. induction rows as [|r rows IH]; simpl; [done|].
  rewrite IH. lia.
Qed.

Lemma sum_of_nonneg {A} (f : A → Z) rows :
  Forall (fun r => 0 ≤ f r) rows → 0 ≤ sum_of f rows.
Proof.
  unfold sum_of. induction 1 as [|r rows Hr _ IH]; simpl; lia.
Qed.

(** What [Question.objects.create] leaves when it returns. *)
Lemma Question_create_inv db q q' db' :
  Question_create db q = Ok (q', db') →
  Question_save db q = Ok (q', db') ∧
  q' = Question.set_order (Question.order q') q ∧
  questions db' = questions db ++ [q'] ∧
  answers db' = answers db ∧
  responses db' = responses db ∧
  is_Some (get_row Quiz.id (Question.quiz q) (quizzes db')).
Proof.
  unfold Question_create. case_bool_decide as Hpk; [discriminate|].
  intros Hsave. split; [done|].
  unfold Question_save in Hsave.
  destruct (Question_save_row db q) as [[self db1]|] eqn:Hrow;
    [|discriminate].
  simpl in Hsave.
  destruct (calculate_total_points db1 (Question.quiz self))
    as [[total db2]|] eqn:Htotal; [|discriminate].
  simpl in Hsave. injection Hsave as -> ->.
  apply Question_save_row_frame in Hrow
    as (_ & Hquizzes & Hresponses & Hanswers & Hquestions & Hshape & _
        & [quiz Hquiz]).
  apply calculate_total_points_frame in Htotal
    as (_ & Hquestions' & Hresponses' & Hanswers' & Hquizzes').
  split; [done|].
  split; [|split; [congruence|split; [congruence|]]].
  - rewrite Hquestions', Hquestions. unfold save_row.
    replace (Question.id q') with (Question.id q) by (by rewrite Hshape).
    destruct (get_row Question.id (Question.id q) (questions db)) eqn:Hget;
      [|done].
    destruct Hpk. by eexists.
  - rewrite Hquizzes', Hquizzes, get_row_fmap_keep.
    + rewrite Hquiz. by eexists.
    + intros r. by destruct (bool_decide _).
Qed.

(** What [Answer.save] leaves when it returns. *)
Lemma Answer_save_inv db a a' db' :
  Answer_save db a = Ok (a', db') →
  Answer.id a' = Answer.id a ∧ Answer.question a' = Answer.question a ∧
  db' = set_answers (save_row Answer.id a' (answers db)) db.
Proof.
  unfold Answer_save. intros Hsave.
  destruct (_ : result Answer.t) as [self|] eqn:Hself; [|discriminate].
  simpl in Hsave.
  destruct (write_integers _); [|discriminate]. simpl in Hsave.
  destruct (negb _); [discriminate|].
  injection Hsave as <- <-.
  assert (Answer.id self = Answer.id a
          ∧ Answer.question self = Answer.question a) as [? ?]; [|done].
  destruct (Answer.order a =? 0).
  - destruct (lookup_or_raise _); [|discriminate].
    simpl in Hself. by injection Hself as <-.
  - by injection Hself as <-.
Qed.

(** [Answer.save] stores an answer of a question that exists when its
    [match_order] fits and its order, given or assigned, stays below a
    bound that fits. *)
Lemma Answer_save_fits db a bound :
  is_Some (get_row Question.id (Answer.question a) (questions db)) →
  Forall fits_column (option_list (Answer.match_order a)) →
  0 ≤ Answer.order a ≤ bound → 1 ≤ bound ≤ max_integer →
  (∀ other, other ∈ answers db →
            Answer.question other = Answer.question a →
            0 ≤ Answer.order other < bound) →
  ∃ a',
    Answer_save db a
    = Ok (a', set_answers (save_row Answer.id a' (answers db)) db) ∧
    Answer.id a' = Answer.id a ∧
    Answer.question a' = Answer.question a ∧
    0 ≤ Answer.order a' ≤ bound.
Proof.
  intros [question Hquestion] Hmatch Hgiven Hbound Hothers.
  unfold Answer_save. rewrite Hquestion.
  destruct (Z.eqb_spec (Answer.order a) 0) as [Hzero|Hnonzero]; simpl.
  - set (last := first_by _ _).
    set (a' := Answer_set_order _ a).
    assert (0 ≤ Answer.order a' ≤ bound) as Hfits.
    { subst a'. simpl. destruct last as [l|] eqn:Hlast; [|lia].
      apply first_by_elem, elem_of_filter_list in Hlast as [Hl Hsame].
      apply bool_decide_eq_true in Hsame.
      specialize (Hothers l Hl Hsame). lia. }
    change (write_integers _)
      with (write_integers
              (Answer.order a' :: option_list (Answer.match_order a'))).
    assert (write_integers
              (Answer.order a' :: option_list (Answer.match_order a'))
            = Ok tt) as ->.
    { apply write_integers_Ok, Forall_cons_2; [|done].
      unfold fits_column. lia. }
    simpl. rewrite Hquestion.
    rewrite bool_decide_eq_true_2 by (by eexists). simpl.
    by exists a'.
  - assert (write_integers
              (Answer.order a :: option_list (Answer.match_order a))
            = Ok tt) as ->.
    { apply write_integers_Ok, Forall_cons_2; [|done].
      unfold fits_column. lia. }
    simpl. rewrite bool_decide_eq_true_2 by (by eexists). simpl.
    by exists a.
Qed.

(** Creating answers writes the table of answers only, at its end. *)
Lemma create_answers_inv answers_data db question db' :
  create_answers db question answers_data = Ok db' →
  questions db' = questions db ∧
  quizzes db' = quizzes db ∧
  responses db' = responses db ∧
  ∃ created,
    answers db' = answers db ++ created ∧
    Answer.id <$> created = Answer.id <$> answers_data ∧
    Forall (fun a => Answer.question a = question) created.
Proof.
  revert db. induction answers_data as [|a rest IH]; intros db; simpl.
  - intros [= <-]. repeat split. exists []. by rewrite app_nil_r.
  - unfold Answer_create. case_bool_decide as Hpk; [discriminate|].
    destruct (Answer_save db _) as [[self db1]|] eqn:Hsave;
      [|discriminate].
    simpl. intros Hrest. apply IH in Hrest.
    apply Answer_save_inv in Hsave as (Hid & Hquestion & ->).
    simpl in Hid, Hquestion, Hpk.
    destruct Hrest as (Hquestions & Hquizzes & Hresponses & created
                       & Hanswers & Hids & Hall).
    split; [by rewrite Hquestions|]. split; [by rewrite Hquizzes|].
    split; [by rewrite Hresponses|].
    exists (self :: created). split; [|split].
    + rewrite Hanswers. cbn [answers set_answers]. unfold save_row.
      rewrite Hid.
      destruct (get_row Answer.id (Answer.id a) (answers db)) eqn:Hget.
      * destruct Hpk. by eexists.
      * by rewrite <- app_assoc.
    + rewrite !fmap_cons. by rewrite Hid, Hids.
    + by constructor.
Qed.

(** With new keys, creating the answers of a question that exists cannot
    fail when the orders and the [match_order]s fit, with room above the
    orders for those that are assigned. *)
Lemma create_answers_Ok answers_data db question room :
  is_Some (get_row Question.id question (questions db)) →
  NoDup (Answer.id <$> answers_data) →
  Forall (fun i => i ∉ Answer.id <$> answers db) (Answer.id <$> answers_data) →
  Z.of_nat (length answers_data) ≤ room →
  Forall (fun a => Forall fits_column (option_list (Answer.match_order a))
                   ∧ 0 ≤ Answer.order a
                   ∧ Answer.order a + room ≤ max_integer) answers_data →
  (∀ a, a ∈ answers db → Answer.question a = question →
        0 ≤ Answer.order a
          ≤ max_integer - Z.of_nat (length answers_data)) →
  ∃ db', create_answers db question answers_data = Ok db'.
Proof.
  revert db. induction answers_data as [|a rest IH];
    intros db Hquestion Hnodup Hfresh Hroom Hfits Hstored.
  - by eexists.
  - rewrite fmap_cons in Hnodup, Hfresh.
    apply NoDup_cons in Hnodup as [Hhead Hnodup].
    apply Forall_cons in Hfresh as [Hnew Hfresh].
    apply Forall_cons in Hfits as [(Hmatch & Hsign & Hgiven) Hfits].
    simpl length in Hroom, Hstored.
    cbn [create_answers]. unfold Answer_create.
    rewrite bool_decide_eq_false_2.
    2:{ simpl. rewrite (get_row_fresh Answer.id _ _ Hnew). by intros [? [=]]. }
    destruct (Answer_save_fits db (Answer_with_question question a)
                (max_integer - Z.of_nat (length rest)))
      as (self & -> & Hid & Hself & Horder); try done.
    + simpl. lia.
    + lia.
    + simpl. intros other Hother Hsame.
      specialize (Hstored other Hother Hsame). lia.
    + simpl in Hid, Hself. simpl.
      apply IH; try done.
      * cbn [answers set_answers].
        unfold save_row. rewrite Hid, (get_row_fresh Answer.id _ _ Hnew).
        rewrite fmap_app, fmap_cons, fmap_nil, Hid.
        rewrite Forall_forall in Hfresh. apply Forall_forall.
        intros i Hi Hin.
        apply elem_of_app in Hin as [Hin|Hin%list_elem_of_singleton];
          [by apply (Hfresh i Hi)|].
        subst i. by apply Hhead.
      * lia.
      * cbn [answers set_answers]. intros other Hother Hsame.
        unfold save_row in Hother.
        rewrite Hid, (get_row_fresh Answer.id _ _ Hnew) in Hother.
        apply elem_of_app in Hother as [Hother|Hother].
        -- specialize (Hstored other Hother Hsame). lia.
        -- apply list_elem_of_singleton in Hother as ->. lia.
Qed.



Lemma quiz_questions_new db quiz :
  (∀ q, q ∈ questions db → Question.quiz q ≠ quiz) →
  List.filter (fun q => bool_decide (Question.quiz q = quiz)) (questions db)
  = [].
Proof.
  intros Hnew. induction (questions db) as [|q l IH]; [done|]. simpl.
  rewrite bool_decide_eq_false_2
    by (apply Hnew, elem_of_cons; by left).
  apply IH. intros q' Hq'. apply Hnew, elem_of_cons. by right.
Qed.


Lemma seqZ_snoc k : 0 ≤ k → seqZ 1 (k + 1) = seqZ 1 k ++ [k + 1].
Proof.
  intros Hk. rewrite seqZ_app by lia.
  rewrite (seqZ_cons (1 + k)) by lia.
  rewrite (seqZ_nil _ (Z.pred 1)) by done.
  do 2 f_equal. lia.
Qed.

(** A new question without an order, saved into a quiz whose questions
    are numbered 1 to [k], is stored with order [k + 1] when the order,
    its points and the new total of the quiz fit their columns. *)
Lemma Question_create_next db q k :
  Question.order q = 0 →
  is_Some (get_row Quiz.id (Question.quiz q) (quizzes db)) →
  Question.id q ∉ Question.id <$> questions db →
  Question.order <$> quiz_questions db (Question.quiz q) = seqZ 1 k →
  0 ≤ k < max_integer →
  fits_column (Question.points q) →
  fits_column (sum_of Question.points (quiz_questions db (Question.quiz q))
               + Question.points q) →
  ∃ db', Question_create db q = Ok (Question.set_order (k + 1) q, db').
Proof.
  intros Horder Hquiz Hfresh Horders Hk Hpoints Htotal.
  assert (∀ other, other ∈ quiz_questions db (Question.quiz q) →
                   1 ≤ Question.order other ≤ k) as Hrange.
  { intros other Hother.
    apply (list_elem_of_fmap_2 Question.order) in Hother.
    rewrite Horders in Hother. apply elem_of_seqZ in Hother. lia. }
  destruct (Question_save_row_auto_order db q) as [Hrow _]; try done.
  { intros other Hother. specialize (Hrange other Hother). lia. }
  cbv zeta in Hrow.
  set (last := first_by _ _) in Hrow.
  assert (match last with
          | Some l => Question.order l + 1
          | None => 1
          end = k + 1) as Hnext.
  { destruct last as [l|] eqn:Hlast.
    - pose proof (first_by_elem _ _ _ Hlast) as Hl.
      pose proof (Hrange l Hl).
      assert (k ∈ seqZ 1 k) as Hin by (apply elem_of_seqZ; lia).
      rewrite <- Horders in Hin.
      apply list_elem_of_fmap in Hin as (other & Hother & Hin).
      pose proof (first_by_greatest Question.order _ _ Hlast other Hin).
      lia.
    - apply first_by_None in Hlast. rewrite Hlast in Horders.
      destruct (decide (k = 0)) as [->|]; [done|].
      assert (1 ∈ seqZ 1 k) as Hin by (apply elem_of_seqZ; lia).
      rewrite <- Horders in Hin. by apply elem_of_nil in Hin. }
  rewrite Hnext in Hrow.
  unfold Question_create.
  rewrite bool_decide_eq_false_2.
  2:{ rewrite (get_row_fresh Question.id _ _ Hfresh). by intros [? [=]]. }
  unfold Question_save, calculate_total_points. rewrite Hrow. simpl.
  assert (quiz_questions
            (set_questions
               (save_row Question.id (Question.set_order (k + 1) q)
                         (questions db)) db) (Question.quiz q)
          = quiz_questions db (Question.quiz q)
            ++ [Question.set_order (k + 1) q]) as ->.
  { unfold quiz_questions. cbn [questions set_questions].
    unfold save_row. cbn [Question.id Question.set_order].
    rewrite (get_row_fresh Question.id _ _ Hfresh).
    rewrite List.filter_app. simpl.
    by rewrite bool_decide_eq_true_2. }
  rewrite sum_of_app.
  change (sum_of Question.points [Question.set_order (k + 1) q])
    with (Question.points q + 0).
  rewrite Z.add_0_r.
  assert (write_integers
            [sum_of Question.points (quiz_questions db (Question.quiz q))
             + Question.points q] = Ok tt) as ->
    by (apply write_integers_Ok; by repeat apply Forall_cons_2).
  simpl. by eexists.
Qed.

Lemma fresh_keys_cons db d rest :
  fresh_keys db (d :: rest) →
  (Question.id (QuestionData.question d) ∉ Question.id <$> questions db) ∧
  NoDup (Answer.id <$> QuestionData.answers d) ∧
  Forall (fun i => i ∉ Answer.id <$> answers db)
         (Answer.id <$> QuestionData.answers d) ∧
  ∀ db',
    Question.id <$> questions db'
    = (Question.id <$> questions db) ++ [Question.id (QuestionData.question d)] →
    Answer.id <$> answers db'
    = (Answer.id <$> answers db) ++ (Answer.id <$> QuestionData.answers d) →
    fresh_keys db' rest.
Proof.
  unfold fresh_keys. rewrite !fmap_cons, bind_cons, fmap_app.
  intros (Hnodup & Hnew & Hanswers & Hnewer).
  apply NoDup_cons in Hnodup as [Hhead Hnodup].
  apply Forall_cons in Hnew as [Hfirst Hnew].
  apply NoDup_app in Hanswers as (Hmine & Hapart & Hothers).
  apply Forall_app in Hnewer as [Hmy Hnewer].
  split; [done|]. split; [done|]. split; [done|].
  intros db' -> ->. split; [done|]. split; [|split; [done|]].
  - rewrite Forall_forall in Hnew. apply Forall_forall. intros i Hi Hin.
    apply elem_of_app in Hin as [Hin|Hin%list_elem_of_singleton].
    + by apply (Hnew i Hi).
    + simpl in Hhead. by subst i.
  - rewrite Forall_forall in Hnewer. apply Forall_forall. intros i Hi Hin.
    apply elem_of_app in Hin as [Hin|Hin].
    + by apply (Hnewer i Hi).
    + by apply (Hapart i Hin).
Qed.

(** With new keys and columns that fit, the loop of
    [QuizCreateSerializer.create] cannot fail on questions without an
    order, and it goes on numbering the questions of the quiz. *)
Lemma create_questions_Ok quiz questions_data db k :
  is_Some (get_row Quiz.id quiz (quizzes db)) →
  Question.order <$> quiz_questions db quiz = seqZ 1 k →
  0 ≤ k →
  k + Z.of_nat (length questions_data) ≤ max_integer →
  0 ≤ sum_of Question.points (quiz_questions db quiz) →
  sum_of Question.points (quiz_questions db quiz)
  + sum_of Question.points (QuestionData.question <$> questions_data)
  ≤ max_integer →
  fresh_keys db questions_data →
  (∀ a d, a ∈ answers db → d ∈ questions_data →
          Answer.question a ≠ Question.id (QuestionData.question d)) →
  Forall submitted_fits questions_data →
  ∃ db',
    create_questions db quiz questions_data = Ok db' ∧
    is_Some (get_row Quiz.id quiz (quizzes db')) ∧
    Question.order <$> quiz_questions db' quiz
    = seqZ 1 (k + Z.of_nat (length questions_data)).
Proof.
  revert db k.
  induction questions_data as [|d rest IH];
    intros db k Hquiz Horders Hk Hcount Hsum0 Hsum Hfresh Hapart Hfits.
  - exists db. simpl. by rewrite Z.add_0_r.
  - apply Forall_cons in Hfits as [(Horder & Hpoints & Hanswers) Hfits].
    pose proof Hfresh as (Hkeys & _).
    rewrite fmap_cons in Hkeys. apply NoDup_cons in Hkeys as [Hhead _].
    apply fresh_keys_cons in Hfresh as (Hnew & Hmine & Hmy & Hfresh).
    rewrite fmap_cons in Hsum. cbn [sum_of foldr] in Hsum.
    fold (sum_of Question.points (QuestionData.question <$> rest)) in Hsum.
    assert (0 ≤ sum_of Question.points (QuestionData.question <$> rest))
      as Hrest.
    { apply sum_of_nonneg, Forall_fmap, (Forall_impl _ _ _ Hfits).
      intros d' (_ & [? _] & _). done. }
    simpl length in Hcount.
    cbn [create_questions]. cbv zeta.
    set (q := Question_with_quiz quiz (QuestionData.question d)).
    destruct (Question_create_next db q k) as [db1 Hcreate]; try done.
    { lia. }
    { subst q. simpl. destruct Hpoints. unfold fits_column. lia. }
    rewrite Hcreate. simpl.
    apply Question_create_inv in Hcreate
      as (_ & _ & Hquestions & Hanswers1 & _ & Hquiz1).
    destruct (create_answers_Ok (QuestionData.answers d) db1
                (Question.id (QuestionData.question d))
                (Z.of_nat (length (QuestionData.answers d))))
      as [db2 Hcreated]; try done.
    { rewrite Hquestions.
      rewrite (get_row_app_fresh Question.id _ _
                 (Question.set_order (k + 1) q)); [by eexists| |done].
      by apply get_row_fresh. }
    { by rewrite Hanswers1. }
    { rewrite Hanswers1. intros a Ha Hsame.
      destruct (Hapart a d Ha); [|done]. apply elem_of_cons. by left. }
    rewrite Hcreated. simpl.
    apply create_answers_inv in Hcreated
      as (Hquestions2 & Hquizzes2 & _ & created & Hanswers2 & Hids
          & Hcreated).
    assert (quiz_questions db2 quiz
            = quiz_questions db quiz ++ [Question.set_order (k + 1) q])
      as Hrows.
    { unfold quiz_questions.
      rewrite Hquestions2, Hquestions, List.filter_app. simpl.
      by rewrite bool_decide_eq_true_2. }
    destruct (IH db2 (k + 1)) as (db' & Hloop & Hquiz' & Horders').
    + by rewrite Hquizzes2.
    + rewrite Hrows, fmap_app, Horders. simpl. by rewrite seqZ_snoc.
    + lia.
    + lia.
    + rewrite Hrows, sum_of_app. destruct Hpoints. simpl. lia.
    + rewrite Hrows, sum_of_app. simpl. lia.
    + apply Hfresh.
      * by rewrite Hquestions2, Hquestions, fmap_app.
      * by rewrite Hanswers2, Hanswers1, fmap_app, Hids.
    + intros a d' Ha Hd'. rewrite Hanswers2, Hanswers1 in Ha.
      apply elem_of_app in Ha as [Ha|Ha].
      * apply (Hapart a d' Ha). apply elem_of_cons. by right.
      * rewrite Forall_forall in Hcreated. rewrite (Hcreated a Ha).
        intros Hsame. apply Hhead.
        apply list_elem_of_fmap. exists d'. by split.
    + done.
    + exists db'. split; [done|]. split; [done|].
      rewrite Horders'. f_equal. lia.
Qed.

(** X27. With new keys, [QuizCreateSerializer.create] cannot fail on
    questions that come without an order, as long as the course exists
    and the columns hold the values: the integers of the quiz, the points
    of each question, their sum, the number of questions, and the orders
    and [match_order]s of the answers. The questions are numbered 1, 2,
    ... in the order they are submitted in. *)
Theorem X27_quiz_create_numbers db now validated_data questions_data :
  get_row Quiz.id (Quiz.id validated_data) (quizzes db) = None →
  is_Some (get_row Course.id (Quiz.course validated_data) (courses db)) →
  Forall fits_column
         (Quiz.max_attempts validated_data
          :: Quiz.passing_score validated_data
          :: option_list (Quiz.time_limit_minutes validated_data)) →
  (∀ q, q ∈ questions db → Question.quiz q ≠ Quiz.id validated_data) →
  (∀ a, a ∈ answers db →
        is_Some (get_row Question.id (Answer.question a) (questions db))) →
  fresh_keys db questions_data →
  Forall submitted_fits questions_data →
  sum_of Question.points (QuestionData.question <$> questions_data)
  ≤ max_integer →
  Z.of_nat (length questions_data) ≤ max_integer →
  ∃ quiz db',
    QuizCreateSerializer_create db now validated_data questions_data
    = Ok (quiz, db') ∧
    Question.order <$> quiz_questions db' (Quiz.id validated_data)
    = seqZ 1 (Z.of_nat (length questions_data)).
Proof.
  intros Hpk Hcourse Hcolumns Hnew Hrefs Hfresh Hfits Hsum Hcount.
  unfold QuizCreateSerializer_create. cbv zeta.
  cbn [Quiz.id Quiz.course Quiz.max_attempts Quiz.passing_score
       Quiz.time_limit_minutes].
  apply write_integers_Ok in Hcolumns. rewrite Hcolumns. simpl.
  rewrite (bool_decide_eq_false_2 (is_Some (get_row Quiz.id _ _)))
    by (rewrite Hpk; by intros [? [=]]).
  rewrite bool_decide_eq_true_2 by done. simpl.
  set (quiz0 := Quiz.mk _ _ _ _ _ 0 _ _ _ _ _ _ _ _ _ now).
  assert (quiz_questions (set_quizzes (quizzes db ++ [quiz0]) db)
                         (Quiz.id validated_data) = []) as Hempty.
  { unfold quiz_questions. cbn [questions set_quizzes].
    by rewrite (quiz_questions_new _ _ Hnew). }
  destruct (create_questions_Ok (Quiz.id validated_data) questions_data
              (set_quizzes (quizzes db ++ [quiz0]) db) 0)
    as (db1 & Hloop & [quiz Hquiz] & Horders); try done.
  - cbn [quizzes set_quizzes].
    rewrite (get_row_app_fresh Quiz.id _ _ quiz0); by eauto.
  - by rewrite Hempty.
  - by rewrite Hempty.
  - by rewrite Hempty.
  - cbn [answers set_quizzes]. intros a d Ha Hd Hsame.
    destruct (Hrefs a Ha) as [row Hrow].
    apply get_row_Some in Hrow as [Hrow Hid].
    destruct Hfresh as (_ & Hfree & _).
    rewrite Forall_forall in Hfree.
    apply (Hfree (Question.id (QuestionData.question d))).
    + apply list_elem_of_fmap. exists d. by split.
    + apply list_elem_of_fmap. exists row. split; [congruence|done].
  - rewrite Hloop. simpl. rewrite Hquiz. simpl.
    exists quiz, db1. split; [done|]. by rewrite Horders.
Qed.

(** What [Question.save] leaves of the answers and the responses. *)
Lemma Question_save_frame db q q' db' :
  Question_save db q = Ok (q', db') →
  Question.id q' = Question.id q ∧
  answers db' = answers db ∧
  responses db' = responses db.
Proof.
  unfold Question_save. intros Hsave.
  destruct (Question_save_row db q) as [[self db1]|] eqn:Hrow;
    [|discriminate].
  simpl in Hsave.
  destruct (calculate_total_points db1 (Question.quiz self))
    as [[total db2]|] eqn:Htotal; [|discriminate].
  simpl in Hsave. injection Hsave as -> ->.
  apply Question_save_row_frame in Hrow
    as (_ & _ & Hresponses & Hanswers & _ & Hshape & _).
  apply calculate_total_points_frame in Htotal
    as (_ & _ & Hresponses' & Hanswers' & _).
  split; [by rewrite Hshape|]. split; congruence.
Qed.

Lemma filter_created (question : uuid) (rows created : list Answer.t) :
  Forall (fun a => Answer.question a = question) created →
  List.filter (fun a => bool_decide (Answer.question a = question))
    (List.filter (fun a => negb (bool_decide (Answer.question a = question)))
                 rows ++ created)
  = created.
Proof.
  intros Hcreated. rewrite List.filter_app.
  assert (List.filter (fun a => bool_decide (Answer.question a = question))
            (List.filter
               (fun a => negb (bool_decide (Answer.question a = question)))
               rows) = []) as ->.
  { induction rows as [|a rows IH]; [done|]. simpl.
    destruct (bool_decide (Answer.question a = question)) eqn:Ha; simpl;
      [done|].
    by rewrite Ha. }
  simpl. induction Hcreated as [|a created Ha _ IH]; [done|]. simpl.
  by rewrite bool_decide_eq_true_2, IH.
Qed.

(** X28. When [QuestionCreateSerializer.update] is given answers, the
    question is left with the submitted answers and no others; every
    response is kept, and none selects an answer the question had before:
    what students had selected among them is gone. *)
Theorem X28_question_update_answers db instance validated_data answers_data
    q' db' :
  QuestionUpdate.answers validated_data = Some answers_data →
  QuestionCreateSerializer_update db instance validated_data
  = Ok (q', db') →
  Answer.id <$> List.filter
                  (fun a => bool_decide
                              (Answer.question a = Question.id instance))
                  (answers db')
  = Answer.id <$> answers_data ∧
  QuestionResponse.id <$> responses db'
  = QuestionResponse.id <$> responses db ∧
  ∀ r a, r ∈ responses db' → a ∈ answers db →
         Answer.question a = Question.id instance →
         Answer.id a ∉ QuestionResponse.selected_answers r.
Proof.
  intros Hdata. unfold QuestionCreateSerializer_update. cbv zeta.
  rewrite Hdata.
  destruct (Question_save db _) as [[saved db1]|] eqn:Hsave; [|discriminate].
  simpl.
  destruct (create_answers _ _ answers_data) as [db2|] eqn:Hcreate;
    [|discriminate].
  simpl. intros [= <- <-].
  apply Question_save_frame in Hsave as (Hid & Hanswers & Hresponses).
  simpl in Hid.
  apply create_answers_inv in Hcreate
    as (_ & _ & Hresponses2 & created & Hanswers2 & Hids & Hcreated).
  cbn [answers responses delete_answers] in Hanswers2, Hresponses2.
  rewrite Hid in *. rewrite Hanswers in *. rewrite Hresponses in *.
  split; [|split].
  - by rewrite Hanswers2, filter_created.
  - rewrite Hresponses2, <- list_fmap_compose. by apply list_fmap_ext.
  - intros r a Hr Ha Hquestion. rewrite Hresponses2 in Hr.
    apply list_elem_of_fmap in Hr as (old & -> & _). simpl.
    intros [_ Hkept]%elem_of_difference. apply Hkept.
    apply elem_of_list_to_set, list_elem_of_fmap. exists a.
    split; [done|]. apply elem_of_filter_list.
    split; [done|]. by apply bool_decide_eq_true_2.
Qed.


Lemma X27_witness :
  ∃ quiz db',
    QuizCreateSerializer_create Sample.essay_db 5000 submitted_quiz
      submitted_questions
    = Ok (quiz, db') ∧
    Question.order <$> quiz_questions db' 2 = seqZ 1 2.
Proof.
  apply (X27_quiz_create_numbers Sample.essay_db 5000 submitted_quiz
           submitted_questions).
  - reflexivity.
  - eexists. reflexivity.
  - unfold fits_column, max_integer. simpl.
    repeat apply Forall_cons_2; [lia..|apply Forall_nil_2].
  - intros q Hq%list_elem_of_singleton. by rewrite Hq.
  - intros a Ha. by apply elem_of_nil in Ha.
  - apply (bool_decide_unpack _). vm_compute. exact I.
  - apply (bool_decide_unpack _). vm_compute. exact I.
  - unfold max_integer. simpl. lia.
  - unfold max_integer. simpl. lia.
Defined.

(** A quiz for a course that is no row is refused, and so is a question
    whose points do not fit the column. *)
Example quiz_create_refused :
  QuizCreateSerializer_create Sample.essay_db 5000
    (Quiz.mk 2 9 None 1 70 0 None None true false false true true true false
             0)
    submitted_questions
  = Raise IntegrityError ∧
  QuizCreateSerializer_create Sample.essay_db 5000 submitted_quiz
    [QuestionData.mk
       (Question.mk 7 2 multiple_choice 9223372036854775808 0) []]
  = Raise OverflowError.
Proof. vm_compute. split; reflexivity. Qed.

Lemma X28_witness :
  Answer.id <$> List.filter
                  (fun a => bool_decide (Answer.question a = 1%positive))
                  (answers updated_db)
  = [21%positive; 22%positive] ∧
  QuestionResponse.id <$> responses updated_db
  = QuestionResponse.id <$> responses (Sample.choice_db {[1%positive; 3%positive]}) ∧
  ∀ r a, r ∈ responses updated_db →
         a ∈ answers (Sample.choice_db {[1%positive; 3%positive]}) →
         Answer.question a = 1%positive →
         Answer.id a ∉ QuestionResponse.selected_answers r.
Proof.
  apply (X28_question_update_answers
           (Sample.choice_db {[1%positive; 3%positive]})
           (Question.mk 1 1 multiple_choice 2 1) submitted_update
           [Answer.mk 21 1 "A" true None 0; Answer.mk 22 1 "B" false None 0]
           (Question.mk 1 1 multiple_choice 2 1) updated_db).
  - reflexivity.
  - vm_compute. reflexivity.
Defined.
